(** * TradeLogger: the ingestion-reconciliation engine of [server/main.py]

    A shallow embedding of the functions of [server/main.py] that talk to
    the remote store, and the properties of the specification proved (or
    refuted) over it.

    Layout: the Python runtime as far as the server uses it (module [Py]:
    strings, JSON values, [datetime]), the effect monad of the server
    (configuration, remote store, clock, caches, call trace, log), the
    functions of [main.py] under their own names, the vocabulary of the
    properties, and then the theorems.

    The handlers are modelled one at a time: a coroutine runs from its
    first statement to its return, and the interleaving of two handlers at
    their [await]s is outside the model. *)

From Stdlib Require Import ZArith String Ascii List Lia Bool DecimalString DecimalZ SpecFloat.
From stdpp Require Import base gmap strings list.
Import ListNotations.

Set Warnings "-register-all".

Local Open Scope string_scope.
Local Open Scope list_scope.
Local Open Scope Z_scope.

(* ===================================================================== *)
(** ** The Python runtime, as far as [main.py] uses it                    *)
(* ===================================================================== *)

(** JSON values, as [response.json()] yields them and [json=] sends them *)

Inductive json : Type :=
| JNull
| JBool (b : bool)
| JInt (n : Z)
| JFloat (x : spec_float)
| JStr (s : string)
| JArr (l : list json)
| JObj (kv : list (string * json)).

(** The exceptions the modelled code can raise.  [HTTPException] is
    FastAPI's; the others are Python's built-in ones
    ([JSONDecodeError] is a [ValueError], kept apart for readability). *)
Inductive exn : Type :=
| HTTPException (status_code : Z) (detail : string)
| ValueError
| JSONDecodeError
| TypeError
| KeyError
| AttributeError.

Module Py.

(** *** [str]

    A Python [str] is modelled by a [string] whose characters are code
    points: character [c] stands for the code point [ord c], so the model
    covers the strings over U+0000..U+00FF.  Literals of the source outside
    ASCII are spelled with [chr]. *)

Definition ord (c : ascii) : Z := Z.of_N (N_of_ascii c).
Definition chr (n : N) : ascii := ascii_of_N n.

Definition in_range (lo hi : Z) (c : ascii) : bool :=
  (lo <=? ord c) && (ord c <=? hi).

(** Unicode category Nd below U+0100: the ASCII digits. *)
Definition isdecimal_char (c : ascii) : bool := in_range 48 57 c.

(** Numeric_Type Digit or Decimal below U+0100: the ASCII digits and the
    superscripts U+00B2, U+00B3, U+00B9.  This is what [str.isdigit]
    tests, character by character. *)
Definition isdigit_char (c : ascii) : bool :=
  isdecimal_char c || (ord c =? 178) || (ord c =? 179) || (ord c =? 185).

(** White space below U+0100, as [str.isspace], [str.strip] and the [\s]
    of [re] on a [str] pattern see it. *)
Definition isspace_char (c : ascii) : bool :=
  in_range 9 13 c || in_range 28 32 c || (ord c =? 133) || (ord c =? 160).

Definition chars (s : string) : list ascii := list_ascii_of_string s.

(** [s.isdigit()]: at least one character, and every character a digit. *)
Definition isdigit (s : string) : bool :=
  match chars s with
  | [] => false
  | l => forallb isdigit_char l
  end.

Definition digit_val (c : ascii) : Z := ord c - 48.

Fixpoint lstrip (l : list ascii) : list ascii :=
  match l with
  | c :: r => if isspace_char c then lstrip r else l
  | [] => []
  end.

Definition strip (l : list ascii) : list ascii := rev (lstrip (rev (lstrip l))).

(** The digits of an [int] literal in base 10: decimal digits, single
    underscores allowed between two digits. *)
Fixpoint int_digits (acc : Z) (after_digit : bool) (l : list ascii) : option Z :=
  match l with
  | [] => if after_digit then Some acc else None
  | c :: r =>
      if isdecimal_char c then int_digits (10 * acc + digit_val c) true r
      else if (ord c =? 95) && after_digit then int_digits acc false r
      else None
  end.

(** [int(s)] for a [str]: surrounding white space, an optional sign, the
    digits.  [None] stands for [ValueError]. *)
Definition int (s : string) : option Z :=
  match strip (chars s) with
  | c :: r =>
      if ord c =? 45 then Z.opp <$> int_digits 0 false r
      else if ord c =? 43 then int_digits 0 false r
      else int_digits 0 false (c :: r)
  | [] => None
  end.

(** [str(n)] for an [int]. *)
Definition str_of_int (n : Z) : string := NilZero.string_of_int (Z.to_int n).

(** *** Operations on JSON values

    A [dict] with [str] keys is the association list of its items in
    insertion order (the keys of a decoded object are distinct); a lookup
    finds the first item of that key. *)

Fixpoint assoc (k : string) (kv : list (string * json)) : option json :=
  match kv with
  | [] => None
  | (k', v) :: r => if String.eqb k k' then Some v else assoc k r
  end.

(** [bool(v)]. *)
Definition truthy (v : json) : bool :=
  match v with
  | JNull => false
  | JBool b => b
  | JInt n => negb (n =? 0)
  | JFloat (S754_zero _) => false
  | JFloat _ => true
  | JStr s => negb (String.eqb s "")
  | JArr l => match l with [] => false | _ => true end
  | JObj kv => match kv with [] => false | _ => true end
  end.

(** [len(v)]; [inr TypeError] for a value without length. *)
Definition len (v : json) : exn + Z :=
  match v with
  | JStr s => inr (Z.of_nat (String.length s))
  | JArr l => inr (Z.of_nat (List.length l))
  | JObj kv => inr (Z.of_nat (List.length kv))
  | _ => inl TypeError
  end.

(** [v.get(k, default)]: only a [dict] has [get]. *)
Definition get (v : json) (k : string) (default : json) : exn + json :=
  match v with
  | JObj kv => inr (match assoc k kv with Some x => x | None => default end)
  | _ => inl AttributeError
  end.

(** [v[0]] for a value [v] that already passed [if v:]. *)
Definition item0 (v : json) : exn + json :=
  match v with
  | JArr (x :: _) => inr x
  | JStr (String c _) => inr (JStr (String c ""))
  | JObj _ => inl KeyError
  | _ => inl TypeError
  end.

(** [v["k"]]. *)
Definition item (v : json) (k : string) : exn + json :=
  match v with
  | JObj kv => match assoc k kv with Some x => inr x | None => inl KeyError end
  | _ => inl TypeError
  end.

(** [iter(v)]: the elements of a list, the characters of a string, the keys
    of a dict. *)
Definition iter (v : json) : exn + list json :=
  match v with
  | JArr l => inr l
  | JStr s => inr (map (fun c => JStr (String c "")) (chars s))
  | JObj kv => inr (map (fun p => JStr (fst p)) kv)
  | _ => inl TypeError
  end.

(** [v == s] for a string literal [s]. *)
Definition eq_str (v : json) (s : string) : bool :=
  match v with
  | JStr s' => String.eqb s' s
  | _ => false
  end.

(** *** [datetime]

    A [datetime] object always denotes a real calendar instant: the
    constructor raises [ValueError] otherwise.  The fields carry that
    invariant. *)

Definition is_leap (y : Z) : bool :=
  ((y mod 4 =? 0) && negb (y mod 100 =? 0)) || (y mod 400 =? 0).

Definition days_in_month (y m : Z) : Z :=
  if m =? 2 then (if is_leap y then 29 else 28)
  else if (m =? 4) || (m =? 6) || (m =? 9) || (m =? 11) then 30
  else 31.

Definition fields_ok (y m d hh mm ss us : Z) : bool :=
  (1 <=? y) && (y <=? 9999) && (1 <=? m) && (m <=? 12) &&
  (1 <=? d) && (d <=? days_in_month y m) &&
  (0 <=? hh) && (hh <=? 23) && (0 <=? mm) && (mm <=? 59) &&
  (0 <=? ss) && (ss <=? 59) && (0 <=? us) && (us <=? 999999).

Record datetime : Type := Datetime {
  year : Z; month : Z; day : Z;
  hour : Z; minute : Z; second : Z; microsecond : Z;
  datetime_ok : fields_ok year month day hour minute second microsecond = true
}.

(** [datetime(y, m, d, hh, mm, ss, us)]; [None] stands for [ValueError]. *)
Definition mk_datetime (y m d hh mm ss us : Z) : option datetime :=
  match Sumbool.sumbool_of_bool (fields_ok y m d hh mm ss us) with
  | left ok => Some (Datetime y m d hh mm ss us ok)
  | right _ => None
  end.

Definition digit_char (k : Z) : ascii := chr (Z.to_N (48 + k mod 10)).

(** ["%02d" % n], ["%04d" % n] and ["%06d" % n] on the range of the field
    they print. *)
Definition d2 (n : Z) : list ascii := [digit_char (n / 10); digit_char n].
Definition d4 (n : Z) : list ascii := d2 (n / 100) ++ d2 n.
Definition d6 (n : Z) : list ascii := d2 (n / 10000) ++ d4 n.

(** [dt.isoformat()] of a naive [datetime]: the microseconds are printed
    only when they are not zero. *)
Definition isoformat (dt : datetime) : string :=
  string_of_list_ascii
    (d4 (year dt) ++ ["-"%char] ++ d2 (month dt) ++ ["-"%char] ++ d2 (day dt) ++
     ["T"%char] ++ d2 (hour dt) ++ [":"%char] ++ d2 (minute dt) ++ [":"%char] ++
     d2 (second dt) ++
     (if microsecond dt =? 0 then [] else ["."%char] ++ d6 (microsecond dt))).

(** *** [datetime.strptime]

    The regular expressions of CPython's [_strptime.TimeRE] for the
    directives the server's layouts use.  Each function matches one
    directive at the head of the input and returns its value and the rest.
    The alternatives are tried in the order of the regular expression; as
    every directive of the layouts is followed by a literal that is no
    digit (or by the end of the layout), the first alternative that matches
    is the one the regular expression engine keeps. *)

Definition matcher : Type := list ascii -> option (Z * list ascii).

Definition two (p1 p2 : ascii -> bool) : matcher := fun l =>
  match l with
  | a :: b :: r => if p1 a && p2 b then Some (10 * digit_val a + digit_val b, r) else None
  | _ => None
  end.

Definition one (p : ascii -> bool) : matcher := fun l =>
  match l with
  | a :: r => if p a then Some (digit_val a, r) else None
  | _ => None
  end.

Definition orelse (f g : matcher) : matcher := fun l =>
  match f l with
  | Some x => Some x
  | None => g l
  end.

Definition is_char (k : Z) (c : ascii) : bool := ord c =? k.

(** [%Y]: [\d\d\d\d] *)
Definition re_Y : matcher := fun l =>
  match l with
  | a :: b :: c :: d :: r =>
      if isdecimal_char a && isdecimal_char b && isdecimal_char c && isdecimal_char d
      then Some (1000 * digit_val a + 100 * digit_val b + 10 * digit_val c + digit_val d, r)
      else None
  | _ => None
  end.

(** [%m]: [1[0-2]|0[1-9]|[1-9]] *)
Definition re_m : matcher :=
  orelse (two (is_char 49) (in_range 48 50))
    (orelse (two (is_char 48) (in_range 49 57)) (one (in_range 49 57))).

(** [%d]: [3[0-1]|[1-2]\d|0[1-9]|[1-9]| [1-9]] *)
Definition re_d : matcher :=
  orelse (two (is_char 51) (in_range 48 49))
    (orelse (two (in_range 49 50) isdecimal_char)
      (orelse (two (is_char 48) (in_range 49 57))
        (orelse (one (in_range 49 57))
          (fun l => match l with
                    | a :: r => if is_char 32 a then one (in_range 49 57) r else None
                    | [] => None
                    end)))).

(** [%H]: [2[0-3]|[0-1]\d|\d] *)
Definition re_H : matcher :=
  orelse (two (is_char 50) (in_range 48 51))
    (orelse (two (in_range 48 49) isdecimal_char) (one isdecimal_char)).

(** [%M]: [[0-5]\d|\d] *)
Definition re_M : matcher :=
  orelse (two (in_range 48 53) isdecimal_char) (one isdecimal_char).

(** [%S]: [6[0-1]|[0-5]\d|\d] *)
Definition re_S : matcher :=
  orelse (two (is_char 54) (in_range 48 49))
    (orelse (two (in_range 48 53) isdecimal_char) (one isdecimal_char)).

(** The fields found so far; a field the layout does not mention keeps the
    default of [_strptime] (1900-01-01 00:00:00). *)
Record found : Type := Found {
  f_Y : Z; f_m : Z; f_d : Z; f_H : Z; f_M : Z; f_S : Z
}.

Definition found0 : found := Found 1900 1 1 0 0 0.

Definition set_field (dir : ascii) (v : Z) (f : found) : option found :=
  let k := ord dir in
  if k =? 89 then Some (Found v (f_m f) (f_d f) (f_H f) (f_M f) (f_S f))
  else if k =? 109 then Some (Found (f_Y f) v (f_d f) (f_H f) (f_M f) (f_S f))
  else if k =? 100 then Some (Found (f_Y f) (f_m f) v (f_H f) (f_M f) (f_S f))
  else if k =? 72 then Some (Found (f_Y f) (f_m f) (f_d f) v (f_M f) (f_S f))
  else if k =? 77 then Some (Found (f_Y f) (f_m f) (f_d f) (f_H f) v (f_S f))
  else if k =? 83 then Some (Found (f_Y f) (f_m f) (f_d f) (f_H f) (f_M f) v)
  else None.

Definition directive (dir : ascii) : option matcher :=
  let k := ord dir in
  if k =? 89 then Some re_Y
  else if k =? 109 then Some re_m
  else if k =? 100 then Some re_d
  else if k =? 72 then Some re_H
  else if k =? 77 then Some re_M
  else if k =? 83 then Some re_S
  else None.

(** The layouts are compiled with [re.IGNORECASE]. *)
Definition lower (c : ascii) : ascii :=
  if in_range 65 90 c then chr (Z.to_N (ord c + 32)) else c.

(** Matching the input against a layout: a directive by its regular
    expression, a run of white space of the layout by [\s+], any other
    character by itself (case ignored).  [ws] tells that the previous
    character of the layout was white space.  The whole input must be
    consumed ("unconverted data remains" otherwise). *)
Fixpoint match_layout (fmt : list ascii) (ws : bool) (inp : list ascii) (f : found)
  : option found :=
  match fmt with
  | [] => match inp with [] => Some f | _ => None end
  | c :: fmt' =>
      if is_char 37 c then
        match fmt' with
        | dir :: fmt'' =>
            match directive dir with
            | Some re =>
                match re inp with
                | Some (v, inp') =>
                    match set_field dir v f with
                    | Some f' => match_layout fmt'' false inp' f'
                    | None => None
                    end
                | None => None
                end
            | None => None
            end
        | [] => None
        end
      else if isspace_char c then
        if ws then match_layout fmt' true inp f
        else
          match inp with
          | a :: inp' => if isspace_char a then match_layout fmt' true (lstrip inp') f else None
          | [] => None
          end
      else
        match inp with
        | a :: inp' =>
            if (ord (lower a) =? ord (lower c)) then match_layout fmt' false inp' f else None
        | [] => None
        end
  end.

(** [datetime.strptime(s, fmt)]; [None] stands for [ValueError], the only
    exception it raises on a [str]. *)
Definition strptime (s fmt : string) : option datetime :=
  match match_layout (chars fmt) false (chars s) found0 with
  | Some f => mk_datetime (f_Y f) (f_m f) (f_d f) (f_H f) (f_M f) (f_S f) 0
  | None => None
  end.

End Py.

(* ===================================================================== *)
(** ** The server's world                                                 *)
(* ===================================================================== *)

(** The module-level constants read from the process environment when
    [main.py] is imported. *)
Record Config : Type := {
  NOTION_API_KEY : string;
  NOTION_DATABASE_ID : string;
  NOTION_CUENTAS_DB_ID : string;
  NOTION_ESTRATEGIAS_DB_ID : string;
  NOTION_DRAWDOWN_DB_ID : string
}.

Definition NOTION_API_URL : string := "https://api.notion.com/v1/pages".
Definition NOTION_QUERY_URL : string := "https://api.notion.com/v1/databases".
Definition NOTION_VERSION : string := "2022-06-28".

(** One [client.post(url, headers=..., json=..., timeout=...)]; the
    timeout in seconds. *)
Record Request : Type := {
  url : string;
  headers : list (string * string);
  payload : json;
  timeout : Z
}.

(** What [await client.post(...)] does: raise [httpx.RequestError], or
    return a response, whose body may or may not decode as JSON
    ([content = None] when [response.json()] raises). *)
Inductive HttpResult : Type :=
| RequestError (msg : string)
| Response (status_code : Z) (content : option json).

Inductive LogLevel : Type := INFO | WARNING | ERROR.

(** A call of [logger]: its level, the line of [main.py] it stands on and
    the values its message interpolates. *)
Record LogRecord : Type := {
  levelname : LogLevel;
  lineno : Z;
  args : list json
}.

(** What the server does not control: the remote store, which answers a
    request knowing all the requests of the process so far (the last one
    is the request being answered); the wall clock, read after read; and
    [repr], which [str()] and f-strings apply to a value that is no
    [str]. *)
Record Env : Type := {
  config : Config;
  notion : list Request -> HttpResult;
  now : nat -> Py.datetime;
  repr : json -> string
}.

(** The process state: the two module-level caches, and the footprint of
    the run (requests issued, clock reads, log). *)
Record State : Type := {
  _cache_cuentas : gmap string json;
  _cache_estrategias : gmap Z json;
  calls : list Request;
  clock_reads : nat;
  logs : list LogRecord
}.

Definition initial_state : State :=
  {| _cache_cuentas := ∅; _cache_estrategias := ∅; calls := []; clock_reads := 0; logs := [] |}.

(** *** The monad of the server code: reader, state, exceptions *)

Inductive outcome (A : Type) : Type :=
| Returned (a : A)
| Raised (e : exn).
Arguments Returned {A} a.
Arguments Raised {A} e.

Definition M (A : Type) : Type := Env -> State -> outcome A * State.

Definition ret {A} (a : A) : M A := fun _ st => (Returned a, st).

Definition bind {A B} (m : M A) (k : A -> M B) : M B := fun env st =>
  match m env st with
  | (Returned a, st') => k a env st'
  | (Raised e, st') => (Raised e, st')
  end.

Definition raise {A} (e : exn) : M A := fun _ st => (Raised e, st).

(** A pure Python operation that may raise. *)
Definition lift {A} (r : exn + A) : M A :=
  match r with
  | inr a => ret a
  | inl e => raise e
  end.

Declare Scope py_scope.
Delimit Scope py_scope with py.
Notation "x <- c1 ;; c2" := (bind c1 (fun x => c2))
  (at level 100, c1 at next level, right associativity) : py_scope.
Notation "c1 ;; c2" := (bind c1 (fun _ => c2))
  (at level 100, right associativity) : py_scope.
Local Open Scope py_scope.

(** [try: body except HTTPException as e: handler(e)] *)
Definition try_except_HTTPException {A} (body : M A) (handler : Z -> string -> M A) : M A :=
  fun env st =>
    match body env st with
    | (Raised (HTTPException sc detail), st') => handler sc detail env st'
    | r => r
    end.

Definition the_config : M Config := fun env st => (Returned (config env), st).

(** [_cache_cuentas.get(k)] and [_cache_estrategias.get(k)]: [None] when
    [k not in] the cache. *)
Definition cache_cuentas_get (k : string) : M (option json) := fun _ st =>
  (Returned (_cache_cuentas st !! k), st).

Definition cache_estrategias_get (k : Z) : M (option json) := fun _ st =>
  (Returned (_cache_estrategias st !! k), st).

Definition logger (lvl : LogLevel) (line : Z) (a : list json) : M unit := fun _ st =>
  (Returned tt,
   {| _cache_cuentas := _cache_cuentas st; _cache_estrategias := _cache_estrategias st;
      calls := calls st; clock_reads := clock_reads st;
      logs := logs st ++ [{| levelname := lvl; lineno := line; args := a |}] |}).

(** [datetime.now()] *)
Definition datetime_now : M Py.datetime := fun env st =>
  (Returned (now env (clock_reads st)),
   {| _cache_cuentas := _cache_cuentas st; _cache_estrategias := _cache_estrategias st;
      calls := calls st; clock_reads := S (clock_reads st); logs := logs st |}).

(** [_cache_cuentas[k] = v] and [_cache_estrategias[k] = v] *)
Definition set_cache_cuentas (k : string) (v : json) : M unit := fun _ st =>
  (Returned tt,
   {| _cache_cuentas := <[k := v]> (_cache_cuentas st);
      _cache_estrategias := _cache_estrategias st;
      calls := calls st; clock_reads := clock_reads st; logs := logs st |}).

Definition set_cache_estrategias (k : Z) (v : json) : M unit := fun _ st =>
  (Returned tt,
   {| _cache_cuentas := _cache_cuentas st;
      _cache_estrategias := <[k := v]> (_cache_estrategias st);
      calls := calls st; clock_reads := clock_reads st; logs := logs st |}).

(** [str(v)], also what [f"{v}"] prints. *)
Definition str (v : json) : M string := fun env st =>
  (Returned (match v with JStr s => s | _ => repr env v end), st).

(** [response.json()] *)
Definition response_json (content : option json) : M json :=
  match content with
  | Some v => ret v
  | None => raise JSONDecodeError
  end.

(** [not s] for a [str]. *)
Definition not_ (s : string) : bool := String.eqb s "".

(* ===================================================================== *)
(** ** The functions of [main.py]                                         *)
(* ===================================================================== *)

Definition formatos_posibles : list string :=
  [ "%Y.%m.%dT%H:%M:%S"; "%Y-%m-%dT%H:%M:%S"; "%Y.%m.%d %H:%M:%S"; "%Y-%m-%d %H:%M:%S" ].

(** The [for formato in formatos_posibles] loop of [formatear_fecha_notion]:
    the first layout that parses returns, a [ValueError] moves on. *)
Fixpoint probar_formatos (fecha_str : string) (formatos : list string) : option Py.datetime :=
  match formatos with
  | [] => None
  | formato :: resto =>
      match Py.strptime fecha_str formato with
      | Some fecha_parseada => Some fecha_parseada
      | None => probar_formatos fecha_str resto
      end
  end.

Definition formatear_fecha_notion (fecha_str : string) : M string :=
  if not_ fecha_str then
    t <- datetime_now ;; ret (Py.isoformat t)
  else
    match probar_formatos fecha_str formatos_posibles with
    | Some fecha_parseada => ret (Py.isoformat fecha_parseada)
    | None =>
        logger WARNING 272 [JStr fecha_str] ;;
        t <- datetime_now ;; ret (Py.isoformat t)
    end.

Definition get_notion_headers (cfg : Config) : list (string * string) :=
  [ ("Authorization", "Bearer " +:+ NOTION_API_KEY cfg);
    ("Content-Type", "application/json");
    ("Notion-Version", NOTION_VERSION) ].

(** [await client.post(url, headers=get_notion_headers(), json=payload,
    timeout=t)] on a fresh [httpx.AsyncClient]: the request joins the
    trace and the remote store answers it. *)
Definition client_post (u : string) (p : json) (t : Z) : M HttpResult := fun env st =>
  let req := {| url := u; headers := get_notion_headers (config env);
                payload := p; timeout := t |} in
  let trace := calls st ++ [req] in
  (Returned (notion env trace),
   {| _cache_cuentas := _cache_cuentas st; _cache_estrategias := _cache_estrategias st;
      calls := trace; clock_reads := clock_reads st; logs := logs st |}).

Definition verificar_ticket_payload (ticket : Z) : json :=
  JObj [ ("filter", JObj [ ("property", JStr "Ticket");
                           ("number", JObj [ ("equals", JInt ticket) ]) ]);
         ("page_size", JInt 1) ].

Definition verificar_ticket_existe (ticket : Z) (identificador_cuenta : string) : M bool :=
  cfg <- the_config ;;
  if not_ (NOTION_API_KEY cfg) || not_ (NOTION_DATABASE_ID cfg) then ret false
  else
    let query_url := NOTION_QUERY_URL +:+ "/" +:+ NOTION_DATABASE_ID cfg +:+ "/query" in
    let payload := verificar_ticket_payload ticket in
    response <- client_post query_url payload 30 ;;
    match response with
    | Response status_code content =>
        if status_code =? 200 then
          data <- response_json content ;;
          results <- lift (Py.get data "results" (JArr [])) ;;
          n <- lift (Py.len results) ;;
          ret (0 <? n)
        else
          logger WARNING 328 [JInt status_code] ;;
          ret false
    | RequestError e =>
        logger ERROR 332 [JStr e] ;;
        ret false
    end.

Definition titulo (contenido : string) : json :=
  JObj [ ("title", JArr [ JObj [ ("text", JObj [ ("content", JStr contenido) ]) ] ]) ].

Definition crear_cuenta (nombre_cuenta : string) : M json :=
  cfg <- the_config ;;
  let payload :=
    JObj [ ("parent", JObj [ ("database_id", JStr (NOTION_CUENTAS_DB_ID cfg)) ]);
           ("properties", JObj [ ("Nombre", titulo nombre_cuenta) ]) ] in
  response <- client_post NOTION_API_URL payload 30 ;;
  match response with
  | Response status_code content =>
      if status_code =? 200 then
        data <- response_json content ;;
        page_id <- lift (Py.get data "id" (JStr "")) ;;
        set_cache_cuentas nombre_cuenta page_id ;;
        logger INFO 423 [JStr nombre_cuenta] ;;
        ret page_id
      else
        logger ERROR 426 [JInt status_code] ;;
        ret (JStr "")
  | RequestError e =>
      logger ERROR 430 [JStr e] ;;
      ret (JStr "")
  end.

Definition buscar_cuenta_payload (nombre_cuenta : string) : json :=
  JObj [ ("filter", JObj [ ("property", JStr "Nombre");
                           ("title", JObj [ ("equals", JStr nombre_cuenta) ]) ]);
         ("page_size", JInt 1) ].

Definition buscar_o_crear_cuenta (nombre_cuenta : string) : M json :=
  cached <- cache_cuentas_get nombre_cuenta ;;
  match cached with
  | Some page_id => ret page_id
  | None =>
      cfg <- the_config ;;
      if not_ (NOTION_CUENTAS_DB_ID cfg) then
        logger WARNING 347 [] ;;
        ret (JStr "")
      else
        let query_url := NOTION_QUERY_URL +:+ "/" +:+ NOTION_CUENTAS_DB_ID cfg +:+ "/query" in
        response <- client_post query_url (buscar_cuenta_payload nombre_cuenta) 30 ;;
        match response with
        | Response status_code content =>
            if status_code =? 200 then
              data <- response_json content ;;
              results <- lift (Py.get data "results" (JArr [])) ;;
              if Py.truthy results then
                primero <- lift (Py.item0 results) ;;
                page_id <- lift (Py.item primero "id") ;;
                set_cache_cuentas nombre_cuenta page_id ;;
                ret page_id
              else
                crear_cuenta nombre_cuenta
            else
              logger ERROR 383 [JInt status_code] ;;
              ret (JStr "")
        | RequestError e =>
            logger ERROR 387 [JStr e] ;;
            ret (JStr "")
        end
  end.

(** [f"Estrategia {magic_number}" if magic_number != 0 else "Manual (0)"] *)
Definition nombre_estrategia (magic_number : Z) : string :=
  if negb (magic_number =? 0) then "Estrategia " +:+ Py.str_of_int magic_number
  else "Manual (0)".

Definition crear_estrategia_payload (cfg : Config) (magic_number : Z) : json :=
  JObj [ ("parent", JObj [ ("database_id", JStr (NOTION_ESTRATEGIAS_DB_ID cfg)) ]);
         ("properties", JObj [ ("Nombre", titulo (nombre_estrategia magic_number));
                               ("Magic Number", JObj [ ("number", JInt magic_number) ]) ]) ].

Definition crear_estrategia (magic_number : Z) : M json :=
  cfg <- the_config ;;
  let nombre := nombre_estrategia magic_number in
  let payload := crear_estrategia_payload cfg magic_number in
  response <- client_post NOTION_API_URL payload 30 ;;
  match response with
  | Response status_code content =>
      if status_code =? 200 then
        data <- response_json content ;;
        page_id <- lift (Py.get data "id" (JStr "")) ;;
        set_cache_estrategias magic_number page_id ;;
        logger INFO 524 [JStr nombre; JInt magic_number] ;;
        ret page_id
      else
        logger ERROR 527 [JInt status_code] ;;
        ret (JStr "")
  | RequestError e =>
      logger ERROR 531 [JStr e] ;;
      ret (JStr "")
  end.

Definition buscar_estrategia_payload (magic_number : Z) : json :=
  JObj [ ("filter", JObj [ ("property", JStr "Magic Number");
                           ("number", JObj [ ("equals", JInt magic_number) ]) ]);
         ("page_size", JInt 1) ].

Definition buscar_o_crear_estrategia (magic_number : Z) : M json :=
  cached <- cache_estrategias_get magic_number ;;
  match cached with
  | Some page_id => ret page_id
  | None =>
      cfg <- the_config ;;
      if not_ (NOTION_ESTRATEGIAS_DB_ID cfg) then
        logger WARNING 444 [] ;;
        ret (JStr "")
      else
        let query_url := NOTION_QUERY_URL +:+ "/" +:+ NOTION_ESTRATEGIAS_DB_ID cfg +:+ "/query" in
        response <- client_post query_url (buscar_estrategia_payload magic_number) 30 ;;
        match response with
        | Response status_code content =>
            if status_code =? 200 then
              data <- response_json content ;;
              results <- lift (Py.get data "results" (JArr [])) ;;
              if Py.truthy results then
                primero <- lift (Py.item0 results) ;;
                page_id <- lift (Py.item primero "id") ;;
                set_cache_estrategias magic_number page_id ;;
                ret page_id
              else
                crear_estrategia magic_number
            else
              logger ERROR 479 [JInt status_code] ;;
              ret (JStr "")
        | RequestError e =>
            logger ERROR 483 [JStr e] ;;
            ret (JStr "")
        end
  end.

(** The [for page in data.get("results", [])] loop of
    [obtener_tickets_cuenta]; [tickets] is the list being appended to. *)
Fixpoint extraer_tickets (pages : list json) (tickets : list Z) : M (list Z) :=
  match pages with
  | [] => ret tickets
  | page :: resto =>
      props <- lift (Py.get page "properties" (JObj [])) ;;
      ticket_prop <- lift (Py.get props "Ticket" (JObj [])) ;;
      title_list <- lift (Py.get ticket_prop "title" (JArr [])) ;;
      if Py.truthy title_list then
        primero <- lift (Py.item0 title_list) ;;
        text <- lift (Py.get primero "text" (JObj [])) ;;
        ticket_str <- lift (Py.get text "content" (JStr "")) ;;
        match ticket_str with
        | JStr s =>
            if Py.isdigit s then
              match Py.int s with
              | Some n => extraer_tickets resto (tickets ++ [n])
              | None => raise ValueError
              end
            else extraer_tickets resto tickets
        | _ => raise AttributeError
        end
      else extraer_tickets resto tickets
  end.

Definition obtener_tickets_payload (identificador_cuenta : string) (start_cursor : json) : json :=
  JObj ([ ("filter", JObj [ ("property", JStr "Cuenta");
                            ("select", JObj [ ("equals", JStr identificador_cuenta) ]) ]);
          ("page_size", JInt 100) ]
        ++ (if Py.truthy start_cursor then [ ("start_cursor", start_cursor) ] else [])).

(** The [while has_more] loop of [obtener_tickets_cuenta].  The loop has no
    bound of its own: [fuel] bounds the number of iterations, and [None] is
    returned when it runs out with the loop still going. *)
Fixpoint paginar (fuel : nat) (identificador_cuenta : string)
    (tickets : list Z) (has_more start_cursor : json) {struct fuel} : M (option (list Z)) :=
  if negb (Py.truthy has_more) then ret (Some tickets)
  else
    match fuel with
    | O => ret None
    | S fuel' =>
        cfg <- the_config ;;
        let query_url := NOTION_QUERY_URL +:+ "/" +:+ NOTION_DATABASE_ID cfg +:+ "/query" in
        let payload := obtener_tickets_payload identificador_cuenta start_cursor in
        response <- client_post query_url payload 60 ;;
        match response with
        | Response status_code content =>
            if status_code =? 200 then
              data <- response_json content ;;
              results <- lift (Py.get data "results" (JArr [])) ;;
              pages <- lift (Py.iter results) ;;
              tickets' <- extraer_tickets pages tickets ;;
              has_more' <- lift (Py.get data "has_more" (JBool false)) ;;
              start_cursor' <- lift (Py.get data "next_cursor" JNull) ;;
              paginar fuel' identificador_cuenta tickets' has_more' start_cursor'
            else
              logger ERROR 595 [JInt status_code] ;;
              paginar fuel' identificador_cuenta tickets (JBool false) start_cursor
        | RequestError e =>
            logger ERROR 599 [JStr e] ;;
            paginar fuel' identificador_cuenta tickets (JBool false) start_cursor
        end
    end.

Definition obtener_tickets_cuenta (fuel : nat) (identificador_cuenta : string)
  : M (option (list Z)) :=
  cfg <- the_config ;;
  if not_ (NOTION_API_KEY cfg) || not_ (NOTION_DATABASE_ID cfg) then ret (Some [])
  else paginar fuel identificador_cuenta [] (JBool true) JNull.

Record TradeData : Type := {
  identificador_cuenta : string;
  ticket : Z;
  magic_number : Z;
  simbolo : string;
  direccion : string;
  lotes : spec_float;
  pnl : spec_float;
  resultado : string;
  balance : spec_float;
  fecha_apertura : option string;
  fecha_cierre : string;
  comentario : option string
}.

(** Property names and messages of the source with a character outside
    ASCII. *)
Definition Simbolo : string := "S" +:+ String (Py.chr 237) "mbolo".
Definition Direccion : string := "Direcci" +:+ String (Py.chr 243) "n".
Definition error_de_conexion : string :=
  "Error de conexi" +:+ String (Py.chr 243) "n con Notion: ".

Definition relation (page_id : json) : json :=
  JObj [ ("relation", JArr [ JObj [ ("id", page_id) ] ]) ].

Definition date (start : string) : json :=
  JObj [ ("date", JObj [ ("start", JStr start) ]) ].

Definition select (name : string) : json :=
  JObj [ ("select", JObj [ ("name", JStr name) ]) ].

Definition number (x : spec_float) : json := JObj [ ("number", JFloat x) ].

(** The payload of [enviar_a_notion]: the fixed properties, then the three
    optional ones in the order the source adds them. *)
Definition trade_payload (cfg : Config) (trade : TradeData)
    (fecha_cierre_iso : string) (fecha_apertura_iso : option string)
    (cuenta_page_id estrategia_page_id : json) : json :=
  JObj [ ("parent", JObj [ ("database_id", JStr (NOTION_DATABASE_ID cfg)) ]);
         ("properties",
          JObj ([ (Simbolo, titulo (simbolo trade));
                  ("Ticket", JObj [ ("number", JInt (ticket trade)) ]);
                  (Direccion, select (direccion trade));
                  ("Lotes", number (lotes trade));
                  ("PnL", number (pnl trade));
                  ("Resultado", select (resultado trade));
                  ("Balance", number (balance trade));
                  ("Fecha Cierre", date fecha_cierre_iso);
                  ("Comentario",
                   JObj [ ("rich_text",
                           JArr [ JObj [ ("text",
                             JObj [ ("content",
                                     JStr (match comentario trade with
                                           | Some c => c
                                           | None => ""
                                           end)) ]) ] ]) ]) ]
                ++ (if Py.truthy cuenta_page_id
                    then [ ("Cuenta", relation cuenta_page_id) ] else [])
                ++ (if Py.truthy estrategia_page_id
                    then [ ("Estrategia", relation estrategia_page_id) ] else [])
                ++ (match fecha_apertura_iso with
                    | Some f => if not_ f then [] else [ ("Fecha Apertura", date f) ]
                    | None => []
                    end))) ].

Definition duplicate_result : json :=
  JObj [ ("id", JStr "duplicate");
         ("status", JStr "skipped");
         ("message", JStr "El ticket ya existe en la base de datos") ].

Definition enviar_a_notion (trade : TradeData) (verificar_duplicado : bool) : M json :=
  cfg <- the_config ;;
  if not_ (NOTION_API_KEY cfg) || not_ (NOTION_DATABASE_ID cfg) then
    raise (HTTPException 500 "Notion API Key o Database ID no configurados en el servidor.")
  else
    existe <- (if verificar_duplicado
               then verificar_ticket_existe (ticket trade) (identificador_cuenta trade)
               else ret false) ;;
    if existe then
      logger INFO 631 [JInt (ticket trade)] ;;
      ret duplicate_result
    else
      fecha_cierre_iso <- formatear_fecha_notion (fecha_cierre trade) ;;
      fecha_apertura_iso <-
        match fecha_apertura trade with
        | Some f => if not_ f then ret None
                    else (iso <- formatear_fecha_notion f ;; ret (Some iso))
        | None => ret None
        end ;;
      cuenta_page_id <- buscar_o_crear_cuenta (identificador_cuenta trade) ;;
      estrategia_page_id <- buscar_o_crear_estrategia (magic_number trade) ;;
      let payload := trade_payload cfg trade fecha_cierre_iso fecha_apertura_iso
                       cuenta_page_id estrategia_page_id in
      logger INFO 745 [JInt (ticket trade); JStr (identificador_cuenta trade)] ;;
      response <- client_post NOTION_API_URL payload 30 ;;
      match response with
      | Response status_code content =>
          if status_code =? 200 then
            logger INFO 759 [JInt (ticket trade)] ;;
            response_json content
          else
            error_detail <- response_json content ;;
            logger ERROR 763 [JInt status_code; error_detail] ;;
            message <- lift (Py.get error_detail "message" (JStr "Error desconocido")) ;;
            message_str <- str message ;;
            raise (HTTPException status_code ("Error de Notion: " +:+ message_str))
      | RequestError e =>
          logger ERROR 770 [JStr e] ;;
          raise (HTTPException 503 (error_de_conexion +:+ e))
      end.

Record DrawdownData : Type := {
  dd_identificador_cuenta : string;
  dd_magic_number : Z;
  dd_balance : spec_float;
  equity : spec_float;
  peak_balance : spec_float;
  drawdown_cuenta : spec_float;
  drawdown_cuenta_pct : spec_float;
  drawdown_estrategia : spec_float;
  max_drawdown_estrategia : spec_float;
  peak_estrategia : spec_float;
  timestamp : string
}.

Definition drawdown_payload (cfg : Config) (drawdown : DrawdownData) (fecha_iso : string) : json :=
  JObj [ ("parent", JObj [ ("database_id", JStr (NOTION_DRAWDOWN_DB_ID cfg)) ]);
         ("properties",
          JObj [ ("Timestamp", titulo fecha_iso);
                 ("Cuenta", select (dd_identificador_cuenta drawdown));
                 ("Magic Number", JObj [ ("number", JInt (dd_magic_number drawdown)) ]);
                 ("Balance", number (dd_balance drawdown));
                 ("Equity", number (equity drawdown));
                 ("Peak Balance", number (peak_balance drawdown));
                 ("DD Cuenta ($)", number (drawdown_cuenta drawdown));
                 ("DD Cuenta (%)", number (drawdown_cuenta_pct drawdown));
                 ("DD Estrategia ($)", number (drawdown_estrategia drawdown));
                 ("Max DD Estrategia ($)", number (max_drawdown_estrategia drawdown));
                 ("Peak Estrategia", number (peak_estrategia drawdown)) ]) ].

Definition guardar_drawdown_notion (drawdown : DrawdownData) : M json :=
  cfg <- the_config ;;
  let db_id := if not_ (NOTION_DRAWDOWN_DB_ID cfg)
               then NOTION_DATABASE_ID cfg else NOTION_DRAWDOWN_DB_ID cfg in
  if not_ (NOTION_API_KEY cfg) || not_ db_id then
    logger INFO 794 [JStr (dd_identificador_cuenta drawdown); JFloat (drawdown_cuenta drawdown)] ;;
    ret (JObj [ ("status", JStr "logged_only");
                ("message", JStr "No hay base de datos de drawdown configurada") ])
  else if not_ (NOTION_DRAWDOWN_DB_ID cfg) then
    logger INFO 800 [JStr (dd_identificador_cuenta drawdown); JInt (dd_magic_number drawdown);
                     JFloat (drawdown_cuenta drawdown); JFloat (drawdown_cuenta_pct drawdown);
                     JFloat (drawdown_estrategia drawdown)] ;;
    ret (JObj [ ("status", JStr "logged");
                ("message", JStr "Drawdown registrado en logs") ])
  else
    fecha_iso <- formatear_fecha_notion (timestamp drawdown) ;;
    let payload := drawdown_payload cfg drawdown fecha_iso in
    response <- client_post NOTION_API_URL payload 30 ;;
    match response with
    | Response status_code content =>
        if status_code =? 200 then
          logger INFO 868 [JStr (dd_identificador_cuenta drawdown)] ;;
          response_json content
        else
          error_detail <- response_json content ;;
          logger ERROR 872 [JInt status_code] ;;
          detail <- str error_detail ;;
          ret (JObj [ ("status", JStr "error"); ("detail", JStr detail) ])
    | RequestError e =>
        logger ERROR 876 [JStr e] ;;
        ret (JObj [ ("status", JStr "error"); ("detail", JStr e) ])
    end.

(** The three lists [registrar_trades_batch] appends to. *)
Record Buckets : Type := {
  b_resultados : list json;
  b_errores : list json;
  b_omitidos : list json
}.

(** The body of the [for trade in trades] loop: one [try]/[except]. *)
Definition registrar_uno (trade : TradeData) (b : Buckets) : M Buckets :=
  try_except_HTTPException
    (resultado_notion <- enviar_a_notion trade true ;;
     status <- lift (Py.get resultado_notion "status" JNull) ;;
     if Py.eq_str status "skipped" then
       ret {| b_resultados := b_resultados b; b_errores := b_errores b;
              b_omitidos := b_omitidos b ++
                [ JObj [ ("ticket", JInt (ticket trade)); ("status", JStr "skipped");
                         ("message", JStr "Ya existe") ] ] |}
     else
       page_id <- lift (Py.get resultado_notion "id" (JStr "")) ;;
       ret {| b_resultados := b_resultados b ++
                [ JObj [ ("ticket", JInt (ticket trade)); ("status", JStr "success");
                         ("page_id", page_id) ] ];
              b_errores := b_errores b; b_omitidos := b_omitidos b |})
    (fun _ detail =>
       ret {| b_resultados := b_resultados b;
              b_errores := b_errores b ++
                [ JObj [ ("ticket", JInt (ticket trade)); ("status", JStr "error");
                         ("detail", JStr detail) ] ];
              b_omitidos := b_omitidos b |}).

Fixpoint registrar_todos (trades : list TradeData) (b : Buckets) : M Buckets :=
  match trades with
  | [] => ret b
  | trade :: resto => b' <- registrar_uno trade b ;; registrar_todos resto b'
  end.

(** The response of [/trade/batch] and [/sync]. *)
Record BatchResponse : Type := {
  total_recibidos : Z;
  exitosos : Z;
  omitidos : Z;
  fallidos : Z;
  resultados : list json;
  omitidos_detalle : list json;
  errores : list json
}.

Definition registrar_trades_batch (trades : list TradeData) : M BatchResponse :=
  b <- registrar_todos trades {| b_resultados := []; b_errores := []; b_omitidos := [] |} ;;
  ret {| total_recibidos := Z.of_nat (length trades);
         exitosos := Z.of_nat (length (b_resultados b));
         omitidos := Z.of_nat (length (b_omitidos b));
         fallidos := Z.of_nat (length (b_errores b));
         resultados := b_resultados b;
         omitidos_detalle := b_omitidos b;
         errores := b_errores b |}.

Definition sincronizar_historial (trades : list TradeData) : M BatchResponse :=
  logger INFO 1077 [JInt (Z.of_nat (length trades))] ;;
  registrar_trades_batch trades.

(* ===================================================================== *)
(** ** The endpoints of [main.py]                                         *)
(* ===================================================================== *)

(** [bool(a and b)] for two [str]. *)
Definition both_set (a b : string) : bool := negb (not_ a) && negb (not_ b).

(** [GET /] *)
Definition root : M json :=
  cfg <- the_config ;;
  ret (JObj [ ("status", JStr "online");
              ("service", JStr "MT4 Trade Logger");
              ("version", JStr "2.0.0");
              ("notion_configured",
               JBool (both_set (NOTION_API_KEY cfg) (NOTION_DATABASE_ID cfg)));
              ("drawdown_db_configured", JBool (negb (not_ (NOTION_DRAWDOWN_DB_ID cfg)))) ]).

(** [GET /health] *)
Definition health_check : M json :=
  t <- datetime_now ;;
  ret (JObj [ ("status", JStr "healthy"); ("timestamp", JStr (Py.isoformat t)) ]).

(** [GET /tickets/{identificador_cuenta}]; [None] when the pagination is
    still going as the fuel runs out. *)
Definition obtener_tickets (fuel : nat) (identificador_cuenta : string) : M (option json) :=
  logger INFO 925 [JStr identificador_cuenta] ;;
  found <- obtener_tickets_cuenta fuel identificador_cuenta ;;
  match found with
  | None => ret None
  | Some tickets =>
      logger INFO 929 [JInt (Z.of_nat (length tickets)); JStr identificador_cuenta] ;;
      ret (Some (JObj [ ("cuenta", JStr identificador_cuenta);
                        ("total", JInt (Z.of_nat (length tickets)));
                        ("tickets", JArr (map JInt tickets)) ]))
  end.

(** [POST /trade] *)
Definition registrar_trade (trade : TradeData) : M json :=
  logger INFO 952 [JStr (identificador_cuenta trade); JInt (ticket trade);
                   JStr (simbolo trade); JFloat (pnl trade); JStr (resultado trade)] ;;
  resultado_notion <- enviar_a_notion trade true ;;
  status <- lift (Py.get resultado_notion "status" JNull) ;;
  if Py.eq_str status "skipped" then
    ret (JObj [ ("success", JBool true);
                ("message", JStr ("Trade " +:+ Py.str_of_int (ticket trade) +:+ " ya existe, omitido"));
                ("status", JStr "skipped");
                ("cuenta", JStr (identificador_cuenta trade)) ])
  else
    page_id <- lift (Py.get resultado_notion "id" (JStr "")) ;;
    ret (JObj [ ("success", JBool true);
                ("message", JStr ("Trade " +:+ Py.str_of_int (ticket trade) +:+
                                  " registrado correctamente"));
                ("notion_page_id", page_id);
                ("cuenta", JStr (identificador_cuenta trade)) ]).

(** [POST /drawdown] *)
Definition registrar_drawdown (drawdown : DrawdownData) : M json :=
  logger INFO 1044 [JStr (dd_identificador_cuenta drawdown); JInt (dd_magic_number drawdown);
                    JFloat (drawdown_cuenta drawdown); JFloat (drawdown_cuenta_pct drawdown);
                    JFloat (drawdown_estrategia drawdown)] ;;
  resultado <- guardar_drawdown_notion drawdown ;;
  storage_status <- lift (Py.get resultado "status" (JStr "unknown")) ;;
  ret (JObj [ ("success", JBool true);
              ("message", JStr "Drawdown registrado");
              ("cuenta", JStr (dd_identificador_cuenta drawdown));
              ("magic_number", JInt (dd_magic_number drawdown));
              ("drawdown_cuenta", JFloat (drawdown_cuenta drawdown));
              ("drawdown_estrategia", JFloat (drawdown_estrategia drawdown));
              ("storage_status", storage_status) ]).

(* ===================================================================== *)
(** ** The vocabulary of the properties                                   *)
(* ===================================================================== *)

(** The requests a run adds to the trace. *)
Definition issued (st st' : State) (reqs : list Request) : Prop :=
  calls st' = calls st ++ reqs.

(** The credential or the identifier of the primary collection is not
    configured. *)
Definition unconfigured (cfg : Config) : Prop :=
  NOTION_API_KEY cfg = "" \/ NOTION_DATABASE_ID cfg = "".

(** The one request the Duplicate Checker issues. *)
Definition ticket_query (cfg : Config) (ticket : Z) : Request :=
  {| url := NOTION_QUERY_URL +:+ "/" +:+ NOTION_DATABASE_ID cfg +:+ "/query";
     headers := get_notion_headers cfg;
     payload :=
       JObj [ ("filter", JObj [ ("property", JStr "Ticket");
                                ("number", JObj [ ("equals", JInt ticket) ]) ]);
              ("page_size", JInt 1) ];
     timeout := 30 |}.

(** A remote query failed: the connection failed, or the status of the
    response is not a 2xx. *)
Definition query_failed (r : HttpResult) : Prop :=
  match r with
  | RequestError _ => True
  | Response status_code _ => ~ (200 <= status_code <= 299)
  end.

(** *** ISO 8601

    [YYYY-MM-DDTHH:MM:SS], optionally followed by [.ffffff]: the extended
    format of a local date and time, each field in its range. *)

Fixpoint digits (n : nat) (acc : Z) (l : list ascii) : option (Z * list ascii) :=
  match n with
  | O => Some (acc, l)
  | S n' =>
      match l with
      | c :: r => if Py.isdecimal_char c then digits n' (10 * acc + Py.digit_val c) r else None
      | [] => None
      end
  end.

(** [n] digits whose value lies between [lo] and [hi]. *)
Definition iso_num (n : nat) (lo hi : Z) (l : list ascii) : option (list ascii) :=
  match digits n 0 l with
  | Some (v, r) => if (lo <=? v) && (v <=? hi) then Some r else None
  | None => None
  end.

(** The separator of code point [k]. *)
Definition iso_sep (k : Z) (l : list ascii) : option (list ascii) :=
  match l with
  | c :: r => if Py.ord c =? k then Some r else None
  | [] => None
  end.

(** The fields and separators of [YYYY-MM-DDTHH:MM:SS], each consuming its
    part of the input. *)
Definition iso_seconds_layout : list (list ascii -> option (list ascii)) :=
  [ iso_num 4 0 9999; iso_sep 45; iso_num 2 1 12; iso_sep 45; iso_num 2 1 31;
    iso_sep 84;
    iso_num 2 0 23; iso_sep 58; iso_num 2 0 59; iso_sep 58; iso_num 2 0 59 ].

Fixpoint consume (ps : list (list ascii -> option (list ascii))) (l : list ascii)
  : option (list ascii) :=
  match ps with
  | [] => Some l
  | p :: ps' =>
      match p l with
      | Some r => consume ps' r
      | None => None
      end
  end.

Definition is_iso8601 (s : string) : bool :=
  match consume iso_seconds_layout (Py.chars s) with
  | Some [] => true
  | Some (c :: f) =>
      (Py.ord c =? 46) &&
      match iso_num 6 0 999999 f with
      | Some [] => true
      | _ => false
      end
  | None => false
  end.

(** *** Drawdown Recorder *)

(** The [status] entry of a returned dictionary. *)
Definition status_of (r : outcome json) : option json :=
  match r with
  | Returned (JObj kv) => Py.assoc "status" kv
  | _ => None
  end.

(** The collection a create request writes to: [payload["parent"]["database_id"]]. *)
Definition storage_target (req : Request) : option json :=
  match payload req with
  | JObj kv =>
      match Py.assoc "parent" kv with
      | Some (JObj parent) => Py.assoc "database_id" parent
      | _ => None
      end
  | _ => None
  end.

(** The sentence of the specification about the fallback, for one run:
    without a dedicated collection the recorder stores the snapshot in the
    primary collection when that one is set, and it is exactly when the
    primary collection is unset too that it issues no request and reports
    ["logged_only"]. *)
Definition drawdown_fallback_as_stated (env : Env) (st : State) (drawdown : DrawdownData)
  : Prop :=
  let run := guardar_drawdown_notion drawdown env st in
  NOTION_DRAWDOWN_DB_ID (config env) = "" ->
  (NOTION_DATABASE_ID (config env) <> "" ->
   exists req, issued st (snd run) [req] /\
               storage_target req = Some (JStr (NOTION_DATABASE_ID (config env))))
  /\ (issued st (snd run) [] /\ status_of (fst run) = Some (JStr "logged_only")
      <-> NOTION_DATABASE_ID (config env) = "").

(** *** Relation Resolver *)

(** The lookup and the create of the strategy entity of magic number 0, as
    they go over the wire. *)
Definition manual_query (cfg : Config) : Request :=
  {| url := NOTION_QUERY_URL +:+ "/" +:+ NOTION_ESTRATEGIAS_DB_ID cfg +:+ "/query";
     headers := get_notion_headers cfg;
     payload :=
       JObj [ ("filter", JObj [ ("property", JStr "Magic Number");
                                ("number", JObj [ ("equals", JInt 0) ]) ]);
              ("page_size", JInt 1) ];
     timeout := 30 |}.

Definition manual_create (cfg : Config) : Request :=
  {| url := NOTION_API_URL;
     headers := get_notion_headers cfg;
     payload :=
       JObj [ ("parent", JObj [ ("database_id", JStr (NOTION_ESTRATEGIAS_DB_ID cfg)) ]);
              ("properties",
               JObj [ ("Nombre",
                       JObj [ ("title",
                               JArr [ JObj [ ("text",
                                 JObj [ ("content", JStr "Manual (0)") ]) ] ]) ]);
                      ("Magic Number", JObj [ ("number", JInt 0) ]) ]) ];
     timeout := 30 |}.

(** The sentence of the specification about magic number 0, for one run:
    the resolution returns an identifier that the Trade Recorder attaches
    as a relation (it attaches what passes [if estrategia_page_id:]). *)
Definition manual_strategy_as_stated (env : Env) (st : State) : Prop :=
  exists page_id,
    fst (buscar_o_crear_estrategia 0 env st) = Returned page_id /\
    Py.truthy page_id = true.

(** A resolver called twice in a row on the same key: the second call
    issues no request and returns what the first returned. *)
Definition second_call_silent {K : Type} (resolve : K -> M json) (k : K)
    (env : Env) (st : State) : Prop :=
  let first := resolve k env st in
  let second := resolve k env (snd first) in
  issued (snd first) (snd second) [] /\ fst second = fst first.

(** The sentence of the specification about memoization, for one
    environment and one state. *)
Definition memoization_as_stated (env : Env) (st : State) : Prop :=
  (forall nombre_cuenta, second_call_silent buscar_o_crear_cuenta nombre_cuenta env st) /\
  (forall magic, second_call_silent buscar_o_crear_estrategia magic env st).

(** *** Logging is write-only *)

(** Two states that differ at most in their logs. *)
Definition same_but_logs (st1 st2 : State) : Prop :=
  _cache_cuentas st1 = _cache_cuentas st2 /\
  _cache_estrategias st1 = _cache_estrategias st2 /\
  calls st1 = calls st2 /\
  clock_reads st1 = clock_reads st2.

(** A computation that does not read the log: from states that differ at
    most in their logs it gives the same outcome and states that still
    differ at most in their logs. *)
Definition log_blind {A : Type} (m : M A) : Prop :=
  forall env st1 st2,
    same_but_logs st1 st2 ->
    fst (m env st1) = fst (m env st2) /\
    same_but_logs (snd (m env st1)) (snd (m env st2)).

(** *** The interface of the store

    Section 6 of the specification: a response carries a JSON object; the
    [results] of a query are a list of entities, each an object with an
    [id]. *)

Definition is_object (v : json) : Prop :=
  match v with
  | JObj _ => True
  | _ => False
  end.

Definition is_entity (v : json) : Prop :=
  match v with
  | JObj kv => is_Some (Py.assoc "id" kv)
  | _ => False
  end.

Definition honours_interface (r : HttpResult) : Prop :=
  match r with
  | RequestError _ => True
  | Response _ (Some (JObj kv)) =>
      match Py.assoc "results" kv with
      | None => True
      | Some (JArr l) => Forall is_entity l
      | Some _ => False
      end
  | Response _ _ => False
  end.

Definition well_behaved_store (env : Env) : Prop :=
  forall trace, honours_interface (notion env trace).

(** A computation that, in environment [env] and from any state, either
    returns a value that satisfies [P] or raises an [HTTPException]. *)
Definition ends {A : Type} (env : Env) (m : M A) (P : A -> Prop) : Prop :=
  forall st,
    match fst (m env st) with
    | Returned a => P a
    | Raised (HTTPException _ _) => True
    | Raised _ => False
    end.

(** *** Sample inputs *)

Definition sample_config : Config :=
  {| NOTION_API_KEY := "secret";
     NOTION_DATABASE_ID := "trades";
     NOTION_CUENTAS_DB_ID := "cuentas";
     NOTION_ESTRATEGIAS_DB_ID := "estrategias";
     NOTION_DRAWDOWN_DB_ID := "" |}.

(** No credential at all. *)
Definition empty_config : Config :=
  {| NOTION_API_KEY := ""; NOTION_DATABASE_ID := ""; NOTION_CUENTAS_DB_ID := "";
     NOTION_ESTRATEGIAS_DB_ID := ""; NOTION_DRAWDOWN_DB_ID := "" |}.

(** Credential and primary collection only. *)
Definition primary_only_config : Config :=
  {| NOTION_API_KEY := "secret"; NOTION_DATABASE_ID := "trades"; NOTION_CUENTAS_DB_ID := "";
     NOTION_ESTRATEGIAS_DB_ID := ""; NOTION_DRAWDOWN_DB_ID := "" |}.

Definition epoch : Py.datetime := Py.Datetime 1970 1 1 0 0 0 0 eq_refl.

(** The request being answered. *)
Definition current (trace : list Request) : option Request := last trace.

(** A store without any record: every query finds nothing, every create
    succeeds and returns the identifier ["page-1"]. *)
Definition empty_store (trace : list Request) : HttpResult :=
  match current trace with
  | Some req =>
      if String.eqb (url req) NOTION_API_URL
      then Response 200 (Some (JObj [ ("object", JStr "page"); ("id", JStr "page-1") ]))
      else Response 200 (Some (JObj [ ("results", JArr []); ("has_more", JBool false);
                                      ("next_cursor", JNull) ]))
  | None => RequestError ""
  end.

(** A store that cannot be reached. *)
Definition unreachable_store (trace : list Request) : HttpResult :=
  RequestError "connection refused".

(** A store behind a gateway that answers every create with a 502 whose
    body is an HTML page, not JSON; queries find nothing. *)
Definition bad_gateway_store (trace : list Request) : HttpResult :=
  match current trace with
  | Some req =>
      if String.eqb (url req) NOTION_API_URL
      then Response 502 None
      else Response 200 (Some (JObj [ ("results", JArr []); ("has_more", JBool false);
                                      ("next_cursor", JNull) ]))
  | None => RequestError ""
  end.

(** A page whose [Ticket] title holds the text [s]. *)
Definition ticket_page (s : string) : json :=
  JObj [ ("object", JStr "page"); ("id", JStr "page-1");
         ("properties",
          JObj [ ("Ticket",
                  JObj [ ("type", JStr "title");
                         ("title", JArr [ JObj [ ("text", JObj [ ("content", JStr s) ]) ] ]) ]) ]) ].

(** The superscript two, U+00B2. *)
Definition superscript_two : string := String (Py.chr 178) "".

(** A store whose only page of results holds two tickets: ["10042"] and
    the superscript two. *)
Definition superscript_store (trace : list Request) : HttpResult :=
  Response 200 (Some (JObj [ ("results", JArr [ ticket_page "10042"; ticket_page superscript_two ]);
                             ("has_more", JBool false); ("next_cursor", JNull) ])).

Definition sample_env (cfg : Config) (store : list Request -> HttpResult) : Env :=
  {| config := cfg; notion := store; now := fun _ => epoch; repr := fun _ => "" |}.

Definition sample_trade (n : Z) : TradeData :=
  {| identificador_cuenta := "FTMO_01"; ticket := n; magic_number := 0;
     simbolo := "EURUSD"; direccion := "BUY";
     lotes := S754_zero false; pnl := S754_zero false; resultado := "WIN";
     balance := S754_zero false;
     fecha_apertura := None; fecha_cierre := "2024.03.11T14:22:09";
     comentario := None |}.

Definition sample_drawdown : DrawdownData :=
  {| dd_identificador_cuenta := "FTMO_01"; dd_magic_number := 0;
     dd_balance := S754_zero false; equity := S754_zero false;
     peak_balance := S754_zero false; drawdown_cuenta := S754_zero false;
     drawdown_cuenta_pct := S754_zero false; drawdown_estrategia := S754_zero false;
     max_drawdown_estrategia := S754_zero false; peak_estrategia := S754_zero false;
     timestamp := "2024.03.11T14:22:09" |}.

Definition empty_store_env : Env := sample_env sample_config empty_store.
Definition unreachable_env : Env := sample_env sample_config unreachable_store.
Definition bad_gateway_env : Env := sample_env sample_config bad_gateway_store.
Definition superscript_env : Env := sample_env sample_config superscript_store.
Definition primary_only_env : Env := sample_env primary_only_config empty_store.
Definition empty_config_env : Env := sample_env empty_config empty_store.

(** *** Batch Orchestrator *)

(** The number of entries in the three buckets. *)
Definition filled (b : Buckets) : nat :=
  length (b_resultados b) + length (b_errores b) + length (b_omitidos b).

(* ===================================================================== *)
(** ** Further vocabulary                                                 *)
(* ===================================================================== *)

(** A request that presents the credential and the protocol version. *)
Definition credentialed (cfg : Config) (req : Request) : Prop :=
  headers req =
    [ ("Authorization", "Bearer " +:+ NOTION_API_KEY cfg);
      ("Content-Type", "application/json");
      ("Notion-Version", "2022-06-28") ].

(** A request to the store: a page creation, or a query of a collection. *)
Definition well_addressed (req : Request) : Prop :=
  url req = "https://api.notion.com/v1/pages" \/
  exists db, url req = "https://api.notion.com/v1/databases/" +:+ db +:+ "/query".

(** [st'] is a later state of a run that started in [st]: the trace grew at
    its end, by requests that carry the credential and go to the store; the
    log grew at its end; the clock was only read; and the caches kept every
    entry they had. *)
Record later (env : Env) (st st' : State) : Prop := {
  later_calls :
    exists reqs,
      calls st' = calls st ++ reqs /\
      Forall (fun req => credentialed (config env) req /\ well_addressed req) reqs;
  later_logs : exists l, logs st' = logs st ++ l;
  later_clock : (clock_reads st <= clock_reads st')%nat;
  later_cuentas :
    forall k v, _cache_cuentas st !! k = Some v -> _cache_cuentas st' !! k = Some v;
  later_estrategias :
    forall k v, _cache_estrategias st !! k = Some v -> _cache_estrategias st' !! k = Some v
}.

(** A computation whose final state is always a later state of its initial
    one. *)
Definition steady {A : Type} (m : M A) : Prop :=
  forall env st, later env st (snd (m env st)).

(** A computation that, besides, leaves both caches as they are. *)
Definition quiet {A : Type} (m : M A) : Prop :=
  forall env st,
    later env st (snd (m env st)) /\
    _cache_cuentas (snd (m env st)) = _cache_cuentas st /\
    _cache_estrategias (snd (m env st)) = _cache_estrategias st.

(** A computation whose final state is a later state of every initial state
    that satisfies [P]. *)
Definition steady_when {A : Type} (P : State -> Prop) (m : M A) : Prop :=
  forall env st, P st -> later env st (snd (m env st)).

(** The key is not in the cache. *)
Definition fresh_cuenta (k : string) (st : State) : Prop := _cache_cuentas st !! k = None.
Definition fresh_estrategia (k : Z) (st : State) : Prop := _cache_estrategias st !! k = None.

(** The handlers, as one family, each with its arguments. *)
Inductive handler : Type :=
| GetRoot
| GetHealth
| GetTickets (fuel : nat) (identificador_cuenta : string)
| PostTrade (trade : TradeData)
| PostTradeBatch (trades : list TradeData)
| PostDrawdown (drawdown : DrawdownData)
| PostSync (trades : list TradeData).

(** The state a handler leaves. *)
Definition run_handler (h : handler) (env : Env) (st : State) : State :=
  match h with
  | GetRoot => snd (root env st)
  | GetHealth => snd (health_check env st)
  | GetTickets fuel identificador_cuenta => snd (obtener_tickets fuel identificador_cuenta env st)
  | PostTrade trade => snd (registrar_trade trade env st)
  | PostTradeBatch trades => snd (registrar_trades_batch trades env st)
  | PostDrawdown drawdown => snd (registrar_drawdown drawdown env st)
  | PostSync trades => snd (sincronizar_historial trades env st)
  end.

(** A store in which every lookup finds the entity ["page-7"] and every
    create succeeds. *)
Definition full_store (trace : list Request) : HttpResult :=
  match current trace with
  | Some req =>
      if String.eqb (url req) NOTION_API_URL
      then Response 200 (Some (JObj [ ("object", JStr "page"); ("id", JStr "page-1") ]))
      else Response 200 (Some (JObj [ ("results", JArr [ JObj [ ("object", JStr "page");
                                                               ("id", JStr "page-7") ] ]);
                                      ("has_more", JBool false); ("next_cursor", JNull) ]))
  | None => RequestError ""
  end.

Definition full_store_env : Env := sample_env sample_config full_store.

(** A store that answers every request with a 201 and one matching
    record. *)
Definition created_store (trace : list Request) : HttpResult :=
  Response 201 (Some (JObj [ ("results", JArr [ JObj [ ("id", JStr "page-7") ] ]) ])).


(** Two states with the same trace and the same caches. *)
Definition same_store (st st' : State) : Prop :=
  calls st' = calls st /\
  _cache_cuentas st' = _cache_cuentas st /\
  _cache_estrategias st' = _cache_estrategias st.

(** The create request of the Trade Recorder. *)
Definition trade_create (cfg : Config) (trade : TradeData)
    (fecha_cierre_iso : string) (fecha_apertura_iso : option string)
    (cuenta_page_id estrategia_page_id : json) : Request :=
  {| url := "https://api.notion.com/v1/pages";
     headers := get_notion_headers cfg;
     payload := trade_payload cfg trade fecha_cierre_iso fecha_apertura_iso
                  cuenta_page_id estrategia_page_id;
     timeout := 30 |}.

(** The properties of a create request: [payload["properties"]]. *)
Definition properties_of (req : Request) : list (string * json) :=
  match payload req with
  | JObj kv =>
      match Py.assoc "properties" kv with
      | Some (JObj props) => props
      | _ => []
      end
  | _ => []
  end.

(** What the Trade Recorder makes of the answer to its create request. *)
Definition create_outcome (env : Env) (answer : HttpResult) : outcome json :=
  match answer with
  | RequestError e =>
      Raised (HTTPException 503
                ("Error de conexi" +:+ String (Py.chr 243) "n con Notion: " +:+ e))
  | Response status_code content =>
      if status_code =? 200 then
        match content with
        | Some v => Returned v
        | None => Raised JSONDecodeError
        end
      else
        match content with
        | Some (JObj kv) =>
            Raised (HTTPException status_code
                      ("Error de Notion: " +:+
                       match Py.assoc "message" kv with
                       | Some (JStr message) => message
                       | Some v => repr env v
                       | None => "Error desconocido"
                       end))
        | Some _ => Raised AttributeError
        | None => Raised JSONDecodeError
        end
  end.

(** The create request of the Drawdown Recorder. *)
Definition drawdown_create (cfg : Config) (drawdown : DrawdownData) (fecha_iso : string)
  : Request :=
  {| url := "https://api.notion.com/v1/pages";
     headers := get_notion_headers cfg;
     payload := drawdown_payload cfg drawdown fecha_iso;
     timeout := 30 |}.

(** What the Drawdown Recorder makes of the answer to its create request. *)
Definition drawdown_outcome (env : Env) (answer : HttpResult) : outcome json :=
  match answer with
  | RequestError e => Returned (JObj [ ("status", JStr "error"); ("detail", JStr e) ])
  | Response status_code content =>
      match content with
      | None => Raised JSONDecodeError
      | Some v =>
          if status_code =? 200 then Returned v
          else Returned (JObj [ ("status", JStr "error");
                                ("detail", JStr (match v with
                                                 | JStr s => s
                                                 | _ => repr env v
                                                 end)) ])
      end
  end.

(** The title of a create request: [properties[name]["title"][0]["text"]["content"]]. *)
Definition title_of (name : string) (req : Request) : option json :=
  match Py.assoc name (properties_of req) with
  | Some (JObj [ ("title", JArr [ JObj [ ("text", JObj [ ("content", t) ]) ] ]) ]) => Some t
  | _ => None
  end.

(** Credential and dedicated drawdown collection only. *)
Definition drawdown_only_config : Config :=
  {| NOTION_API_KEY := "secret"; NOTION_DATABASE_ID := ""; NOTION_CUENTAS_DB_ID := "";
     NOTION_ESTRATEGIAS_DB_ID := ""; NOTION_DRAWDOWN_DB_ID := "drawdowns" |}.

Definition drawdown_down_env : Env := sample_env drawdown_only_config unreachable_store.
Definition drawdown_up_env : Env := sample_env drawdown_only_config empty_store.

(** The lookup and the create of an account entity, as they go over the
    wire. *)
Definition cuenta_query (cfg : Config) (nombre_cuenta : string) : Request :=
  {| url := "https://api.notion.com/v1/databases/" +:+ NOTION_CUENTAS_DB_ID cfg +:+ "/query";
     headers := get_notion_headers cfg;
     payload :=
       JObj [ ("filter", JObj [ ("property", JStr "Nombre");
                                ("title", JObj [ ("equals", JStr nombre_cuenta) ]) ]);
              ("page_size", JInt 1) ];
     timeout := 30 |}.

Definition cuenta_create (cfg : Config) (nombre_cuenta : string) : Request :=
  {| url := "https://api.notion.com/v1/pages";
     headers := get_notion_headers cfg;
     payload :=
       JObj [ ("parent", JObj [ ("database_id", JStr (NOTION_CUENTAS_DB_ID cfg)) ]);
              ("properties",
               JObj [ ("Nombre",
                       JObj [ ("title",
                               JArr [ JObj [ ("text",
                                 JObj [ ("content", JStr nombre_cuenta) ]) ] ]) ]) ]) ];
     timeout := 30 |}.

(** The lookup and the create of a strategy entity. *)
Definition estrategia_query (cfg : Config) (magic_number : Z) : Request :=
  {| url := "https://api.notion.com/v1/databases/" +:+ NOTION_ESTRATEGIAS_DB_ID cfg +:+ "/query";
     headers := get_notion_headers cfg;
     payload :=
       JObj [ ("filter", JObj [ ("property", JStr "Magic Number");
                                ("number", JObj [ ("equals", JInt magic_number) ]) ]);
              ("page_size", JInt 1) ];
     timeout := 30 |}.

Definition estrategia_create (cfg : Config) (magic_number : Z) (title : string) : Request :=
  {| url := "https://api.notion.com/v1/pages";
     headers := get_notion_headers cfg;
     payload :=
       JObj [ ("parent", JObj [ ("database_id", JStr (NOTION_ESTRATEGIAS_DB_ID cfg)) ]);
              ("properties",
               JObj [ ("Nombre",
                       JObj [ ("title",
                               JArr [ JObj [ ("text",
                                 JObj [ ("content", JStr title) ]) ] ]) ]);
                      ("Magic Number", JObj [ ("number", JInt magic_number) ]) ]) ];
     timeout := 30 |}.

(** A request that did not succeed: no connection, or a status other than
    200. *)
Definition not_ok (r : HttpResult) : Prop :=
  match r with
  | RequestError _ => True
  | Response status_code _ => status_code <> 200
  end.

(** The ticket a text field stands for: its value when [isdigit] accepts it
    (and [int] converts it), nothing otherwise. *)
Definition ticket_of_text (s : string) : option Z :=
  if Py.isdigit s then Py.int s else None.

(** A text field on which [isdigit] and [int] agree: it is rejected by
    [isdigit], or made of ASCII digits. *)
Definition plain_text (s : string) : Prop :=
  Py.isdigit s = false \/ forallb Py.isdecimal_char (Py.chars s) = true.

(** The title list of the [Ticket] property of a page, with the defaults of
    the three [get]. *)
Definition title_list_of (page : json) : exn + json :=
  match Py.get page "properties" (JObj []) with
  | inl e => inl e
  | inr props =>
      match Py.get props "Ticket" (JObj []) with
      | inl e => inl e
      | inr ticket_prop => Py.get ticket_prop "title" (JArr [])
      end
  end.

(** *** Ticket Enumerator: pagination *)

(** The request of the Ticket Enumerator for one page of the tickets of an
    account; the cursor is part of the payload when it is truthy. *)
Definition tickets_query (cfg : Config) (cuenta : string) (cursor : json) : Request :=
  {| url := "https://api.notion.com/v1/databases/" +:+ NOTION_DATABASE_ID cfg +:+ "/query";
     headers := get_notion_headers cfg;
     payload :=
       JObj ([ ("filter", JObj [ ("property", JStr "Cuenta");
                                 ("select", JObj [ ("equals", JStr cuenta) ]) ]);
               ("page_size", JInt 100) ]
             ++ (if Py.truthy cursor then [ ("start_cursor", cursor) ] else []));
     timeout := 60 |}.

(** The state after the requests [reqs] were sent and nothing else
    happened. *)
Definition sent (st : State) (reqs : list Request) : State :=
  {| _cache_cuentas := _cache_cuentas st; _cache_estrategias := _cache_estrategias st;
     calls := calls st ++ reqs; clock_reads := clock_reads st; logs := logs st |}.

(** The cursor the request for page [k] carries, in a store whose page [j]
    hands out [cursor j]: none for the first page. *)
Definition cursor_at (cursor : nat -> json) (k : nat) : json :=
  match k with
  | O => JNull
  | S j => cursor j
  end.

(** The answer of a store of [total] pages for its page [k], whose ticket
    fields are [page]. *)
Definition page_answer (cursor : nat -> json) (total k : nat) (page : list string) : json :=
  JObj [ ("object", JStr "list");
         ("results", JArr (map ticket_page page));
         ("next_cursor", if (S k <? total)%nat then cursor k else JNull);
         ("has_more", JBool (S k <? total)%nat) ].

(** The store serves [pages] as its pages [first], [first + 1], ... of
    [total], each at its cursor, whatever was requested before. *)
Definition serves (env : Env) (cuenta : string) (cursor : nat -> json)
    (total first : nat) (pages : list (list string)) : Prop :=
  forall (trace : list Request) (j : nat) (page : list string),
    pages !! j = Some page ->
    notion env (trace ++ [tickets_query (config env) cuenta (cursor_at cursor (first + j))]) =
      Response 200 (Some (page_answer cursor total (first + j) page)).

(** The tickets of the pages, in order. *)
Definition tickets_of (pages : list (list string)) : list Z :=
  concat (map (omap ticket_of_text) pages).

(** The requests for the pages [first], ..., [first + n - 1]. *)
Definition scan (cfg : Config) (cuenta : string) (cursor : nat -> json)
    (first n : nat) : list Request :=
  map (fun k => tickets_query cfg cuenta (cursor_at cursor k)) (seq first n).

(** A store of two pages, the second at the cursor ["cursor-1"]; a word
    stands in one of the ticket fields. *)
Definition two_pages : list (list string) := [ ["10042"; "10043"]; ["n/a"; "10044"] ].

Definition two_pages_store (trace : list Request) : HttpResult :=
  match last trace with
  | Some req =>
      match Py.get (payload req) "start_cursor" JNull with
      | inr (JStr _) =>
          Response 200 (Some (page_answer (fun _ => JStr "cursor-1") 2 1 ["n/a"; "10044"]))
      | _ =>
          Response 200 (Some (page_answer (fun _ => JStr "cursor-1") 2 0 ["10042"; "10043"]))
      end
  | None => RequestError ""
  end.

Definition two_pages_env : Env := sample_env sample_config two_pages_store.

(** A store that has lost its second page: the first page announces it,
    the request for it fails. *)
Definition torn_store (trace : list Request) : HttpResult :=
  match last trace with
  | Some req =>
      match Py.get (payload req) "start_cursor" JNull with
      | inr (JStr _) => Response 502 None
      | _ =>
          Response 200 (Some (page_answer (fun _ => JStr "cursor-1") 2 0 ["10042"; "10043"]))
      end
  | None => RequestError ""
  end.

Definition torn_env : Env := sample_env sample_config torn_store.

(** A store whose every answer is the same page, which says there is
    more. *)
Definition endless_page : json :=
  JObj [ ("results", JArr [ ticket_page "10042" ]);
         ("has_more", JBool true); ("next_cursor", JStr "cursor-1") ].

Definition endless_store (trace : list Request) : HttpResult :=
  Response 200 (Some endless_page).

Definition endless_env : Env := sample_env sample_config endless_store.

(** *** Batch Orchestrator: the three lists of the response *)

(** The ticket an entry of the response reports. *)
Definition entry_ticket (entry : json) : option Z :=
  match Py.get entry "ticket" JNull with
  | inr (JInt n) => Some n
  | _ => None
  end.

(** The status an entry of the response reports. *)
Definition entry_status (entry : json) : option string :=
  match Py.get entry "status" JNull with
  | inr (JStr s) => Some s
  | _ => None
  end.

(** The tickets of the trades of a batch, and those a list of the response
    reports, in order. *)
Definition batch_tickets (trades : list TradeData) : list (option Z) :=
  map (fun trade => Some (ticket trade)) trades.

Definition reported (entries : list json) : list (option Z) := map entry_ticket entries.

(** Every entry of the list reports the status [s]. *)
Definition all_status (s : string) (entries : list json) : Prop :=
  Forall (fun entry => entry_status entry = Some s) entries.

(** What the loop of the batch added to the buckets [b] to reach [b']:
    [nuevos] to the registered, [saltados] to the skipped, [fallados] to
    the failed. *)
Record filed (b b' : Buckets) (nuevos saltados fallados : list json) : Prop := {
  filed_resultados : b_resultados b' = b_resultados b ++ nuevos;
  filed_omitidos : b_omitidos b' = b_omitidos b ++ saltados;
  filed_errores : b_errores b' = b_errores b ++ fallados
}.

(** The three lists are a partition of the tickets [ts] that keeps their
    order, each list under its status. *)
Record partitions (ts : list (option Z)) (nuevos saltados fallados : list json) : Prop := {
  part_all : reported nuevos ++ reported saltados ++ reported fallados ≡ₚ ts;
  part_nuevos : sublist (reported nuevos) ts;
  part_saltados : sublist (reported saltados) ts;
  part_fallados : sublist (reported fallados) ts;
  part_success : all_status "success" nuevos;
  part_skipped : all_status "skipped" saltados;
  part_error : all_status "error" fallados
}.

(** *** Date Normalizer: dates as the clients write them *)

(** The date and time of [dt] written with zero-padded fields, [sep]
    between the fields of the date and [mid] between date and time:
    [YYYY.MM.DD HH:MM:SS] is [written "." " "], the ISO 8601 layout is
    [written "-" "T"]. *)
Definition written (sep mid : ascii) (dt : Py.datetime) : string :=
  string_of_list_ascii
    (Py.d4 (Py.year dt) ++ [sep] ++ Py.d2 (Py.month dt) ++ [sep] ++ Py.d2 (Py.day dt) ++
     [mid] ++ Py.d2 (Py.hour dt) ++ [":"%char] ++ Py.d2 (Py.minute dt) ++ [":"%char] ++
     Py.d2 (Py.second dt)).

(* ===================================================================== *)
(** ** Properties                                                         *)
(* ===================================================================== *)

Lemma not_true (s : string) : not_ s = true <-> s = "".
Proof. unfold not_. apply String.eqb_eq. Qed.

Lemma not_false (s : string) : not_ s = false <-> s <> "".
Proof. unfold not_. apply String.eqb_neq. Qed.

#[local] Arguments String.append : simpl never.

(** Running the monad: the primitives are functions of the environment and
    the state, and unfold to them. *)
Ltac run :=
  unfold bind, ret, raise, lift, the_config, logger, datetime_now, client_post,
    cache_cuentas_get, cache_estrategias_get, set_cache_cuentas,
    set_cache_estrategias, str, response_json, try_except_HTTPException;
  simpl.

(** *** Trade Recorder: the configuration check comes first *)

Lemma unconfigured_test (cfg : Config) :
  unconfigured cfg <-> not_ (NOTION_API_KEY cfg) || not_ (NOTION_DATABASE_ID cfg) = true.
Proof.
  unfold unconfigured. rewrite orb_true_iff, !not_true. reflexivity.
Qed.

(** C4.  Whatever the trade and whatever [verificar_duplicado], when the
    credential or the identifier of the primary collection is not
    configured, [enviar_a_notion] raises the configuration error (an
    [HTTPException] of status 500) and leaves the state as it found it: no
    request was issued (so no duplicate check, no relation resolution, no
    create), nothing was cached or logged, the clock was not read. *)
Theorem enviar_a_notion_unconfigured
    (trade : TradeData) (verificar_duplicado : bool) (env : Env) (st : State) :
  unconfigured (config env) ->
  enviar_a_notion trade verificar_duplicado env st =
    (Raised (HTTPException 500
       "Notion API Key o Database ID no configurados en el servidor."), st).
Proof.
  intros H. apply unconfigured_test in H.
  unfold enviar_a_notion. run. rewrite H. reflexivity.
Qed.

(** Witness of C4: no credential, duplicate check requested. *)
Lemma enviar_a_notion_unconfigured_witness :
  unconfigured empty_config /\
  enviar_a_notion (sample_trade 10042) true empty_config_env initial_state =
    (Raised (HTTPException 500
       "Notion API Key o Database ID no configurados en el servidor."), initial_state).
Proof.
  split; [left; reflexivity|].
  apply (enviar_a_notion_unconfigured (sample_trade 10042) true
           empty_config_env initial_state).
  left; reflexivity.
Defined.

(** *** Duplicate Checker *)

(** C2.  The account passed to [verificar_ticket_existe] has no influence:
    two runs that differ only in the account give the same result and
    leave the same state, and the only request such a run can issue is the
    query of the primary collection whose filter is the numeric equality on
    [Ticket] alone, with page size 1. *)
Theorem verificar_ticket_existe_ignores_account
    (ticket : Z) (cuenta1 cuenta2 : string) (env : Env) (st : State) :
  verificar_ticket_existe ticket cuenta1 env st =
    verificar_ticket_existe ticket cuenta2 env st
  /\ (issued st (snd (verificar_ticket_existe ticket cuenta1 env st)) []
      \/ issued st (snd (verificar_ticket_existe ticket cuenta1 env st))
           [ticket_query (config env) ticket]).
Proof.
  split; [reflexivity|].
  unfold verificar_ticket_existe, issued. run.
  destruct (not_ _ || not_ _); simpl.
  - left. now rewrite app_nil_r.
  - right.
    destruct (notion env _) as [e|sc content]; simpl; [reflexivity|].
    destruct (sc =? 200); simpl; [|reflexivity].
    destruct content as [data|]; simpl; [|reflexivity].
    destruct (Py.get data _ _) as [e|results]; simpl; [reflexivity|].
    destruct (Py.len results); reflexivity.
Qed.

(** C3.  Take what the remote store replies to the checker's query.  If
    the query failed (connection failure or non-2xx status), the
    checker returns [False], it does not raise.  And the checker returns
    [True] only when the store is configured and the reply is a 200 whose
    body is an object with a [results] entry of positive length. *)
Theorem verificar_ticket_existe_fails_open
    (ticket : Z) (cuenta : string) (env : Env) (st : State) :
  (query_failed (notion env (calls st ++ [ticket_query (config env) ticket])) ->
   fst (verificar_ticket_existe ticket cuenta env st) = Returned false)
  /\ (fst (verificar_ticket_existe ticket cuenta env st) = Returned true ->
      ~ unconfigured (config env) /\
      exists data results n,
        notion env (calls st ++ [ticket_query (config env) ticket]) =
          Response 200 (Some data) /\
        Py.get data "results" (JArr []) = inr results /\
        Py.len results = inr n /\ 0 < n).
Proof.
  unfold verificar_ticket_existe. run.
  rewrite unconfigured_test.
  destruct (not_ _ || not_ _); simpl.
  - split; [reflexivity | discriminate].
  - fold (ticket_query (config env) ticket).
    destruct (notion env _) as [e|sc content]; simpl.
    + split; [reflexivity | discriminate].
    + destruct (Z.eqb_spec sc 200) as [->|Hne]; simpl.
      * split; [intros Hf; exfalso; apply Hf; lia|].
        destruct content as [data|]; simpl; [|discriminate].
        destruct (Py.get data _ _) as [e|results] eqn:Hget; simpl; [discriminate|].
        destruct (Py.len results) as [e|n] eqn:Hlen; simpl; [discriminate|].
        intros [= Hn]. split; [discriminate|].
        exists data, results, n. repeat split; auto. now apply Z.ltb_lt.
      * split; [reflexivity | discriminate].
Qed.

(** Witness of C3: the store cannot be reached, the checker answers
    [False]. *)
Lemma verificar_ticket_existe_fails_open_witness :
  query_failed (unreachable_store [ticket_query sample_config 10042]) /\
  fst (verificar_ticket_existe 10042 "FTMO_01"
         unreachable_env initial_state) = Returned false.
Proof.
  split; [exact I|].
  apply (verificar_ticket_existe_fails_open 10042 "FTMO_01"
           unreachable_env initial_state).
  exact I.
Defined.

(** *** Date Normalizer *)

Lemma ord_digit_char (k : Z) : Py.ord (Py.digit_char k) = 48 + k mod 10.
Proof.
  unfold Py.ord, Py.digit_char, Py.chr.
  assert (0 <= k mod 10 < 10) by (apply Z.mod_pos_bound; lia).
  rewrite N_ascii_embedding by lia. lia.
Qed.

Lemma isdecimal_digit_char (k : Z) : Py.isdecimal_char (Py.digit_char k) = true.
Proof.
  unfold Py.isdecimal_char, Py.in_range. rewrite ord_digit_char.
  assert (0 <= k mod 10 < 10) by (apply Z.mod_pos_bound; lia).
  apply andb_true_iff. split; apply Z.leb_le; lia.
Qed.

Lemma digit_val_digit_char (k : Z) : Py.digit_val (Py.digit_char k) = k mod 10.
Proof. unfold Py.digit_val. rewrite ord_digit_char. lia. Qed.

Lemma digits_d2 (n acc : Z) (r : list ascii) :
  0 <= n < 100 -> digits 2 acc (Py.d2 n ++ r) = Some (100 * acc + n, r).
Proof.
  intros Hn. unfold Py.d2. simpl.
  rewrite !isdecimal_digit_char, !digit_val_digit_char.
  do 2 f_equal. Z.to_euclidean_division_equations. lia.
Qed.

Lemma digits_d4 (n acc : Z) (r : list ascii) :
  0 <= n < 10000 -> digits 4 acc (Py.d4 n ++ r) = Some (10000 * acc + n, r).
Proof.
  intros Hn. unfold Py.d4, Py.d2. simpl.
  rewrite !isdecimal_digit_char, !digit_val_digit_char.
  do 2 f_equal. Z.to_euclidean_division_equations. lia.
Qed.

Lemma digits_d6 (n acc : Z) (r : list ascii) :
  0 <= n < 1000000 -> digits 6 acc (Py.d6 n ++ r) = Some (1000000 * acc + n, r).
Proof.
  intros Hn. unfold Py.d6, Py.d4, Py.d2. simpl.
  rewrite !isdecimal_digit_char, !digit_val_digit_char.
  do 2 f_equal. Z.to_euclidean_division_equations. lia.
Qed.

Lemma iso_num_d2 (lo hi n : Z) (r : list ascii) :
  0 <= n < 100 -> lo <= n <= hi -> iso_num 2 lo hi (Py.d2 n ++ r) = Some r.
Proof.
  intros Hn Hr. unfold iso_num. rewrite digits_d2 by assumption.
  replace (100 * 0 + n) with n by lia.
  destruct (Z.leb_spec lo n), (Z.leb_spec n hi); simpl; try lia. reflexivity.
Qed.

Lemma iso_num_d4 (lo hi n : Z) (r : list ascii) :
  0 <= n < 10000 -> lo <= n <= hi -> iso_num 4 lo hi (Py.d4 n ++ r) = Some r.
Proof.
  intros Hn Hr. unfold iso_num. rewrite digits_d4 by assumption.
  replace (10000 * 0 + n) with n by lia.
  destruct (Z.leb_spec lo n), (Z.leb_spec n hi); simpl; try lia. reflexivity.
Qed.

Lemma iso_num_d6 (lo hi n : Z) (r : list ascii) :
  0 <= n < 1000000 -> lo <= n <= hi -> iso_num 6 lo hi (Py.d6 n ++ r) = Some r.
Proof.
  intros Hn Hr. unfold iso_num. rewrite digits_d6 by assumption.
  replace (1000000 * 0 + n) with n by lia.
  destruct (Z.leb_spec lo n), (Z.leb_spec n hi); simpl; try lia. reflexivity.
Qed.

(** The ranges a [datetime] carries. *)
Lemma datetime_ranges (dt : Py.datetime) :
  1 <= Py.year dt <= 9999 /\ 1 <= Py.month dt <= 12 /\ 1 <= Py.day dt <= 31 /\
  0 <= Py.hour dt <= 23 /\ 0 <= Py.minute dt <= 59 /\ 0 <= Py.second dt <= 59 /\
  0 <= Py.microsecond dt <= 999999.
Proof.
  destruct dt as [y m d hh mm ss us ok]. simpl.
  unfold Py.fields_ok in ok.
  repeat (apply andb_true_iff in ok; destruct ok as [ok ?]).
  repeat match goal with H : (_ <=? _) = true |- _ => apply Z.leb_le in H end.
  assert (Py.days_in_month y m <= 31).
  { unfold Py.days_in_month.
    repeat match goal with |- context [if ?b then _ else _] => destruct b end; lia. }
  lia.
Qed.

Lemma iso_sep_ok (k : Z) (c : ascii) (r : list ascii) :
  (Py.ord c =? k) = true -> iso_sep k (c :: r) = Some r.
Proof. intros H. unfold iso_sep. now rewrite H. Qed.

Example is_iso8601_examples :
  is_iso8601 "2024-03-11T14:22:09" = true /\
  is_iso8601 "2024-03-11T14:22:09.000005" = true /\
  is_iso8601 "2024.03.11T14:22:09" = false /\
  is_iso8601 "2024-03-11 14:22:09" = false /\
  is_iso8601 "2024-13-11T14:22:09" = false /\
  is_iso8601 "2024-03-11T14:22" = false /\
  is_iso8601 "" = false.
Proof. repeat split. Qed.

(** Whatever the [datetime], its [isoformat] is an ISO 8601 string. *)
Lemma isoformat_is_iso8601 (dt : Py.datetime) : is_iso8601 (Py.isoformat dt) = true.
Proof.
  destruct (datetime_ranges dt) as (Hy & Hm & Hd & Hh & Hn & Hs & Hu).
  unfold is_iso8601, Py.isoformat, Py.chars.
  rewrite list_ascii_of_string_of_list_ascii.
  unfold iso_seconds_layout, consume.
  rewrite iso_num_d4 by lia.
  repeat (rewrite <- app_comm_cons, iso_sep_ok by reflexivity;
          rewrite app_nil_l, iso_num_d2 by lia).
  destruct (Py.microsecond dt =? 0).
  - reflexivity.
  - rewrite <- app_comm_cons, app_nil_l.
    replace (Py.ord "."%char =? 46) with true by reflexivity.
    rewrite <- (app_nil_r (Py.d6 _)), iso_num_d6 by lia. reflexivity.
Qed.

(** The loop over the layouts keeps the first layout that parses. *)
Lemma probar_formatos_first (s : string) (before : list string) (formato : string)
    (after : list string) (fecha : Py.datetime) :
  Forall (fun f => Py.strptime s f = None) before ->
  Py.strptime s formato = Some fecha ->
  probar_formatos s (before ++ formato :: after) = Some fecha.
Proof.
  intros Hb Hp. induction Hb as [|f fs Hf _ IH]; simpl.
  - now rewrite Hp.
  - now rewrite Hf.
Qed.

Lemma probar_formatos_none (s : string) (formatos : list string) :
  Forall (fun f => Py.strptime s f = None) formatos ->
  probar_formatos s formatos = None.
Proof.
  intros H. induction H as [|f fs Hf _ IH]; simpl; [reflexivity|].
  now rewrite Hf.
Qed.

(** C5.  On every input string [formatear_fecha_notion] returns (it never
    raises), what it returns is an ISO 8601 string, and it is decided by
    the four layouts in their fixed order: the rendering of the first
    layout that parses the input, and the rendering of the current time of
    the wall clock when the input is empty or no layout parses it.  It
    issues no request. *)
Theorem formatear_fecha_notion_total (fecha_str : string) (env : Env) (st : State) :
  exists iso st',
    formatear_fecha_notion fecha_str env st = (Returned iso, st') /\
    is_iso8601 iso = true /\
    issued st st' [] /\
    formatos_posibles =
      [ "%Y.%m.%dT%H:%M:%S"; "%Y-%m-%dT%H:%M:%S"; "%Y.%m.%d %H:%M:%S"; "%Y-%m-%d %H:%M:%S" ] /\
    (forall before formato after fecha,
        fecha_str <> "" ->
        formatos_posibles = before ++ formato :: after ->
        Forall (fun f => Py.strptime fecha_str f = None) before ->
        Py.strptime fecha_str formato = Some fecha ->
        iso = Py.isoformat fecha) /\
    (fecha_str = "" \/ Forall (fun f => Py.strptime fecha_str f = None) formatos_posibles ->
     iso = Py.isoformat (now env (clock_reads st))).
Proof.
  unfold formatear_fecha_notion, issued.
  destruct (not_ fecha_str) eqn:Hempty.
  - apply not_true in Hempty. run.
    eexists _, _. split; [reflexivity|].
    split; [apply isoformat_is_iso8601|].
    split; [now rewrite app_nil_r|].
    split; [reflexivity|].
    split; [intros; contradiction | reflexivity].
  - apply not_false in Hempty.
    destruct (probar_formatos fecha_str formatos_posibles) as [fecha|] eqn:Hloop; run.
    + eexists _, _. split; [reflexivity|].
      split; [apply isoformat_is_iso8601|].
      split; [now rewrite app_nil_r|].
      split; [reflexivity|].
      split.
      * intros before formato after fecha' _ Hsplit Hb Hp.
        rewrite Hsplit, (probar_formatos_first _ _ _ _ _ Hb Hp) in Hloop.
        now injection Hloop as ->.
      * intros [He|Hall]; [contradiction|].
        rewrite (probar_formatos_none _ _ Hall) in Hloop. discriminate.
    + eexists _, _. split; [reflexivity|].
      split; [apply isoformat_is_iso8601|].
      split; [now rewrite app_nil_r|].
      split; [reflexivity|].
      split; [|reflexivity].
      intros before formato after fecha _ Hsplit Hb Hp.
      rewrite Hsplit, (probar_formatos_first _ _ _ _ _ Hb Hp) in Hloop. discriminate.
Qed.

(** The example of the specification: the terminal's dotted date. *)
Example formatear_fecha_notion_mt4 (env : Env) (st : State) :
  fst (formatear_fecha_notion "2024.03.11T14:22:09" env st) = Returned "2024-03-11T14:22:09".
Proof. reflexivity. Qed.

(** *** Drawdown Recorder *)

(** Counterexample to C1 as stated: the credential and the primary
    collection are configured, the dedicated collection is not; the
    recorder stores nothing in the primary collection, it issues no request
    at all and reports ["logged"]. *)
Lemma drawdown_fallback_counterexample :
  ~ drawdown_fallback_as_stated
      primary_only_env initial_state sample_drawdown.
Proof.
  unfold drawdown_fallback_as_stated. intros H.
  destruct (H eq_refl) as [Hstore _].
  destruct Hstore as (req & Hissued & _); [discriminate|].
  unfold issued in Hissued. vm_compute in Hissued. discriminate.
Qed.

(** C1, amended.  Without a dedicated drawdown collection
    [guardar_drawdown_notion] never stores the snapshot: it returns, it
    issues no request (the primary collection is not used as a storage
    target), it touches neither the caches nor the clock, and the status
    it reports is ["logged_only"] when the credential or the primary
    collection is not configured and ["logged"] when both are. *)
Theorem guardar_drawdown_notion_without_dedicated
    (drawdown : DrawdownData) (env : Env) (st : State) :
  NOTION_DRAWDOWN_DB_ID (config env) = "" ->
  exists r st',
    guardar_drawdown_notion drawdown env st = (Returned r, st') /\
    same_but_logs st st' /\
    (unconfigured (config env) -> status_of (Returned r) = Some (JStr "logged_only")) /\
    (~ unconfigured (config env) -> status_of (Returned r) = Some (JStr "logged")).
Proof.
  intros Hdd. unfold guardar_drawdown_notion. run.
  rewrite Hdd. simpl.
  pose proof (unconfigured_test (config env)) as Hu.
  destruct (not_ _ || not_ _); simpl.
  - eexists _, _. split; [reflexivity|].
    split; [repeat split|].
    split; [reflexivity | intros H; contradiction H; now apply Hu].
  - eexists _, _. split; [reflexivity|].
    split; [repeat split|].
    split; [intros H; apply Hu in H; discriminate | reflexivity].
Qed.

(** Witness of C1 amended: primary collection configured, no dedicated
    one. *)
Lemma guardar_drawdown_notion_without_dedicated_witness :
  NOTION_DRAWDOWN_DB_ID primary_only_config = "" /\
  exists r st',
    guardar_drawdown_notion sample_drawdown
      primary_only_env initial_state = (Returned r, st') /\
    same_but_logs initial_state st' /\
    (unconfigured primary_only_config -> status_of (Returned r) = Some (JStr "logged_only")) /\
    (~ unconfigured primary_only_config -> status_of (Returned r) = Some (JStr "logged")).
Proof.
  split; [reflexivity|].
  apply (guardar_drawdown_notion_without_dedicated sample_drawdown
           primary_only_env initial_state).
  reflexivity.
Defined.

(** *** Relation Resolver *)

(** Counterexample to C6 as stated: without a strategies collection the
    resolution of magic number 0 returns the empty identifier, which the
    Trade Recorder does not attach. *)
Lemma manual_strategy_counterexample :
  ~ manual_strategy_as_stated primary_only_env initial_state.
Proof.
  intros (page_id & Hrun & Htruthy).
  vm_compute in Hrun. injection Hrun as <-. discriminate.
Qed.

(** Magic number 0 has no treatment of its own on the way to the empty
    identifier: without a strategies collection the guard returns it for
    every magic number that is not cached, and issues no request. *)
Lemma buscar_o_crear_estrategia_unconfigured (magic : Z) (env : Env) (st : State) :
  NOTION_ESTRATEGIAS_DB_ID (config env) = "" ->
  _cache_estrategias st !! magic = None ->
  fst (buscar_o_crear_estrategia magic env st) = Returned (JStr "") /\
  issued st (snd (buscar_o_crear_estrategia magic env st)) [].
Proof.
  intros Hcfg Hmiss. apply not_true in Hcfg.
  unfold buscar_o_crear_estrategia, issued. run.
  rewrite Hmiss, Hcfg. simpl. split; [reflexivity | now rewrite app_nil_r].
Qed.

(** C6, amended.  With the strategies collection configured and magic
    number 0 not yet cached, the resolver first issues the lookup by
    Magic Number = 0.  If the store answers 200 with a non-empty [results]
    list, the identifier of its first entity is returned and cached.  If it
    answers 200 with no result, the resolver issues a create whose title is
    "Manual (0)" and whose Magic Number is 0; when the store answers that
    create with 200, the identifier it carries is returned and cached under
    key 0. *)
Theorem buscar_o_crear_estrategia_manual (env : Env) (st : State) :
  NOTION_ESTRATEGIAS_DB_ID (config env) <> "" ->
  _cache_estrategias st !! 0 = None ->
  (forall data entity rest page_id,
      notion env (calls st ++ [manual_query (config env)]) = Response 200 (Some data) ->
      Py.get data "results" (JArr []) = inr (JArr (entity :: rest)) ->
      Py.item entity "id" = inr page_id ->
      fst (buscar_o_crear_estrategia 0 env st) = Returned page_id /\
      issued st (snd (buscar_o_crear_estrategia 0 env st)) [manual_query (config env)] /\
      _cache_estrategias (snd (buscar_o_crear_estrategia 0 env st)) !! 0 = Some page_id)
  /\
  (forall data results,
      notion env (calls st ++ [manual_query (config env)]) = Response 200 (Some data) ->
      Py.get data "results" (JArr []) = inr results ->
      Py.truthy results = false ->
      issued st (snd (buscar_o_crear_estrategia 0 env st))
        [manual_query (config env); manual_create (config env)] /\
      forall created page_id,
        notion env (calls st ++ [manual_query (config env); manual_create (config env)]) =
          Response 200 (Some created) ->
        Py.get created "id" (JStr "") = inr page_id ->
        fst (buscar_o_crear_estrategia 0 env st) = Returned page_id /\
        _cache_estrategias (snd (buscar_o_crear_estrategia 0 env st)) !! 0 = Some page_id).
Proof.
  intros Hcfg Hmiss.
  apply not_false in Hcfg.
  unfold manual_query, manual_create, buscar_o_crear_estrategia, issued. run.
  rewrite Hmiss, Hcfg. simpl.
  unfold buscar_estrategia_payload.
  split.
  - intros data entity rest page_id Hans Hres Hid.
    rewrite Hans. simpl. rewrite Hres. simpl. rewrite Hid. simpl.
    repeat split. apply lookup_insert_eq.
  - intros data results Hans Hres Hempty.
    rewrite Hans. simpl. rewrite Hres. simpl. rewrite Hempty.
    unfold crear_estrategia. run.
    unfold crear_estrategia_payload, nombre_estrategia, titulo. simpl.
    rewrite <- !app_assoc. simpl.
    split.
    + destruct (notion env (calls st ++ [_; _])) as [e|sc content]; simpl; [reflexivity|].
      destruct (sc =? 200); simpl; [|reflexivity].
      destruct content as [created|]; simpl; [|reflexivity].
      destruct (Py.get created _ _); reflexivity.
    + intros created page_id Hcreate Hid.
      rewrite Hcreate. simpl. rewrite Hid. simpl.
      split; [reflexivity | apply lookup_insert_eq].
Qed.

(** Witness of C6 amended: a store without any strategy; the entity
    "Manual (0)" is created and its identifier returned. *)
Lemma buscar_o_crear_estrategia_manual_witness :
  NOTION_ESTRATEGIAS_DB_ID (config empty_store_env) <> "" /\
  _cache_estrategias initial_state !! 0 = None /\
  issued initial_state (snd (buscar_o_crear_estrategia 0 empty_store_env initial_state))
    [manual_query sample_config; manual_create sample_config] /\
  fst (buscar_o_crear_estrategia 0 empty_store_env initial_state) = Returned (JStr "page-1") /\
  _cache_estrategias (snd (buscar_o_crear_estrategia 0 empty_store_env initial_state)) !! 0 =
    Some (JStr "page-1").
Proof.
  set (env := empty_store_env).
  assert (Hcfg : NOTION_ESTRATEGIAS_DB_ID (config env) <> "") by discriminate.
  assert (Hmiss : _cache_estrategias initial_state !! 0 = None) by reflexivity.
  destruct (buscar_o_crear_estrategia_manual env initial_state Hcfg Hmiss) as [_ Hcreate].
  destruct (Hcreate (JObj [ ("results", JArr []); ("has_more", JBool false);
                            ("next_cursor", JNull) ]) (JArr [])
              eq_refl eq_refl eq_refl) as [Hissued Hid].
  destruct (Hid (JObj [ ("object", JStr "page"); ("id", JStr "page-1") ]) (JStr "page-1")
              eq_refl eq_refl) as [Hret Hcache].
  repeat split; assumption.
Defined.


(** Case analysis on every [match] and [if] of a run. *)
Ltac cases :=
  repeat (simpl;
          match goal with
          | |- context [match ?x with _ => _ end] =>
              lazymatch x with
              | context [match _ with _ => _ end] => fail
              | _ => destruct x eqn:?
              end
          end);
  simpl.

(** A key in the cache is served from the cache: the state does not move,
    so no request is issued. *)
Lemma buscar_o_crear_cuenta_hit (nombre : string) (page_id : json) (env : Env) (st : State) :
  _cache_cuentas st !! nombre = Some page_id ->
  buscar_o_crear_cuenta nombre env st = (Returned page_id, st).
Proof. intros H. unfold buscar_o_crear_cuenta. run. now rewrite H. Qed.

Lemma buscar_o_crear_estrategia_hit (magic : Z) (page_id : json) (env : Env) (st : State) :
  _cache_estrategias st !! magic = Some page_id ->
  buscar_o_crear_estrategia magic env st = (Returned page_id, st).
Proof. intros H. unfold buscar_o_crear_estrategia. run. now rewrite H. Qed.

(** What a resolution leaves in the cache under its key is what it
    returned. *)
Lemma buscar_o_crear_cuenta_stores (nombre : string) (env : Env) (st st1 : State)
    (page_id : json) :
  buscar_o_crear_cuenta nombre env st = (Returned page_id, st1) ->
  is_Some (_cache_cuentas st1 !! nombre) ->
  _cache_cuentas st1 !! nombre = Some page_id.
Proof.
  unfold buscar_o_crear_cuenta, crear_cuenta. run.
  destruct (_cache_cuentas st !! nombre) as [cached|] eqn:Hcache.
  - intros [= <- <-] _. assumption.
  - cases; intros [= <- <-]; simpl; intros Hs;
      solve [ apply lookup_insert_eq
            | rewrite Hcache in Hs; destruct Hs; discriminate ].
Qed.

Lemma buscar_o_crear_estrategia_stores (magic : Z) (env : Env) (st st1 : State)
    (page_id : json) :
  buscar_o_crear_estrategia magic env st = (Returned page_id, st1) ->
  is_Some (_cache_estrategias st1 !! magic) ->
  _cache_estrategias st1 !! magic = Some page_id.
Proof.
  unfold buscar_o_crear_estrategia, crear_estrategia. run.
  destruct (_cache_estrategias st !! magic) as [cached|] eqn:Hcache.
  - intros [= <- <-] _. assumption.
  - cases; intros [= <- <-]; simpl; intros Hs;
      solve [ apply lookup_insert_eq
            | rewrite Hcache in Hs; destruct Hs; discriminate ].
Qed.



(** *** Logging is write-only

    No function of the server reads the log, so what a function returns,
    the requests it issues and what it caches do not depend on it. *)

Lemma same_but_logs_refl (st : State) : same_but_logs st st.
Proof. repeat split. Qed.

Lemma log_blind_ret {A} (a : A) : log_blind (ret a).
Proof. intros env st1 st2 H. split; [reflexivity | exact H]. Qed.

Lemma log_blind_raise {A} (e : exn) : log_blind (@raise A e).
Proof. intros env st1 st2 H. split; [reflexivity | exact H]. Qed.

Lemma log_blind_lift {A} (r : exn + A) : log_blind (lift r).
Proof. destruct r; [apply log_blind_raise | apply log_blind_ret]. Qed.

Lemma log_blind_bind {A B} (m : M A) (k : A -> M B) :
  log_blind m -> (forall a, log_blind (k a)) -> log_blind (bind m k).
Proof.
  intros Hm Hk env st1 st2 H. unfold bind.
  destruct (Hm env st1 st2 H) as [Hr Hs].
  destruct (m env st1) as [[a1|e1] s1], (m env st2) as [[a2|e2] s2];
    simpl in Hr, Hs; try discriminate.
  - injection Hr as ->. apply Hk, Hs.
  - injection Hr as ->. split; [reflexivity | exact Hs].
Qed.

Lemma log_blind_try_except {A} (body : M A) (handler : Z -> string -> M A) :
  log_blind body -> (forall sc detail, log_blind (handler sc detail)) ->
  log_blind (try_except_HTTPException body handler).
Proof.
  intros Hb Hh env st1 st2 H. unfold try_except_HTTPException.
  destruct (Hb env st1 st2 H) as [Hr Hs].
  destruct (body env st1) as [[a1|e1] s1], (body env st2) as [[a2|e2] s2];
    simpl in Hr, Hs; try discriminate.
  - injection Hr as ->. split; [reflexivity | exact Hs].
  - injection Hr as ->. destruct e2; try (split; [reflexivity | exact Hs]).
    apply Hh, Hs.
Qed.

Lemma log_blind_primitives :
  log_blind the_config /\ log_blind datetime_now /\
  (forall lvl line a, log_blind (logger lvl line a)) /\
  (forall u p t, log_blind (client_post u p t)) /\
  (forall k, log_blind (cache_cuentas_get k)) /\
  (forall k, log_blind (cache_estrategias_get k)) /\
  (forall k v, log_blind (set_cache_cuentas k v)) /\
  (forall k v, log_blind (set_cache_estrategias k v)) /\
  (forall v, log_blind (str v)) /\
  (forall c, log_blind (response_json c)).
Proof.
  unfold log_blind. repeat split; intros;
    try (match goal with c : option json |- _ => destruct c end);
    match goal with H : same_but_logs _ _ |- _ => destruct H as (H1 & H2 & H3 & H4) end;
    simpl; rewrite ?H1, ?H2, ?H3, ?H4; repeat split; assumption.
Qed.

Lemma log_blind_the_config : log_blind the_config.
Proof. apply log_blind_primitives. Qed.
Lemma log_blind_datetime_now : log_blind datetime_now.
Proof. apply log_blind_primitives. Qed.
Lemma log_blind_logger lvl line a : log_blind (logger lvl line a).
Proof. apply log_blind_primitives. Qed.
Lemma log_blind_client_post u p t : log_blind (client_post u p t).
Proof. apply log_blind_primitives. Qed.
Lemma log_blind_cache_cuentas_get k : log_blind (cache_cuentas_get k).
Proof. apply log_blind_primitives. Qed.
Lemma log_blind_cache_estrategias_get k : log_blind (cache_estrategias_get k).
Proof. apply log_blind_primitives. Qed.
Lemma log_blind_set_cache_cuentas k v : log_blind (set_cache_cuentas k v).
Proof. apply log_blind_primitives. Qed.
Lemma log_blind_set_cache_estrategias k v : log_blind (set_cache_estrategias k v).
Proof. apply log_blind_primitives. Qed.
Lemma log_blind_str v : log_blind (str v).
Proof. apply log_blind_primitives. Qed.
Lemma log_blind_response_json c : log_blind (response_json c).
Proof. apply log_blind_primitives. Qed.

Create HintDb blind.
#[local] Hint Resolve log_blind_ret log_blind_raise log_blind_lift
  log_blind_the_config log_blind_datetime_now log_blind_logger log_blind_client_post
  log_blind_cache_cuentas_get log_blind_cache_estrategias_get
  log_blind_set_cache_cuentas log_blind_set_cache_estrategias
  log_blind_str log_blind_response_json : blind.

(** Through the binds, the [match]es and the [if]s of a function down to
    the primitives and the functions already known. *)
Ltac blind :=
  repeat first
    [ solve [auto with blind]
    | apply log_blind_bind; [|intros ?]
    | apply log_blind_try_except; [|intros ? ?]
    | match goal with
      | |- log_blind (match ?x with _ => _ end) => destruct x
      | |- log_blind (let _ := _ in _) => cbv zeta
      end ].

Lemma log_blind_formatear_fecha_notion s : log_blind (formatear_fecha_notion s).
Proof. unfold formatear_fecha_notion. blind. Qed.
#[local] Hint Resolve log_blind_formatear_fecha_notion : blind.

Lemma log_blind_verificar_ticket_existe t c : log_blind (verificar_ticket_existe t c).
Proof. unfold verificar_ticket_existe. blind. Qed.
#[local] Hint Resolve log_blind_verificar_ticket_existe : blind.

Lemma log_blind_crear_cuenta n : log_blind (crear_cuenta n).
Proof. unfold crear_cuenta. blind. Qed.
#[local] Hint Resolve log_blind_crear_cuenta : blind.

Lemma log_blind_buscar_o_crear_cuenta n : log_blind (buscar_o_crear_cuenta n).
Proof. unfold buscar_o_crear_cuenta. blind. Qed.
#[local] Hint Resolve log_blind_buscar_o_crear_cuenta : blind.

Lemma log_blind_crear_estrategia m : log_blind (crear_estrategia m).
Proof. unfold crear_estrategia. blind. Qed.
#[local] Hint Resolve log_blind_crear_estrategia : blind.

Lemma log_blind_buscar_o_crear_estrategia m : log_blind (buscar_o_crear_estrategia m).
Proof. unfold buscar_o_crear_estrategia. blind. Qed.
#[local] Hint Resolve log_blind_buscar_o_crear_estrategia : blind.

Lemma log_blind_enviar_a_notion trade v : log_blind (enviar_a_notion trade v).
Proof. unfold enviar_a_notion. blind. Qed.
#[local] Hint Resolve log_blind_enviar_a_notion : blind.

Lemma log_blind_registrar_uno trade b : log_blind (registrar_uno trade b).
Proof. unfold registrar_uno. blind. Qed.
#[local] Hint Resolve log_blind_registrar_uno : blind.

Lemma log_blind_registrar_todos trades : forall b, log_blind (registrar_todos trades b).
Proof.
  induction trades as [|trade resto IH]; intros b; simpl; blind.
Qed.
#[local] Hint Resolve log_blind_registrar_todos : blind.

Lemma log_blind_registrar_trades_batch trades : log_blind (registrar_trades_batch trades).
Proof. unfold registrar_trades_batch. blind. Qed.

(** C10.  On every list of trades and against every remote store, [/sync]
    and [/trade/batch] are the same up to the log line [/sync] writes
    first: both return the same response (or raise the same exception),
    issue the same requests in the same order, leave the same caches and
    read the clock as often. *)
Theorem sincronizar_historial_is_batch (trades : list TradeData) (env : Env) (st : State) :
  fst (sincronizar_historial trades env st) = fst (registrar_trades_batch trades env st) /\
  same_but_logs (snd (sincronizar_historial trades env st))
                (snd (registrar_trades_batch trades env st)).
Proof.
  unfold sincronizar_historial. run.
  apply log_blind_registrar_trades_batch. repeat split.
Qed.

(** *** Batch Orchestrator *)

(** One trade moves exactly one bucket by one entry, when the loop body
    returns at all. *)
Lemma registrar_uno_fills (trade : TradeData) (b b' : Buckets) (env : Env) (st st' : State) :
  registrar_uno trade b env st = (Returned b', st') ->
  filled b' = S (filled b).
Proof.
  unfold registrar_uno, try_except_HTTPException, filled, bind, lift, ret, raise.
  cases; try discriminate; intros [= <- _]; simpl; rewrite ?length_app; simpl; lia.
Qed.

Lemma registrar_todos_fills (trades : list TradeData) :
  forall (b b' : Buckets) (env : Env) (st st' : State),
    registrar_todos trades b env st = (Returned b', st') ->
    filled b' = (filled b + length trades)%nat.
Proof.
  induction trades as [|trade resto IH]; intros b b' env st st'; simpl.
  - intros [= <- _]. lia.
  - unfold bind.
    destruct (registrar_uno trade b env st) as [[b1|e] s] eqn:Huno; [|discriminate].
    intros Hresto. apply IH in Hresto. apply registrar_uno_fills in Huno. lia.
Qed.

(** Whenever the batch returns, every trade received is counted in exactly
    one of the three buckets. *)
Lemma registrar_trades_batch_counts (trades : list TradeData) (env : Env) (st st' : State)
    (r : BatchResponse) :
  registrar_trades_batch trades env st = (Returned r, st') ->
  exitosos r + omitidos r + fallidos r = total_recibidos r /\
  total_recibidos r = Z.of_nat (length trades).
Proof.
  unfold registrar_trades_batch, bind.
  destruct (registrar_todos trades _ env st) as [[b|e] s] eqn:Hloop; [|discriminate].
  intros [= <- _]. simpl.
  apply registrar_todos_fills in Hloop. unfold filled in Hloop. simpl in Hloop.
  split; [lia | reflexivity].
Qed.

(** An [HTTPException] of the Trade Recorder does not leave the loop body:
    the trade goes to the bucket of errors and the loop goes on. *)
Lemma registrar_uno_catches (trade : TradeData) (b : Buckets) (env : Env) (st st' : State)
    (sc : Z) (detail : string) :
  enviar_a_notion trade true env st = (Raised (HTTPException sc detail), st') ->
  registrar_uno trade b env st =
    (Returned {| b_resultados := b_resultados b;
                 b_errores := b_errores b ++
                   [ JObj [ ("ticket", JInt (ticket trade)); ("status", JStr "error");
                            ("detail", JStr detail) ] ];
                 b_omitidos := b_omitidos b |}, st').
Proof.
  intros H. unfold registrar_uno, try_except_HTTPException, bind. now rewrite H.
Qed.

(** Any other exception of the Trade Recorder leaves the loop body as it
    is. *)
Lemma registrar_uno_lets_through (trade : TradeData) (b : Buckets) (env : Env)
    (st st' : State) (e : exn) :
  enviar_a_notion trade true env st = (Raised e, st') ->
  (forall sc detail, e <> HTTPException sc detail) ->
  registrar_uno trade b env st = (Raised e, st').
Proof.
  intros H Hne. unfold registrar_uno, try_except_HTTPException, bind. rewrite H.
  destruct e; try reflexivity. now contradiction (Hne status_code detail).
Qed.

(** *** Against a store that honours its interface

    What the failing run of C8 leaves standing: when every response of the
    store carries a JSON object (and the results of a query are entities),
    the Trade Recorder fails by [HTTPException] only, and a batch goes
    through all its trades. *)

Section WellBehavedStore.

Variable env : Env.
Hypothesis store_ok : well_behaved_store env.

Lemma ends_ret {A} (a : A) (P : A -> Prop) : P a -> ends env (ret a) P.
Proof. intros H st. exact H. Qed.

Lemma ends_raise_HTTPException {A} (sc : Z) (detail : string) (P : A -> Prop) :
  ends env (raise (HTTPException sc detail)) P.
Proof. intros st. exact I. Qed.

Lemma ends_bind {A B} (m : M A) (k : A -> M B) (P : A -> Prop) (Q : B -> Prop) :
  ends env m P -> (forall a, P a -> ends env (k a) Q) -> ends env (bind m k) Q.
Proof.
  intros Hm Hk st. unfold bind. specialize (Hm st).
  destruct (m env st) as [[a|e] s]; simpl in *.
  - apply Hk, Hm.
  - exact Hm.
Qed.

Lemma ends_weaken {A} (m : M A) (P Q : A -> Prop) :
  ends env m P -> (forall a, P a -> Q a) -> ends env m Q.
Proof.
  intros Hm HPQ st. specialize (Hm st).
  destruct (fst (m env st)) as [a|e]; [apply HPQ, Hm | exact Hm].
Qed.

Lemma ends_client_post (u : string) (p : json) (t : Z) :
  ends env (client_post u p t) honours_interface.
Proof. intros st. apply store_ok. Qed.

Lemma ends_effects :
  ends env the_config (fun _ => True) /\
  ends env datetime_now (fun _ => True) /\
  (forall lvl line a, ends env (logger lvl line a) (fun _ => True)) /\
  (forall k, ends env (cache_cuentas_get k) (fun _ => True)) /\
  (forall k, ends env (cache_estrategias_get k) (fun _ => True)) /\
  (forall k v, ends env (set_cache_cuentas k v) (fun _ => True)) /\
  (forall k v, ends env (set_cache_estrategias k v) (fun _ => True)) /\
  (forall v, ends env (str v) (fun _ => True)).
Proof. repeat split. Qed.

Lemma ends_the_config : ends env the_config (fun _ => True).
Proof. apply ends_effects. Qed.
Lemma ends_datetime_now : ends env datetime_now (fun _ => True).
Proof. apply ends_effects. Qed.
Lemma ends_logger lvl line a : ends env (logger lvl line a) (fun _ => True).
Proof. apply ends_effects. Qed.
Lemma ends_cache_cuentas_get k : ends env (cache_cuentas_get k) (fun _ => True).
Proof. apply ends_effects. Qed.
Lemma ends_cache_estrategias_get k : ends env (cache_estrategias_get k) (fun _ => True).
Proof. apply ends_effects. Qed.
Lemma ends_set_cache_cuentas k v : ends env (set_cache_cuentas k v) (fun _ => True).
Proof. apply ends_effects. Qed.
Lemma ends_set_cache_estrategias k v : ends env (set_cache_estrategias k v) (fun _ => True).
Proof. apply ends_effects. Qed.
Lemma ends_str v : ends env (str v) (fun _ => True).
Proof. apply ends_effects. Qed.

Create HintDb ends.
#[local] Hint Resolve ends_the_config ends_datetime_now ends_logger
  ends_cache_cuentas_get ends_cache_estrategias_get ends_set_cache_cuentas
  ends_set_cache_estrategias ends_str ends_client_post ends_raise_HTTPException : ends.

Lemma ends_ret_eq {A} (a : A) : ends env (ret a) (fun x => x = a).
Proof. intros st. reflexivity. Qed.

(** One step through a function: a bind by [ends_bind], a [match] or an
    [if] by cases (the hypotheses about the scrutinee follow), a return by
    its postcondition. *)
Ltac cases_on x :=
  repeat match goal with H : context [x] |- _ => revert H end;
  destruct x; intros; simpl in *; try contradiction;
  repeat match goal with
         | H : Forall _ (_ :: _) |- _ => inversion H; subst; clear H
         | H : is_Some None |- _ => destruct H; discriminate
         end;
  simpl in *; try contradiction.

Ltac ends_step :=
  simpl; unfold lift, response_json; simpl;
  match goal with
  | H : is_entity ?v |- _ => is_var v; unfold is_entity in H
  | H : match ?v with _ => _ end |- _ => is_var v; cases_on v
  | |- ends _ (ret _) _ => apply ends_ret; simpl; solve [auto]
  | |- ends _ (raise (HTTPException _ _)) _ => apply ends_raise_HTTPException
  | |- ends _ (bind (ret _) _) _ => eapply ends_bind; [apply ends_ret_eq | intros ? ->]
  | |- ends _ (bind _ _) _ =>
      first [ eapply ends_bind; [solve [eauto with ends]|intros ? ?]
            | apply ends_bind with (P := fun _ => True); [|intros ? ?] ]
  | |- ends _ ?m _ =>
      match m with
      | context [match ?x with _ => _ end] =>
          lazymatch x with
          | context [match _ with _ => _ end] => fail
          | _ => cases_on x
          end
      end
  | |- ends _ _ _ => solve [eauto with ends]
  end.

Ltac ends_auto := repeat ends_step.

Lemma ends_formatear_fecha_notion (s : string) :
  ends env (formatear_fecha_notion s) (fun _ => True).
Proof. unfold formatear_fecha_notion. ends_auto. Qed.

Lemma ends_verificar_ticket_existe (t : Z) (c : string) :
  ends env (verificar_ticket_existe t c) (fun _ => True).
Proof. unfold verificar_ticket_existe. ends_auto. Qed.

Lemma ends_crear_cuenta (n : string) : ends env (crear_cuenta n) (fun _ => True).
Proof. unfold crear_cuenta. ends_auto. Qed.

Lemma ends_crear_estrategia (m : Z) : ends env (crear_estrategia m) (fun _ => True).
Proof. unfold crear_estrategia. ends_auto. Qed.

Lemma ends_buscar_o_crear_cuenta (n : string) :
  ends env (buscar_o_crear_cuenta n) (fun _ => True).
Proof.
  pose proof ends_crear_cuenta.
  unfold buscar_o_crear_cuenta. ends_auto.
Qed.

Lemma ends_buscar_o_crear_estrategia (m : Z) :
  ends env (buscar_o_crear_estrategia m) (fun _ => True).
Proof.
  pose proof ends_crear_estrategia.
  unfold buscar_o_crear_estrategia. ends_auto.
Qed.

#[local] Hint Resolve ends_formatear_fecha_notion ends_verificar_ticket_existe
  ends_buscar_o_crear_cuenta ends_buscar_o_crear_estrategia : ends.

(** Against such a store the Trade Recorder returns a dictionary or raises
    an [HTTPException]. *)
Lemma ends_enviar_a_notion (trade : TradeData) (verificar_duplicado : bool) :
  ends env (enviar_a_notion trade verificar_duplicado) is_object.
Proof. unfold enviar_a_notion. ends_auto. Qed.

(** So the loop of the batch reaches the end of the list, whatever the
    trades. *)
Lemma registrar_todos_returns (trades : list TradeData) :
  forall b st, exists b' st', registrar_todos trades b env st = (Returned b', st').
Proof.
  induction trades as [|trade resto IH]; intros b st; simpl.
  - eexists _, _. reflexivity.
  - unfold bind.
    assert (Huno : exists b1 s1, registrar_uno trade b env st = (Returned b1, s1)).
    { pose proof (ends_enviar_a_notion trade true st) as Hok.
      unfold registrar_uno, try_except_HTTPException, bind, lift, ret, raise.
      destruct (enviar_a_notion trade true env st) as [[resultado_notion|e] s]; simpl in *.
      - destruct resultado_notion; try contradiction. simpl.
        destruct (Py.eq_str _ _); simpl; eexists _, _; reflexivity.
      - destruct e; try contradiction. eexists _, _; reflexivity. }
    destruct Huno as (b1 & s1 & ->). apply IH.
Qed.

(** Against a store that honours its interface the batch returns its
    summary, and the three counts add up to the number of trades
    received. *)
Lemma registrar_trades_batch_goes_through (trades : list TradeData) (st : State) :
  exists r st',
    registrar_trades_batch trades env st = (Returned r, st') /\
    exitosos r + omitidos r + fallidos r = total_recibidos r /\
    total_recibidos r = Z.of_nat (length trades).
Proof.
  destruct (registrar_todos_returns trades
              {| b_resultados := []; b_errores := []; b_omitidos := [] |} st)
    as (b & st' & Hloop).
  assert (Hrun : exists r, registrar_trades_batch trades env st = (Returned r, st')).
  { unfold registrar_trades_batch, bind. rewrite Hloop. eexists. reflexivity. }
  destruct Hrun as (r & Hrun). exists r, st'.
  split; [exact Hrun|]. eapply registrar_trades_batch_counts, Hrun.
Qed.

End WellBehavedStore.

(** The store without any record honours the interface. *)
Lemma empty_store_well_behaved : well_behaved_store empty_store_env.
Proof.
  intros trace. simpl. unfold empty_store.
  destruct (current trace) as [req|]; [|exact I].
  destruct (String.eqb _ _); simpl; [exact I | constructor].
Qed.


(** C8.  The failing run: a batch of two trades against a store whose
    gateway answers the create of the first trade with a 502 that carries
    no JSON.  [response.json()] raises on the error path of
    [enviar_a_notion], the exception is no [HTTPException], the
    [except] clause of the batch does not catch it: the batch raises, the
    second trade is never looked at (the trace holds no request for ticket
    2) and no response with counts is produced. *)
Theorem registrar_trades_batch_aborts :
  fst (registrar_trades_batch [sample_trade 1; sample_trade 2]
         bad_gateway_env initial_state) = Raised JSONDecodeError /\
  length (calls (snd (registrar_trades_batch [sample_trade 1; sample_trade 2]
                        bad_gateway_env initial_state))) = 6%nat /\
  head (calls (snd (registrar_trades_batch [sample_trade 1; sample_trade 2]
                      bad_gateway_env initial_state))) =
    Some (ticket_query sample_config 1) /\
  ~ In (ticket_query sample_config 2)
       (calls (snd (registrar_trades_batch [sample_trade 1; sample_trade 2]
                      bad_gateway_env initial_state))).
Proof.
  split; [reflexivity|]. split; [reflexivity|]. split; [reflexivity|].
  vm_compute. intuition discriminate.
Qed.

(** *** Ticket Enumerator *)

(** A failed page fetch ends the pagination: what was accumulated is
    returned, after the one request that failed. *)
Lemma paginar_stops_on_failure (fuel : nat) (cuenta : string) (tickets : list Z)
    (has_more start_cursor : json) (env : Env) (st : State) :
  Py.truthy has_more = true ->
  let req := {| url := NOTION_QUERY_URL +:+ "/" +:+ NOTION_DATABASE_ID (config env) +:+ "/query";
                headers := get_notion_headers (config env);
                payload := obtener_tickets_payload cuenta start_cursor;
                timeout := 60 |} in
  (match notion env (calls st ++ [req]) with
   | RequestError _ => True
   | Response status_code _ => status_code <> 200
   end) ->
  let run := paginar (S fuel) cuenta tickets has_more start_cursor env st in
  fst run = Returned (Some tickets) /\ issued st (snd run) [req].
Proof.
  intros Hmore req Hfail run. subst req run. unfold issued.
  simpl. rewrite Hmore. run.
  destruct (notion env _) as [e|sc content]; simpl.
  - destruct fuel; split; reflexivity.
  - apply Z.eqb_neq in Hfail. rewrite Hfail. simpl.
    destruct fuel; split; reflexivity.
Qed.

(** A ticket field that [isdigit] rejects is skipped. *)
Lemma extraer_tickets_skips (s : string) (resto : list json) (tickets : list Z)
    (env : Env) (st : State) :
  Py.isdigit s = false ->
  extraer_tickets (ticket_page s :: resto) tickets env st =
    extraer_tickets resto tickets env st.
Proof.
  intros H. simpl. run.
  destruct (String.eqb_spec s "") as [->|Hne]; simpl; [reflexivity|].
  now rewrite H.
Qed.

(** A ticket field [int] accepts after [isdigit] did is appended. *)
Lemma extraer_tickets_appends (s : string) (n : Z) (resto : list json) (tickets : list Z)
    (env : Env) (st : State) :
  Py.isdigit s = true -> Py.int s = Some n ->
  extraer_tickets (ticket_page s :: resto) tickets env st =
    extraer_tickets resto (tickets ++ [n]) env st.
Proof.
  intros Hd Hi. simpl. run.
  destruct (String.eqb_spec s "") as [->|Hne]; simpl; [discriminate|].
  now rewrite Hd, Hi.
Qed.

(** [isdigit] and [int] do not agree: the superscript two is a digit for
    the first and no literal for the second. *)
Lemma isdigit_not_int :
  Py.isdigit superscript_two = true /\ Py.int superscript_two = None.
Proof. split; reflexivity. Qed.

(** C9.  The failing run: the first page of results, a 200, holds a ticket
    field made of the superscript two.  [ticket_str.isdigit()] accepts it,
    [int(ticket_str)] raises [ValueError], nothing catches it: the
    enumerator raises instead of skipping the field, and the ticket 10042
    accumulated before is lost with it. *)
Theorem obtener_tickets_cuenta_raises (fuel : nat) :
  fst (obtener_tickets_cuenta (S fuel) "FTMO_01" superscript_env initial_state) =
    Raised ValueError /\
  length (calls (snd (obtener_tickets_cuenta (S fuel) "FTMO_01"
                        superscript_env initial_state))) = 1%nat.
Proof. split; reflexivity. Qed.

(** On a field made of ASCII digits only, [isdigit] and [int] do agree:
    such a field is parsed. *)
Lemma isdecimal_not_space (c : ascii) :
  Py.isdecimal_char c = true -> Py.isspace_char c = false.
Proof.
  unfold Py.isdecimal_char, Py.isspace_char, Py.in_range.
  intros H. apply andb_true_iff in H as [H1 H2].
  apply Z.leb_le in H1, H2.
  repeat match goal with
         | |- context [?a <=? ?b] => destruct (Z.leb_spec a b)
         | |- context [?a =? ?b] => destruct (Z.eqb_spec a b)
         end; simpl; try reflexivity; lia.
Qed.

Lemma lstrip_decimal (l : list ascii) :
  forallb Py.isdecimal_char l = true -> Py.lstrip l = l.
Proof.
  destruct l as [|c r]; simpl; [reflexivity|].
  intros H. apply andb_true_iff in H as [Hc _].
  now rewrite (isdecimal_not_space c Hc).
Qed.

Lemma strip_decimal (l : list ascii) :
  forallb Py.isdecimal_char l = true -> Py.strip l = l.
Proof.
  intros H. unfold Py.strip. rewrite (lstrip_decimal l H).
  rewrite lstrip_decimal, rev_involutive; [reflexivity|].
  rewrite forallb_forall in *. intros c Hc. apply H. now apply in_rev.
Qed.

Lemma int_digits_decimal (l : list ascii) :
  forallb Py.isdecimal_char l = true ->
  forall acc after_digit,
    l <> [] \/ after_digit = true ->
    exists n, Py.int_digits acc after_digit l = Some n.
Proof.
  induction l as [|c r IH]; simpl; intros H acc after_digit Hne.
  - destruct Hne as [Hne| ->]; [contradiction | eauto].
  - apply andb_true_iff in H as [Hc Hr]. rewrite Hc.
    apply IH; auto.
Qed.

Lemma int_of_decimal (s : string) :
  s <> "" -> forallb Py.isdecimal_char (Py.chars s) = true ->
  Py.isdigit s = true /\ exists n, Py.int s = Some n.
Proof.
  intros Hne Hdec. unfold Py.isdigit, Py.int.
  rewrite (strip_decimal _ Hdec).
  destruct (Py.chars s) as [|c r] eqn:Hs.
  - destruct s; [contradiction | discriminate].
  - split.
    + simpl in *. apply andb_true_iff in Hdec as [Hc Hr].
      apply andb_true_iff. split.
      * unfold Py.isdigit_char. now rewrite Hc.
      * rewrite forallb_forall in *. intros x Hx.
        unfold Py.isdigit_char. now rewrite (Hr x Hx).
    + assert (Hc : Py.isdecimal_char c = true)
        by (simpl in Hdec; now apply andb_true_iff in Hdec as [? _]).
      unfold Py.isdecimal_char, Py.in_range in Hc.
      apply andb_true_iff in Hc as [H1 H2]. apply Z.leb_le in H1, H2.
      destruct (Z.eqb_spec (Py.ord c) 45); [lia|].
      destruct (Z.eqb_spec (Py.ord c) 43); [lia|].
      apply int_digits_decimal; [exact Hdec | left; discriminate].
Qed.

(* ===================================================================== *)
(** ** Further properties                                                 *)
(* ===================================================================== *)

(** *** What a run leaves behind *)

Lemma later_refl (env : Env) (st : State) : later env st st.
Proof.
  split; try (exists []; rewrite app_nil_r; auto); auto.
Qed.

Lemma later_trans (env : Env) (st1 st2 st3 : State) :
  later env st1 st2 -> later env st2 st3 -> later env st1 st3.
Proof.
  intros [(r1 & Hc1 & Hf1) (l1 & Hl1) Hk1 Ha1 He1] [(r2 & Hc2 & Hf2) (l2 & Hl2) Hk2 Ha2 He2].
  split.
  - exists (r1 ++ r2). rewrite Hc2, Hc1, app_assoc. split; [reflexivity|].
    apply Forall_app; split; assumption.
  - exists (l1 ++ l2). now rewrite Hl2, Hl1, app_assoc.
  - lia.
  - auto.
  - auto.
Qed.

Lemma steady_ret {A} (a : A) : steady (ret a).
Proof. intros env st. apply later_refl. Qed.

Lemma steady_raise {A} (e : exn) : steady (@raise A e).
Proof. intros env st. apply later_refl. Qed.

Lemma steady_lift {A} (r : exn + A) : steady (lift r).
Proof. destruct r; [apply steady_raise | apply steady_ret]. Qed.

Lemma steady_bind {A B} (m : M A) (k : A -> M B) :
  steady m -> (forall a, steady (k a)) -> steady (bind m k).
Proof.
  intros Hm Hk env st. unfold bind. specialize (Hm env st).
  destruct (m env st) as [[a|e] s]; simpl in *; [|exact Hm].
  eapply later_trans; [exact Hm | apply Hk].
Qed.

Lemma steady_try_except {A} (body : M A) (handler : Z -> string -> M A) :
  steady body -> (forall sc detail, steady (handler sc detail)) ->
  steady (try_except_HTTPException body handler).
Proof.
  intros Hb Hh env st. unfold try_except_HTTPException. specialize (Hb env st).
  destruct (body env st) as [[a|e] s]; simpl in *; [exact Hb|].
  destruct e; try exact Hb.
  eapply later_trans; [exact Hb | apply Hh].
Qed.

Lemma steady_the_config : steady the_config.
Proof. intros env st. apply later_refl. Qed.

Lemma steady_cache_cuentas_get k : steady (cache_cuentas_get k).
Proof. intros env st. apply later_refl. Qed.

Lemma steady_cache_estrategias_get k : steady (cache_estrategias_get k).
Proof. intros env st. apply later_refl. Qed.

Lemma steady_str v : steady (str v).
Proof. intros env st. apply later_refl. Qed.

Lemma steady_response_json c : steady (response_json c).
Proof. destruct c; [apply steady_ret | apply steady_raise]. Qed.

Lemma steady_logger lvl line a : steady (logger lvl line a).
Proof.
  intros env st. split; simpl; auto.
  - exists []. now rewrite app_nil_r.
  - eexists. reflexivity.
Qed.

Lemma steady_datetime_now : steady datetime_now.
Proof.
  intros env st. split; simpl; auto.
  - exists []. now rewrite app_nil_r.
  - exists []. now rewrite app_nil_r.
Qed.

(** A request goes out with the headers of [get_notion_headers]; the
    address decides whether it is one the server may use. *)
Lemma steady_client_post (u : string) (p : json) (t : Z) :
  well_addressed {| url := u; headers := []; payload := p; timeout := t |} ->
  steady (client_post u p t).
Proof.
  intros Hu env st. split; simpl; auto.
  - eexists. split; [reflexivity|]. constructor; [|constructor].
    split; [reflexivity | exact Hu].
  - exists []. now rewrite app_nil_r.
Qed.

Lemma well_addressed_pages (p : json) (t : Z) :
  well_addressed {| url := NOTION_API_URL; headers := []; payload := p; timeout := t |}.
Proof. left. reflexivity. Qed.

Lemma well_addressed_query (db : string) (p : json) (t : Z) :
  well_addressed {| url := NOTION_QUERY_URL +:+ "/" +:+ db +:+ "/query";
                    headers := []; payload := p; timeout := t |}.
Proof. right. exists db. reflexivity. Qed.

Create HintDb steady.
#[local] Hint Resolve steady_ret steady_raise steady_lift steady_the_config
  steady_cache_cuentas_get steady_cache_estrategias_get steady_str
  steady_response_json steady_logger steady_datetime_now
  steady_client_post well_addressed_pages well_addressed_query : steady.

Ltac steady_auto :=
  repeat first
    [ solve [auto with steady]
    | apply steady_bind; [|intros ?]
    | apply steady_try_except; [|intros ? ?]
    | match goal with
      | |- steady (match ?x with _ => _ end) => destruct x
      | |- steady (let _ := _ in _) => cbv zeta
      end ].

Lemma steady_formatear_fecha_notion s : steady (formatear_fecha_notion s).
Proof. unfold formatear_fecha_notion. steady_auto. Qed.

Lemma steady_verificar_ticket_existe t c : steady (verificar_ticket_existe t c).
Proof. unfold verificar_ticket_existe. steady_auto. Qed.
#[local] Hint Resolve steady_formatear_fecha_notion steady_verificar_ticket_existe : steady.

Lemma quiet_later {A} (m : M A) : quiet m -> steady m.
Proof. intros H env st. apply H. Qed.

Lemma quiet_ret {A} (a : A) : quiet (ret a).
Proof. intros env st. split; [apply later_refl | split; reflexivity]. Qed.

Lemma quiet_raise {A} (e : exn) : quiet (@raise A e).
Proof. intros env st. split; [apply later_refl | split; reflexivity]. Qed.

Lemma quiet_lift {A} (r : exn + A) : quiet (lift r).
Proof. destruct r; [apply quiet_raise | apply quiet_ret]. Qed.

Lemma quiet_response_json c : quiet (response_json c).
Proof. destruct c; [apply quiet_ret | apply quiet_raise]. Qed.

Lemma quiet_the_config : quiet the_config.
Proof. intros env st. split; [apply later_refl | split; reflexivity]. Qed.

Lemma quiet_str v : quiet (str v).
Proof. intros env st. split; [apply later_refl | split; reflexivity]. Qed.

Lemma quiet_logger lvl line a : quiet (logger lvl line a).
Proof. intros env st. split; [apply steady_logger | split; reflexivity]. Qed.

Lemma quiet_client_post (u : string) (p : json) (t : Z) :
  well_addressed {| url := u; headers := []; payload := p; timeout := t |} ->
  quiet (client_post u p t).
Proof. intros Hu env st. split; [now apply steady_client_post | split; reflexivity]. Qed.

Lemma quiet_bind {A B} (m : M A) (k : A -> M B) :
  quiet m -> (forall a, quiet (k a)) -> quiet (bind m k).
Proof.
  intros Hm Hk env st. unfold bind. destruct (Hm env st) as (Hl & Hc & He).
  destruct (m env st) as [[a|e] s]; simpl in *; [|auto].
  destruct (Hk a env s) as (Hl' & Hc' & He').
  split; [eapply later_trans; eassumption | split; congruence].
Qed.

#[local] Hint Resolve quiet_ret quiet_raise quiet_lift quiet_response_json quiet_the_config
  quiet_str quiet_logger quiet_client_post : steady.

Lemma steady_when_steady {A} (P : State -> Prop) (m : M A) : steady m -> steady_when P m.
Proof. intros H env st _. apply H. Qed.

(** Through a quiet step a key stays out of the cache. *)
Lemma steady_when_cuenta_bind {A B} (k : string) (m : M A) (f : A -> M B) :
  quiet m -> (forall a, steady_when (fresh_cuenta k) (f a)) ->
  steady_when (fresh_cuenta k) (bind m f).
Proof.
  intros Hm Hf env st Hfresh. unfold bind. destruct (Hm env st) as (Hl & Hc & _).
  destruct (m env st) as [[a|e] s]; simpl in *; [|exact Hl].
  eapply later_trans; [exact Hl|]. apply Hf. unfold fresh_cuenta in *. congruence.
Qed.

Lemma steady_when_estrategia_bind {A B} (k : Z) (m : M A) (f : A -> M B) :
  quiet m -> (forall a, steady_when (fresh_estrategia k) (f a)) ->
  steady_when (fresh_estrategia k) (bind m f).
Proof.
  intros Hm Hf env st Hfresh. unfold bind. destruct (Hm env st) as (Hl & _ & Hc).
  destruct (m env st) as [[a|e] s]; simpl in *; [|exact Hl].
  eapply later_trans; [exact Hl|]. apply Hf. unfold fresh_estrategia in *. congruence.
Qed.

(** Writing under a key that is not in the cache keeps every entry. *)
Lemma steady_when_set_cuenta {B} (k : string) (v : json) (f : unit -> M B) :
  (forall u, steady (f u)) ->
  steady_when (fresh_cuenta k) (bind (set_cache_cuentas k v) f).
Proof.
  intros Hf env st Hfresh. unfold bind. simpl.
  eapply later_trans; [|apply Hf].
  split; simpl; auto; try (exists []; now rewrite app_nil_r).
  intros k' v' Hk'. destruct (decide (k = k')) as [->|Hne].
  - unfold fresh_cuenta in Hfresh. congruence.
  - now rewrite lookup_insert_ne.
Qed.

Lemma steady_when_set_estrategia {B} (k : Z) (v : json) (f : unit -> M B) :
  (forall u, steady (f u)) ->
  steady_when (fresh_estrategia k) (bind (set_cache_estrategias k v) f).
Proof.
  intros Hf env st Hfresh. unfold bind. simpl.
  eapply later_trans; [|apply Hf].
  split; simpl; auto; try (exists []; now rewrite app_nil_r).
  intros k' v' Hk'. destruct (decide (k = k')) as [->|Hne].
  - unfold fresh_estrategia in Hfresh. congruence.
  - now rewrite lookup_insert_ne.
Qed.

(** The cache is consulted first: a hit goes one way, and a miss goes the
    other way knowing that the key is not in the cache. *)
Lemma steady_cuenta_guard (k : string) (hit : json -> M json) (miss : M json) :
  (forall v, steady (hit v)) -> steady_when (fresh_cuenta k) miss ->
  steady (bind (cache_cuentas_get k)
            (fun cached => match cached with Some v => hit v | None => miss end)).
Proof.
  intros Hhit Hmiss env st. unfold bind, cache_cuentas_get. simpl.
  destruct (_cache_cuentas st !! k) eqn:Hk; [apply Hhit | now apply Hmiss].
Qed.

Lemma steady_estrategia_guard (k : Z) (hit : json -> M json) (miss : M json) :
  (forall v, steady (hit v)) -> steady_when (fresh_estrategia k) miss ->
  steady (bind (cache_estrategias_get k)
            (fun cached => match cached with Some v => hit v | None => miss end)).
Proof.
  intros Hhit Hmiss env st. unfold bind, cache_estrategias_get. simpl.
  destruct (_cache_estrategias st !! k) eqn:Hk; [apply Hhit | now apply Hmiss].
Qed.

Ltac steady_when_auto :=
  repeat first
    [ solve [apply steady_when_steady; steady_auto]
    | apply steady_when_set_cuenta; intros ?; steady_auto
    | apply steady_when_set_estrategia; intros ?; steady_auto
    | apply steady_when_cuenta_bind; [solve [auto with steady]|intros ?]
    | apply steady_when_estrategia_bind; [solve [auto with steady]|intros ?]
    | match goal with
      | |- steady_when _ (match ?x with _ => _ end) => destruct x
      | |- steady_when _ (let _ := _ in _) => cbv zeta
      end ].

Lemma steady_when_crear_cuenta (n : string) : steady_when (fresh_cuenta n) (crear_cuenta n).
Proof. unfold crear_cuenta. steady_when_auto. Qed.

Lemma steady_when_crear_estrategia (m : Z) :
  steady_when (fresh_estrategia m) (crear_estrategia m).
Proof. unfold crear_estrategia. steady_when_auto. Qed.

Lemma steady_buscar_o_crear_cuenta (n : string) : steady (buscar_o_crear_cuenta n).
Proof.
  unfold buscar_o_crear_cuenta. apply steady_cuenta_guard; [intros; steady_auto|].
  pose proof (steady_when_crear_cuenta n). steady_when_auto; assumption.
Qed.

Lemma steady_buscar_o_crear_estrategia (m : Z) : steady (buscar_o_crear_estrategia m).
Proof.
  unfold buscar_o_crear_estrategia. apply steady_estrategia_guard; [intros; steady_auto|].
  pose proof (steady_when_crear_estrategia m). steady_when_auto; assumption.
Qed.
#[local] Hint Resolve steady_buscar_o_crear_cuenta steady_buscar_o_crear_estrategia : steady.

Lemma steady_enviar_a_notion trade v : steady (enviar_a_notion trade v).
Proof. unfold enviar_a_notion. steady_auto. Qed.
#[local] Hint Resolve steady_enviar_a_notion : steady.

Lemma steady_guardar_drawdown_notion d : steady (guardar_drawdown_notion d).
Proof. unfold guardar_drawdown_notion. steady_auto. Qed.
#[local] Hint Resolve steady_guardar_drawdown_notion : steady.

Lemma steady_registrar_uno trade b : steady (registrar_uno trade b).
Proof. unfold registrar_uno. steady_auto. Qed.
#[local] Hint Resolve steady_registrar_uno : steady.

Lemma steady_registrar_todos trades : forall b, steady (registrar_todos trades b).
Proof. induction trades as [|trade resto IH]; intros b; simpl; steady_auto. Qed.
#[local] Hint Resolve steady_registrar_todos : steady.

Lemma steady_registrar_trades_batch trades : steady (registrar_trades_batch trades).
Proof. unfold registrar_trades_batch. steady_auto. Qed.
#[local] Hint Resolve steady_registrar_trades_batch : steady.

Lemma steady_sincronizar_historial trades : steady (sincronizar_historial trades).
Proof. unfold sincronizar_historial. steady_auto. Qed.

Lemma steady_extraer_tickets pages : forall tickets, steady (extraer_tickets pages tickets).
Proof. induction pages as [|page resto IH]; intros tickets; simpl; steady_auto. Qed.
#[local] Hint Resolve steady_extraer_tickets : steady.

Lemma steady_paginar fuel cuenta :
  forall tickets has_more start_cursor,
    steady (paginar fuel cuenta tickets has_more start_cursor).
Proof.
  induction fuel as [|fuel IH]; intros tickets has_more start_cursor; simpl; steady_auto.
Qed.
#[local] Hint Resolve steady_paginar : steady.

Lemma steady_obtener_tickets_cuenta fuel cuenta : steady (obtener_tickets_cuenta fuel cuenta).
Proof. unfold obtener_tickets_cuenta. steady_auto. Qed.
#[local] Hint Resolve steady_obtener_tickets_cuenta : steady.

Lemma steady_obtener_tickets fuel cuenta : steady (obtener_tickets fuel cuenta).
Proof. unfold obtener_tickets. steady_auto. Qed.

Lemma steady_registrar_trade trade : steady (registrar_trade trade).
Proof. unfold registrar_trade. steady_auto. Qed.

Lemma steady_registrar_drawdown d : steady (registrar_drawdown d).
Proof. unfold registrar_drawdown. steady_auto. Qed.

Lemma steady_root : steady root.
Proof. unfold root. steady_auto. Qed.

Lemma steady_health_check : steady health_check.
Proof. unfold health_check. steady_auto. Qed.

(** Whatever the handler, the state it leaves is a later state of the one
    it found. *)
Lemma handler_later (h : handler) (env : Env) (st : State) :
  later env st (run_handler h env st).
Proof.
  destruct h; simpl.
  - apply steady_root.
  - apply steady_health_check.
  - apply steady_obtener_tickets.
  - apply steady_registrar_trade.
  - apply steady_registrar_trades_batch.
  - apply steady_registrar_drawdown.
  - apply steady_sincronizar_historial.
Qed.

(** X1.  Whatever the handler, its arguments, the store and the state, the
    trace of requests only grows at its end, and every request the handler
    issues presents the bearer credential and the protocol version and goes
    to the page-creation address or to the query address of a collection. *)
Theorem requests_carry_credential (h : handler) (env : Env) (st : State) :
  exists reqs,
    calls (run_handler h env st) = calls st ++ reqs /\
    Forall (fun req => credentialed (config env) req /\ well_addressed req) reqs.
Proof. apply handler_later. Qed.

(** X2.  Whatever the handler, its arguments, the store and the state, an
    entry of a relation cache is still there, unchanged, when the handler
    is done: the caches are never invalidated nor overwritten. *)
Theorem caches_never_forget (h : handler) (env : Env) (st : State) :
  (forall k v, _cache_cuentas st !! k = Some v ->
               _cache_cuentas (run_handler h env st) !! k = Some v) /\
  (forall k v, _cache_estrategias st !! k = Some v ->
               _cache_estrategias (run_handler h env st) !! k = Some v).
Proof. split; apply handler_later. Qed.

(** *** Duplicate Checker, both ways *)

(** X3.  With the primary collection configured, the checker answers
    [True] exactly when the store answers its query with status 200 and a
    body whose [results] have a positive length; any other status, another
    2xx included, gives [False] whatever the body. *)
Theorem verificar_ticket_existe_only_200
    (ticket : Z) (cuenta : string) (env : Env) (st : State) :
  ~ unconfigured (config env) ->
  (forall data results n,
      notion env (calls st ++ [ticket_query (config env) ticket]) = Response 200 (Some data) ->
      Py.get data "results" (JArr []) = inr results ->
      Py.len results = inr n ->
      fst (verificar_ticket_existe ticket cuenta env st) = Returned (0 <? n))
  /\
  (forall status_code content,
      notion env (calls st ++ [ticket_query (config env) ticket]) =
        Response status_code content ->
      status_code <> 200 ->
      fst (verificar_ticket_existe ticket cuenta env st) = Returned false).
Proof.
  intros Hcfg. unfold verificar_ticket_existe. run.
  destruct (not_ _ || not_ _) eqn:Hu; [contradict Hcfg; now apply unconfigured_test|].
  simpl. unfold ticket_query, verificar_ticket_payload. split.
  - intros data results n Hans Hres Hlen.
    rewrite Hans. simpl. rewrite Hres. simpl. now rewrite Hlen.
  - intros sc content Hans Hne. rewrite Hans. simpl.
    apply Z.eqb_neq in Hne. now rewrite Hne.
Qed.

(** Witness of X3: a 201 with a matching record still gives [False]. *)
Lemma verificar_ticket_existe_only_200_witness :
  ~ unconfigured sample_config /\
  fst (verificar_ticket_existe 10042 "FTMO_01"
         (sample_env sample_config created_store) initial_state) = Returned false.
Proof.
  assert (Hcfg : ~ unconfigured (config (sample_env sample_config created_store)))
    by (intros [H|H]; discriminate).
  split; [exact Hcfg|].
  apply (proj2 (verificar_ticket_existe_only_200 10042 "FTMO_01"
                  (sample_env sample_config created_store) initial_state Hcfg)
           201 (Some (JObj [ ("results", JArr [ JObj [ ("id", JStr "page-7") ] ]) ]))).
  - reflexivity.
  - discriminate.
Defined.

(** *** Trade Recorder: the duplicate path *)

(** When the checker finds the ticket, the recorder stops there. *)
Lemma enviar_a_notion_duplicate (trade : TradeData) (env : Env) (st : State)
    (data results : json) (n : Z) :
  ~ unconfigured (config env) ->
  notion env (calls st ++ [ticket_query (config env) (ticket trade)]) =
    Response 200 (Some data) ->
  Py.get data "results" (JArr []) = inr results ->
  Py.len results = inr n -> 0 < n ->
  exists st',
    enviar_a_notion trade true env st = (Returned duplicate_result, st') /\
    issued st st' [ticket_query (config env) (ticket trade)] /\
    logs st' = logs st ++ [ {| levelname := INFO; lineno := 631; args := [JInt (ticket trade)] |} ] /\
    _cache_cuentas st' = _cache_cuentas st /\
    _cache_estrategias st' = _cache_estrategias st /\
    clock_reads st' = clock_reads st.
Proof.
  intros Hcfg Hans Hres Hlen Hn.
  unfold enviar_a_notion, verificar_ticket_existe, issued. run.
  destruct (not_ _ || not_ _) eqn:Hu; [contradict Hcfg; now apply unconfigured_test|].
  simpl. rewrite ?Hu. simpl. unfold ticket_query, verificar_ticket_payload in *.
  rewrite Hans. simpl. rewrite Hres. simpl. rewrite Hlen. simpl.
  apply Z.ltb_lt in Hn. rewrite Hn. simpl.
  eexists. repeat split.
Qed.

(** X4.  [POST /trade] on a ticket the store already holds: the endpoint
    answers success with status ["skipped"] and the message "Trade N ya
    existe, omitido"; the only request of the run is the lookup of the
    ticket, so nothing is created, no relation is resolved, no date is
    normalized and the caches stay as they were. *)
Theorem registrar_trade_skips_duplicate (trade : TradeData) (env : Env) (st : State)
    (data results : json) (n : Z) :
  ~ unconfigured (config env) ->
  notion env (calls st ++ [ticket_query (config env) (ticket trade)]) =
    Response 200 (Some data) ->
  Py.get data "results" (JArr []) = inr results ->
  Py.len results = inr n -> 0 < n ->
  fst (registrar_trade trade env st) =
    Returned (JObj [ ("success", JBool true);
                     ("message", JStr ("Trade " +:+ Py.str_of_int (ticket trade) +:+
                                       " ya existe, omitido"));
                     ("status", JStr "skipped");
                     ("cuenta", JStr (identificador_cuenta trade)) ]) /\
  issued st (snd (registrar_trade trade env st))
    [ticket_query (config env) (ticket trade)] /\
  _cache_cuentas (snd (registrar_trade trade env st)) = _cache_cuentas st /\
  _cache_estrategias (snd (registrar_trade trade env st)) = _cache_estrategias st /\
  clock_reads (snd (registrar_trade trade env st)) = clock_reads st.
Proof.
  intros Hcfg Hans Hres Hlen Hn.
  set (st0 := snd (logger INFO 952 [JStr (identificador_cuenta trade); JInt (ticket trade);
                     JStr (simbolo trade); JFloat (pnl trade); JStr (resultado trade)] env st)).
  destruct (enviar_a_notion_duplicate trade env st0 data results n Hcfg Hans Hres Hlen Hn)
    as (st' & Hrun & Hissued & _ & Hc & He & Hk).
  assert (Hlog : logger INFO 952 [JStr (identificador_cuenta trade); JInt (ticket trade);
                     JStr (simbolo trade); JFloat (pnl trade); JStr (resultado trade)] env st =
                 (Returned tt, st0)) by reflexivity.
  unfold registrar_trade, bind. rewrite Hlog, Hrun. simpl.
  repeat split; assumption.
Qed.

(** Witness of X4: a store that finds every ticket. *)
Lemma registrar_trade_skips_duplicate_witness :
  ~ unconfigured sample_config /\
  Py.item (match fst (registrar_trade (sample_trade 10042) full_store_env initial_state) with
           | Returned r => r
           | Raised _ => JNull
           end) "status" = inr (JStr "skipped") /\
  issued initial_state (snd (registrar_trade (sample_trade 10042) full_store_env initial_state))
    [ticket_query sample_config 10042].
Proof.
  assert (Hcfg : ~ unconfigured (config full_store_env)) by (intros [H|H]; discriminate).
  split; [exact Hcfg|].
  destruct (registrar_trade_skips_duplicate (sample_trade 10042) full_store_env initial_state
              (JObj [ ("results", JArr [ JObj [ ("object", JStr "page"); ("id", JStr "page-7") ] ]);
                      ("has_more", JBool false); ("next_cursor", JNull) ])
              (JArr [ JObj [ ("object", JStr "page"); ("id", JStr "page-7") ] ]) 1
              Hcfg eq_refl eq_refl eq_refl eq_refl) as (Hret & Hissued & _).
  split; [now rewrite Hret | exact Hissued].
Defined.

(** *** Trade Recorder: the create request *)

Lemma same_store_refl (st : State) : same_store st st.
Proof. repeat split. Qed.

Lemma same_store_trans (st1 st2 st3 : State) :
  same_store st1 st2 -> same_store st2 st3 -> same_store st1 st3.
Proof. unfold same_store. intros (? & ? & ?) (? & ? & ?). repeat split; congruence. Qed.

(** The Date Normalizer returns an ISO 8601 string, and touches neither the
    trace nor the caches. *)
Lemma formatear_fecha_notion_run (s : string) (env : Env) (st : State) :
  exists iso st',
    formatear_fecha_notion s env st = (Returned iso, st') /\
    is_iso8601 iso = true /\ same_store st st'.
Proof.
  unfold formatear_fecha_notion.
  destruct (not_ s); [|destruct (probar_formatos s formatos_posibles)]; run;
    eexists _, _; (split; [reflexivity|]);
    (split; [apply isoformat_is_iso8601 | repeat split]).
Qed.

(** Without its collection, a resolver gives the empty identifier and
    leaves trace and caches alone. *)
Lemma buscar_o_crear_cuenta_off (n : string) (env : Env) (st : State) :
  NOTION_CUENTAS_DB_ID (config env) = "" ->
  _cache_cuentas st !! n = None ->
  exists st', buscar_o_crear_cuenta n env st = (Returned (JStr ""), st') /\ same_store st st'.
Proof.
  intros Hcfg Hmiss. apply not_true in Hcfg.
  unfold buscar_o_crear_cuenta. run. rewrite Hmiss, Hcfg. simpl.
  eexists. split; [reflexivity | repeat split].
Qed.

Lemma buscar_o_crear_estrategia_off (m : Z) (env : Env) (st : State) :
  NOTION_ESTRATEGIAS_DB_ID (config env) = "" ->
  _cache_estrategias st !! m = None ->
  exists st', buscar_o_crear_estrategia m env st = (Returned (JStr ""), st') /\ same_store st st'.
Proof.
  intros Hcfg Hmiss. apply not_true in Hcfg.
  unfold buscar_o_crear_estrategia. run. rewrite Hmiss, Hcfg. simpl.
  eexists. split; [reflexivity | repeat split].
Qed.

Lemma bind_returned {A B} (m : M A) (k : A -> M B) (env : Env) (st st' : State) (a : A) :
  m env st = (Returned a, st') -> bind m k env st = k a env st'.
Proof. intros H. unfold bind. now rewrite H. Qed.

(** The tail of the Trade Recorder, from the create request on. *)
Lemma enviar_create_tail (trade : TradeData) (cfg : Config) (p : json) (env : Env) (st : State) :
  let req := {| url := NOTION_API_URL; headers := get_notion_headers (config env);
                payload := p; timeout := 30 |} in
  let run :=
    (response <- client_post NOTION_API_URL p 30 ;;
     match response with
     | Response status_code content =>
         if status_code =? 200 then
           logger INFO 759 [JInt (ticket trade)] ;;
           response_json content
         else
           error_detail <- response_json content ;;
           logger ERROR 763 [JInt status_code; error_detail] ;;
           message <- lift (Py.get error_detail "message" (JStr "Error desconocido")) ;;
           message_str <- str message ;;
           raise (HTTPException status_code ("Error de Notion: " +:+ message_str))
     | RequestError e =>
         logger ERROR 770 [JStr e] ;;
         raise (HTTPException 503 (error_de_conexion +:+ e))
     end) env st in
  fst run = create_outcome env (notion env (calls st ++ [req])) /\
  issued st (snd run) [req] /\
  _cache_cuentas (snd run) = _cache_cuentas st /\
  _cache_estrategias (snd run) = _cache_estrategias st.
Proof.
  intros req run. subst req run. unfold issued, create_outcome. run.
  destruct (notion env _) as [e|sc content]; simpl; [repeat split|].
  destruct (sc =? 200); simpl.
  - destruct content; repeat split.
  - destruct content as [[]|]; simpl; try (repeat split; fail).
    destruct (Py.assoc "message" kv) as [[]|]; repeat split.
Qed.



(** *** Drawdown Recorder: with the dedicated collection *)

Lemma guardar_drawdown_notion_run (drawdown : DrawdownData) (env : Env) (st : State) :
  NOTION_API_KEY (config env) <> "" ->
  NOTION_DRAWDOWN_DB_ID (config env) <> "" ->
  exists fecha_iso,
    is_iso8601 fecha_iso = true /\
    issued st (snd (guardar_drawdown_notion drawdown env st))
      [drawdown_create (config env) drawdown fecha_iso] /\
    fst (guardar_drawdown_notion drawdown env st) =
      drawdown_outcome env
        (notion env (calls st ++ [drawdown_create (config env) drawdown fecha_iso])) /\
    _cache_cuentas (snd (guardar_drawdown_notion drawdown env st)) = _cache_cuentas st /\
    _cache_estrategias (snd (guardar_drawdown_notion drawdown env st)) = _cache_estrategias st.
Proof.
  intros Hkey Hdd. apply not_false in Hkey, Hdd.
  destruct (formatear_fecha_notion_run (timestamp drawdown) env st)
    as (fecha_iso & s1 & Hrun1 & Hiso & (Hc & Hcc & Hce)).
  exists fecha_iso. split; [exact Hiso|].
  unfold guardar_drawdown_notion.
  erewrite bind_returned by reflexivity. cbv beta zeta.
  rewrite !Hdd. cbv iota. rewrite ?Hdd, Hkey. cbn [orb].
  erewrite bind_returned by exact Hrun1.
  unfold issued, drawdown_outcome, drawdown_create. run. rewrite Hc, Hcc, Hce.
  destruct (notion env _) as [e|sc content]; simpl; [repeat split|].
  destruct (sc =? 200); simpl; destruct content as [v|]; simpl; repeat split.
Qed.



(** The Drawdown Recorder returns, or raises [JSONDecodeError] on a body
    that is no JSON; the latter needs the dedicated collection. *)
Lemma guardar_drawdown_notion_outcomes (drawdown : DrawdownData) (env : Env) (st : State) :
  match fst (guardar_drawdown_notion drawdown env st) with
  | Returned _ => True
  | Raised e =>
      e = JSONDecodeError /\
      NOTION_API_KEY (config env) <> "" /\ NOTION_DRAWDOWN_DB_ID (config env) <> ""
  end.
Proof.
  destruct (String.eqb_spec (NOTION_API_KEY (config env)) "") as [Hkey|Hkey];
    [|destruct (String.eqb_spec (NOTION_DRAWDOWN_DB_ID (config env)) "") as [Hdd|Hdd]].
  - unfold guardar_drawdown_notion. run. apply not_true in Hkey. rewrite Hkey. exact I.
  - unfold guardar_drawdown_notion. run. apply not_true in Hdd. rewrite Hdd. simpl.
    destruct (not_ _ || not_ _); exact I.
  - destruct (guardar_drawdown_notion_run drawdown env st Hkey Hdd)
      as (fecha_iso & _ & _ & Hout & _).
    rewrite Hout. unfold drawdown_outcome.
    destruct (notion env _) as [e|sc [v|]]; try exact I; [|now repeat split].
    destruct (sc =? 200); exact I.
Qed.


(** X8.  A snapshot that the store accepts is reported with
    [storage_status: "unknown"]: the endpoint reads the status off the
    body of the store's answer, and the page the store returns for a
    create has no [status] entry. *)
Theorem registrar_drawdown_stored_is_unknown
    (drawdown : DrawdownData) (env : Env) (st : State) (kv : list (string * json)) :
  NOTION_API_KEY (config env) <> "" ->
  NOTION_DRAWDOWN_DB_ID (config env) <> "" ->
  (forall fecha_iso,
      notion env (calls st ++ [drawdown_create (config env) drawdown fecha_iso]) =
        Response 200 (Some (JObj kv))) ->
  Py.assoc "status" kv = None ->
  exists r,
    fst (registrar_drawdown drawdown env st) = Returned r /\
    Py.item r "success" = inr (JBool true) /\
    Py.item r "storage_status" = inr (JStr "unknown").
Proof.
  intros Hkey Hdd Hans Hstatus.
  unfold registrar_drawdown, bind. cbv [logger].
  match goal with |- context [guardar_drawdown_notion drawdown env ?s] =>
    destruct (guardar_drawdown_notion_run drawdown env s Hkey Hdd)
      as (fecha_iso & _ & _ & Hout & _);
    destruct (guardar_drawdown_notion drawdown env s) as [o s'] eqn:Heq
  end.
  simpl in Hout. rewrite Hans in Hout. simpl in Hout. subst o.
  simpl. rewrite Hstatus. simpl. eexists. repeat split.
Qed.

(** Witness of X8: the store accepts the create and answers with the page. *)
Lemma registrar_drawdown_stored_is_unknown_witness :
  NOTION_API_KEY (config drawdown_up_env) <> "" /\
  NOTION_DRAWDOWN_DB_ID (config drawdown_up_env) <> "" /\
  exists r,
    fst (registrar_drawdown sample_drawdown drawdown_up_env initial_state) = Returned r /\
    Py.item r "storage_status" = inr (JStr "unknown").
Proof.
  assert (Hkey : NOTION_API_KEY (config drawdown_up_env) <> "") by discriminate.
  assert (Hdd : NOTION_DRAWDOWN_DB_ID (config drawdown_up_env) <> "") by discriminate.
  split; [exact Hkey|]. split; [exact Hdd|].
  destruct (registrar_drawdown_stored_is_unknown sample_drawdown drawdown_up_env initial_state
              [ ("object", JStr "page"); ("id", JStr "page-1") ] Hkey Hdd
              (fun _ => eq_refl) eq_refl) as (r & Hret & _ & Hstatus).
  exists r. split; assumption.
Defined.

(** *** Relation Resolver: accounts, and every magic number *)

Lemma query_url_eq (db : string) :
  NOTION_QUERY_URL +:+ "/" +:+ db +:+ "/query" =
    "https://api.notion.com/v1/databases/" +:+ db +:+ "/query".
Proof. reflexivity. Qed.

(** X9.  Resolving an account that is not cached, with the accounts
    collection configured: the resolver first looks the account up by the
    equality of its title with the name.  If the store answers 200 with a
    first result, its identifier is returned and cached, and nothing is
    created.  If it answers 200 with no result, the resolver creates the
    account, with the name as its title and nothing else; when the store
    answers the create with 200, the identifier of the body (the empty
    string without one) is returned and cached under the name. *)
Theorem buscar_o_crear_cuenta_resolves (nombre : string) (env : Env) (st : State) :
  NOTION_CUENTAS_DB_ID (config env) <> "" ->
  _cache_cuentas st !! nombre = None ->
  (forall data entity rest page_id,
      notion env (calls st ++ [cuenta_query (config env) nombre]) = Response 200 (Some data) ->
      Py.get data "results" (JArr []) = inr (JArr (entity :: rest)) ->
      Py.item entity "id" = inr page_id ->
      fst (buscar_o_crear_cuenta nombre env st) = Returned page_id /\
      issued st (snd (buscar_o_crear_cuenta nombre env st)) [cuenta_query (config env) nombre] /\
      _cache_cuentas (snd (buscar_o_crear_cuenta nombre env st)) =
        <[nombre := page_id]> (_cache_cuentas st))
  /\
  (forall data results,
      notion env (calls st ++ [cuenta_query (config env) nombre]) = Response 200 (Some data) ->
      Py.get data "results" (JArr []) = inr results ->
      Py.truthy results = false ->
      issued st (snd (buscar_o_crear_cuenta nombre env st))
        [cuenta_query (config env) nombre; cuenta_create (config env) nombre] /\
      forall created page_id,
        notion env (calls st ++ [cuenta_query (config env) nombre;
                                 cuenta_create (config env) nombre]) =
          Response 200 (Some created) ->
        Py.get created "id" (JStr "") = inr page_id ->
        fst (buscar_o_crear_cuenta nombre env st) = Returned page_id /\
        _cache_cuentas (snd (buscar_o_crear_cuenta nombre env st)) =
          <[nombre := page_id]> (_cache_cuentas st)).
Proof.
  intros Hcfg Hmiss. apply not_false in Hcfg.
  unfold cuenta_query, cuenta_create, buscar_o_crear_cuenta, issued. run.
  rewrite Hmiss, Hcfg. simpl. unfold buscar_cuenta_payload. rewrite ?query_url_eq. unfold NOTION_API_URL.
  split.
  - intros data entity rest page_id Hans Hres Hid.
    rewrite Hans. simpl. rewrite Hres. simpl. rewrite Hid. simpl.
    repeat split.
  - intros data results Hans Hres Hempty.
    rewrite Hans. simpl. rewrite Hres. simpl. rewrite Hempty.
    unfold crear_cuenta. run. unfold titulo, NOTION_API_URL. simpl.
    rewrite <- !app_assoc. simpl.
    split.
    + destruct (notion env (calls st ++ [_; _])) as [e|sc content]; simpl; [reflexivity|].
      destruct (sc =? 200); simpl; [|reflexivity].
      destruct content as [created|]; simpl; [|reflexivity].
      destruct (Py.get created _ _); reflexivity.
    + intros created page_id Hcreate Hid.
      rewrite Hcreate. simpl. rewrite Hid. simpl. split; reflexivity.
Qed.

(** Witness of X9: the store has no account, it is created. *)
Lemma buscar_o_crear_cuenta_resolves_witness :
  NOTION_CUENTAS_DB_ID (config empty_store_env) <> "" /\
  _cache_cuentas initial_state !! "FTMO_01" = None /\
  issued initial_state (snd (buscar_o_crear_cuenta "FTMO_01" empty_store_env initial_state))
    [cuenta_query sample_config "FTMO_01"; cuenta_create sample_config "FTMO_01"] /\
  fst (buscar_o_crear_cuenta "FTMO_01" empty_store_env initial_state) = Returned (JStr "page-1").
Proof.
  assert (Hcfg : NOTION_CUENTAS_DB_ID (config empty_store_env) <> "") by discriminate.
  assert (Hmiss : _cache_cuentas initial_state !! "FTMO_01" = None) by reflexivity.
  destruct (buscar_o_crear_cuenta_resolves "FTMO_01" empty_store_env initial_state Hcfg Hmiss)
    as [_ Hcreate].
  destruct (Hcreate (JObj [ ("results", JArr []); ("has_more", JBool false);
                            ("next_cursor", JNull) ]) (JArr [])
              eq_refl eq_refl eq_refl) as [Hissued Hid].
  destruct (Hid (JObj [ ("object", JStr "page"); ("id", JStr "page-1") ]) (JStr "page-1")
              eq_refl eq_refl) as [Hret _].
  repeat split; assumption.
Defined.

(** X10.  A resolver degrades instead of failing.  With its collection
    configured and its key not cached: when the lookup does not succeed (no
    connection, or a status other than 200), the resolver returns the
    empty identifier after that one request; when the lookup finds nothing
    and the create does not succeed, it returns the empty identifier after
    those two requests.  In both cases nothing is cached, so the next
    resolution of the key asks the store again. *)
Theorem resolvers_degrade (env : Env) (st : State) :
  (forall nombre,
      NOTION_CUENTAS_DB_ID (config env) <> "" ->
      _cache_cuentas st !! nombre = None ->
      (not_ok (notion env (calls st ++ [cuenta_query (config env) nombre])) ->
       fst (buscar_o_crear_cuenta nombre env st) = Returned (JStr "") /\
       issued st (snd (buscar_o_crear_cuenta nombre env st)) [cuenta_query (config env) nombre] /\
       _cache_cuentas (snd (buscar_o_crear_cuenta nombre env st)) = _cache_cuentas st)
      /\
      (forall data results,
          notion env (calls st ++ [cuenta_query (config env) nombre]) =
            Response 200 (Some data) ->
          Py.get data "results" (JArr []) = inr results ->
          Py.truthy results = false ->
          not_ok (notion env (calls st ++ [cuenta_query (config env) nombre;
                                           cuenta_create (config env) nombre])) ->
          fst (buscar_o_crear_cuenta nombre env st) = Returned (JStr "") /\
          _cache_cuentas (snd (buscar_o_crear_cuenta nombre env st)) = _cache_cuentas st))
  /\
  (forall magic,
      NOTION_ESTRATEGIAS_DB_ID (config env) <> "" ->
      _cache_estrategias st !! magic = None ->
      (not_ok (notion env (calls st ++ [estrategia_query (config env) magic])) ->
       fst (buscar_o_crear_estrategia magic env st) = Returned (JStr "") /\
       issued st (snd (buscar_o_crear_estrategia magic env st))
         [estrategia_query (config env) magic] /\
       _cache_estrategias (snd (buscar_o_crear_estrategia magic env st)) =
         _cache_estrategias st)
      /\
      (forall data results,
          notion env (calls st ++ [estrategia_query (config env) magic]) =
            Response 200 (Some data) ->
          Py.get data "results" (JArr []) = inr results ->
          Py.truthy results = false ->
          not_ok (notion env (calls st ++
                    [estrategia_query (config env) magic;
                     estrategia_create (config env) magic (nombre_estrategia magic)])) ->
          fst (buscar_o_crear_estrategia magic env st) = Returned (JStr "") /\
          _cache_estrategias (snd (buscar_o_crear_estrategia magic env st)) =
            _cache_estrategias st)).
Proof.
  split.
  - intros nombre Hcfg Hmiss. apply not_false in Hcfg.
    unfold cuenta_query, cuenta_create, buscar_o_crear_cuenta, issued. run.
    rewrite Hmiss, Hcfg. simpl. unfold buscar_cuenta_payload. rewrite ?query_url_eq. unfold NOTION_API_URL.
    split.
    + intros Hbad. destruct (notion env _) as [e|sc content]; simpl in *; [repeat split|].
      apply Z.eqb_neq in Hbad. rewrite Hbad. repeat split.
    + intros data results Hans Hres Hempty.
      rewrite Hans. simpl. rewrite Hres. simpl. rewrite Hempty.
      unfold crear_cuenta. run. unfold titulo, NOTION_API_URL. simpl.
      rewrite <- !app_assoc. simpl. intros Hbad.
      destruct (notion env (calls st ++ [_; _])) as [e|sc content]; simpl in *; [repeat split|].
      apply Z.eqb_neq in Hbad. rewrite Hbad. repeat split.
  - intros magic Hcfg Hmiss. apply not_false in Hcfg.
    unfold estrategia_query, estrategia_create, buscar_o_crear_estrategia, issued. run.
    rewrite Hmiss, Hcfg. simpl. unfold buscar_estrategia_payload. rewrite ?query_url_eq. unfold NOTION_API_URL.
    split.
    + intros Hbad. destruct (notion env _) as [e|sc content]; simpl in *; [repeat split|].
      apply Z.eqb_neq in Hbad. rewrite Hbad. repeat split.
    + intros data results Hans Hres Hempty.
      rewrite Hans. simpl. rewrite Hres. simpl. rewrite Hempty.
      unfold crear_estrategia. run. unfold crear_estrategia_payload, titulo, NOTION_API_URL. simpl.
      rewrite <- !app_assoc. simpl. intros Hbad.
      destruct (notion env (calls st ++ [_; _])) as [e|sc content]; simpl in *; [repeat split|].
      apply Z.eqb_neq in Hbad. rewrite Hbad. repeat split.
Qed.

(** Witness of X10: the store cannot be reached. *)
Lemma resolvers_degrade_witness :
  NOTION_CUENTAS_DB_ID (config unreachable_env) <> "" /\
  _cache_cuentas initial_state !! "FTMO_01" = None /\
  not_ok (notion unreachable_env (calls initial_state ++ [cuenta_query sample_config "FTMO_01"])) /\
  fst (buscar_o_crear_cuenta "FTMO_01" unreachable_env initial_state) = Returned (JStr "") /\
  _cache_cuentas (snd (buscar_o_crear_cuenta "FTMO_01" unreachable_env initial_state)) =
    _cache_cuentas initial_state.
Proof.
  assert (Hcfg : NOTION_CUENTAS_DB_ID (config unreachable_env) <> "") by discriminate.
  assert (Hmiss : _cache_cuentas initial_state !! "FTMO_01" = None) by reflexivity.
  destruct (proj1 (resolvers_degrade unreachable_env initial_state) "FTMO_01" Hcfg Hmiss)
    as [Hfail _].
  destruct (Hfail I) as (Hret & _ & Hcache).
  repeat split; assumption.
Defined.

Lemma append_inj_l (p a b : string) : p +:+ a = p +:+ b -> a = b.
Proof.
  induction p as [|c p IH]; intros H.
  - exact H.
  - change (String c (p +:+ a) = String c (p +:+ b)) in H.
    injection H as H. now apply IH.
Qed.

Lemma str_of_int_inj (a b : Z) : Py.str_of_int a = Py.str_of_int b -> a = b.
Proof.
  unfold Py.str_of_int. intros H.
  assert (Hnil : forall z, Z.to_int z <> Decimal.Pos Decimal.Nil /\
                           Z.to_int z <> Decimal.Neg Decimal.Nil).
  { intros z. split; intros Hz; pose proof (f_equal Z.of_int Hz) as Hz';
      rewrite DecimalZ.of_to in Hz'; simpl in Hz'; subst z; discriminate Hz. }
  apply (f_equal NilZero.int_of_string) in H.
  rewrite !NilZero.isi in H by apply Hnil.
  injection H as H. now apply DecimalZ.to_int_inj.
Qed.

(** X11.  The title a strategy entity is created with tells its magic
    number: it is "Manual (0)" for 0 and "Estrategia " followed by the
    decimal number otherwise, and two magic numbers never share a title.
    With the strategies collection configured and the magic number not
    cached, a lookup that finds nothing is followed by the create of the
    entity with that title and the magic number as its number. *)
Theorem crear_estrategia_title (env : Env) (st : State) :
  (forall a b, nombre_estrategia a = nombre_estrategia b -> a = b) /\
  (forall magic, magic <> 0 ->
     nombre_estrategia magic = "Estrategia " +:+ Py.str_of_int magic) /\
  (forall magic data results,
      NOTION_ESTRATEGIAS_DB_ID (config env) <> "" ->
      _cache_estrategias st !! magic = None ->
      notion env (calls st ++ [estrategia_query (config env) magic]) =
        Response 200 (Some data) ->
      Py.get data "results" (JArr []) = inr results ->
      Py.truthy results = false ->
      issued st (snd (buscar_o_crear_estrategia magic env st))
        [estrategia_query (config env) magic;
         estrategia_create (config env) magic (nombre_estrategia magic)]).
Proof.
  split; [|split].
  - intros a b. unfold nombre_estrategia.
    destruct (Z.eqb_spec a 0) as [->|Ha], (Z.eqb_spec b 0) as [->|Hb]; simpl; intros H.
    + reflexivity.
    + discriminate.
    + discriminate.
    + apply append_inj_l in H. now apply str_of_int_inj.
  - intros magic Hne. unfold nombre_estrategia.
    apply Z.eqb_neq in Hne. now rewrite Hne.
  - intros magic data results Hcfg Hmiss Hans Hres Hempty. apply not_false in Hcfg.
    revert Hans.
    unfold estrategia_query, estrategia_create, buscar_o_crear_estrategia, issued. run.
    rewrite Hmiss, Hcfg. simpl. unfold buscar_estrategia_payload.
    rewrite ?query_url_eq. unfold NOTION_API_URL. intros Hans.
    rewrite Hans. simpl. rewrite Hres. simpl. rewrite Hempty.
    unfold crear_estrategia. run. unfold crear_estrategia_payload, titulo, NOTION_API_URL.
    simpl. rewrite <- !app_assoc. simpl.
    destruct (notion env (calls st ++ [_; _])) as [e|sc content]; simpl; [reflexivity|].
    destruct (sc =? 200); simpl; [|reflexivity].
    destruct content as [created|]; simpl; [|reflexivity].
    destruct (Py.get created _ _); reflexivity.
Qed.

(** Witness of X11: magic number 7 in a store without strategies. *)
Lemma crear_estrategia_title_witness :
  NOTION_ESTRATEGIAS_DB_ID (config empty_store_env) <> "" /\
  _cache_estrategias initial_state !! 7 = None /\
  nombre_estrategia 7 = "Estrategia 7" /\
  issued initial_state (snd (buscar_o_crear_estrategia 7 empty_store_env initial_state))
    [estrategia_query sample_config 7; estrategia_create sample_config 7 "Estrategia 7"].
Proof.
  assert (Hcfg : NOTION_ESTRATEGIAS_DB_ID (config empty_store_env) <> "") by discriminate.
  assert (Hmiss : _cache_estrategias initial_state !! 7 = None) by reflexivity.
  split; [exact Hcfg|]. split; [exact Hmiss|]. split; [reflexivity|].
  exact (proj2 (proj2 (crear_estrategia_title empty_store_env initial_state)) 7
           (JObj [ ("results", JArr []); ("has_more", JBool false); ("next_cursor", JNull) ])
           (JArr []) Hcfg Hmiss eq_refl eq_refl eq_refl).
Defined.

(** *** Ticket Enumerator: reading a page of results *)

(** The loop over the pages of a result, on fields on which [isdigit] and
    [int] agree. *)
Lemma extraer_tickets_plain (strs : list string) :
  forall (tickets : list Z) (env : Env) (st : State),
    Forall plain_text strs ->
    extraer_tickets (map ticket_page strs) tickets env st =
      (Returned (tickets ++ omap ticket_of_text strs), st).
Proof.
  induction strs as [|s strs IH]; intros tickets env st Hplain; simpl map.
  - simpl. now rewrite app_nil_r.
  - inversion Hplain as [|? ? Hs Hrest]; subst.
    assert (Hcase : Py.isdigit s = false \/ exists n, Py.isdigit s = true /\ Py.int s = Some n).
    { destruct (Py.isdigit s) eqn:Hd; [right | now left].
      destruct Hs as [Hs|Hs]; [congruence|].
      destruct (String.eqb_spec s "") as [->|Hne]; [vm_compute in Hd; discriminate|].
      destruct (int_of_decimal s Hne Hs) as [_ [n Hn]]. eauto. }
    destruct Hcase as [Hd|(n & Hd & Hn)].
    + rewrite (extraer_tickets_skips s _ _ env st Hd), IH by assumption.
      assert (Ht : ticket_of_text s = None) by (unfold ticket_of_text; now rewrite Hd).
      change (omap ticket_of_text (s :: strs))
        with (match ticket_of_text s with
              | Some n => n :: omap ticket_of_text strs
              | None => omap ticket_of_text strs
              end).
      now rewrite Ht.
    + rewrite (extraer_tickets_appends s n _ _ env st Hd Hn), IH by assumption.
      assert (Ht : ticket_of_text s = Some n) by (unfold ticket_of_text; now rewrite Hd).
      change (omap ticket_of_text (s :: strs))
        with (match ticket_of_text s with
              | Some n => n :: omap ticket_of_text strs
              | None => omap ticket_of_text strs
              end).
      rewrite Ht. now rewrite <- app_assoc.
Qed.



(** X13.  A page without a ticket title is skipped: when the [Ticket]
    property of the page, its [title] or the page's [properties] are
    missing, or the title list is empty, the loop goes on to the next page
    with the list of tickets unchanged. *)
Theorem extraer_tickets_missing (page : json) (title_list : json) (resto : list json)
    (tickets : list Z) (env : Env) (st : State) :
  title_list_of page = inr title_list ->
  Py.truthy title_list = false ->
  extraer_tickets (page :: resto) tickets env st = extraer_tickets resto tickets env st.
Proof.
  unfold title_list_of. intros Htl Hempty. simpl. run.
  destruct (Py.get page "properties" (JObj [])) as [e|props]; [discriminate|]. simpl.
  destruct (Py.get props "Ticket" (JObj [])) as [e|ticket_prop]; [discriminate|]. simpl.
  rewrite Htl. simpl. now rewrite Hempty.
Qed.

(** Witness of X13: a page that is an empty object. *)
Lemma extraer_tickets_missing_witness :
  title_list_of (JObj []) = inr (JArr []) /\ Py.truthy (JArr []) = false /\
  extraer_tickets [JObj []; ticket_page "7"] [] empty_store_env initial_state =
    extraer_tickets [ticket_page "7"] [] empty_store_env initial_state.
Proof.
  split; [reflexivity|]. split; [reflexivity|].
  exact (extraer_tickets_missing (JObj []) (JArr []) [ticket_page "7"] []
           empty_store_env initial_state eq_refl eq_refl).
Defined.

(** *** Ticket Enumerator: pagination *)

(** One iteration of the loop on a page the store answers with a 200. *)
Lemma paginar_step (fuel : nat) (cuenta : string) (tickets : list Z) (h c : json)
    (env : Env) (st : State) (data : json) (strs : list string) (h' c' : json) :
  Py.truthy h = true ->
  notion env (calls st ++ [tickets_query (config env) cuenta c]) = Response 200 (Some data) ->
  Py.get data "results" (JArr []) = inr (JArr (map ticket_page strs)) ->
  Forall plain_text strs ->
  Py.get data "has_more" (JBool false) = inr h' ->
  Py.get data "next_cursor" JNull = inr c' ->
  paginar (S fuel) cuenta tickets h c env st =
    paginar fuel cuenta (tickets ++ omap ticket_of_text strs) h' c' env
      (sent st [tickets_query (config env) cuenta c]).
Proof.
  intros Hmore Hans Hres Hplain Hh Hc.
  assert (Hq : client_post (NOTION_QUERY_URL +:+ "/" +:+ NOTION_DATABASE_ID (config env) +:+ "/query")
                 (obtener_tickets_payload cuenta c) 60 env st =
               (Returned (Response 200 (Some data)),
                sent st [tickets_query (config env) cuenta c])).
  { unfold client_post. rewrite <- Hans. reflexivity. }
  cbn [paginar]. rewrite Hmore. cbn [negb].
  rewrite (bind_returned the_config _ env st st (config env) eq_refl).
  cbv zeta. rewrite (bind_returned _ _ env st _ _ Hq).
  change (200 =? 200) with true. cbv iota.
  unfold response_json.
  rewrite (bind_returned (ret data) _ env _ _ data eq_refl).
  rewrite Hres. unfold lift at 1.
  rewrite (bind_returned (ret (JArr (map ticket_page strs))) _ env _ _ _ eq_refl).
  unfold Py.iter at 1. unfold lift at 1.
  rewrite (bind_returned (ret (map ticket_page strs)) _ env _ _ _ eq_refl).
  rewrite (bind_returned _ _ env _ _ _ (extraer_tickets_plain strs tickets env _ Hplain)).
  rewrite Hh, Hc. unfold lift.
  rewrite (bind_returned (ret h') _ env _ _ _ eq_refl).
  rewrite (bind_returned (ret c') _ env _ _ _ eq_refl).
  reflexivity.
Qed.

Lemma sent_sent (st : State) (a b : list Request) : sent (sent st a) b = sent st (a ++ b).
Proof. unfold sent. simpl. now rewrite app_assoc. Qed.

(** The loop over the pages a store serves: one request per page, each at
    the cursor the page before handed out; the loop is then where the last
    page leaves it. *)
Lemma paginar_scan (env : Env) (cuenta : string) (cursor : nat -> json) (total : nat)
    (pages : list (list string)) :
  forall (page : list string) (first : nat) (tickets : list Z) (h : json)
         (fuel : nat) (st : State),
    Py.truthy h = true ->
    serves env cuenta cursor total first (page :: pages) ->
    Forall (Forall plain_text) (page :: pages) ->
    (first + length pages < total)%nat ->
    let last_page := (first + length pages)%nat in
    paginar (S (length pages) + fuel) cuenta tickets h (cursor_at cursor first) env st =
      paginar fuel cuenta (tickets ++ tickets_of (page :: pages))
        (JBool (S last_page <? total)%nat)
        (if (S last_page <? total)%nat then cursor last_page else JNull) env
        (sent st (scan (config env) cuenta cursor first (S (length pages)))).
Proof.
  induction pages as [|page' pages IH]; intros page first tickets h fuel st Hmore Hserves Hplain Hlt;
    inversion Hplain as [|? ? Hpage Hrest]; subst.
  - cbn [length Nat.add] in *. rewrite Nat.add_0_r in *. cbv zeta.
    pose proof (Hserves (calls st) 0%nat page eq_refl) as Hans.
    rewrite Nat.add_0_r in Hans.
    rewrite (paginar_step fuel cuenta tickets h _ env st _ page _ _ Hmore Hans
               eq_refl Hpage eq_refl eq_refl).
    unfold tickets_of. simpl. now rewrite app_nil_r.
  - cbn [length Nat.add] in *. cbv zeta.
    pose proof (Hserves (calls st) 0%nat page eq_refl) as Hans.
    rewrite Nat.add_0_r in Hans.
    rewrite (paginar_step _ cuenta tickets h _ env st _ page _ _ Hmore Hans
               eq_refl Hpage eq_refl eq_refl).
    assert (Hnext : (S first <? total)%nat = true) by (apply Nat.ltb_lt; lia).
    rewrite Hnext.
    assert (Hserves' : serves env cuenta cursor total (S first) (page' :: pages)).
    { intros trace j p Hj. specialize (Hserves trace (S j) p Hj).
      now replace (first + S j)%nat with (S first + j)%nat in Hserves by lia. }
    specialize (IH page' (S first) (tickets ++ omap ticket_of_text page) (JBool true) fuel
                  (sent st [tickets_query (config env) cuenta (cursor_at cursor first)])
                  eq_refl Hserves' Hrest ltac:(lia)).
    cbv zeta in IH. cbn [length Nat.add] in IH.
    change (cursor first) with (cursor_at cursor (S first)).
    rewrite IH. rewrite sent_sent.
    replace (first + S (length pages))%nat with (S (first + length pages))%nat by lia.
    unfold tickets_of. simpl. rewrite <- app_assoc. reflexivity.
Qed.


Lemma two_pages_served :
  serves two_pages_env "FTMO_01" (fun _ => JStr "cursor-1") 2 0 two_pages.
Proof.
  intros trace j page Hj. unfold two_pages_env, sample_env. cbn [notion].
  unfold two_pages_store. rewrite last_snoc.
  destruct j as [|[|j]]; simpl in Hj; inversion Hj; subst; reflexivity.
Qed.

Lemma two_pages_plain : Forall (Forall plain_text) two_pages.
Proof. repeat constructor; solve [left; reflexivity | right; reflexivity]. Qed.



Lemma torn_served :
  serves torn_env "FTMO_01" (fun _ => JStr "cursor-1") 2 0 [ ["10042"; "10043"] ].
Proof.
  intros trace j page Hj. unfold torn_env, sample_env. cbn [notion].
  unfold torn_store. rewrite last_snoc.
  destruct j as [|j]; simpl in Hj; inversion Hj; subst; reflexivity.
Qed.

Lemma torn_fails (trace : list Request) :
  not_ok (notion torn_env (trace ++ [tickets_query (config torn_env) "FTMO_01"
                                       (cursor_at (fun _ => JStr "cursor-1") 1)])).
Proof.
  unfold torn_env, sample_env. cbn [notion]. unfold torn_store. rewrite last_snoc.
  simpl. discriminate.
Qed.


(** The loop on a store that always answers the same page, which says
    there is more. *)
Lemma paginar_endless (env : Env) (cuenta : string) (data : json) (strs : list string)
    (h c : json) :
  (forall trace, notion env trace = Response 200 (Some data)) ->
  Py.get data "results" (JArr []) = inr (JArr (map ticket_page strs)) ->
  Forall plain_text strs ->
  Py.get data "has_more" (JBool false) = inr h ->
  Py.truthy h = true ->
  Py.get data "next_cursor" JNull = inr c ->
  forall (fuel : nat) (tickets : list Z) (h0 c0 : json) (st : State),
    Py.truthy h0 = true ->
    let run := paginar fuel cuenta tickets h0 c0 env st in
    fst run = Returned None /\
    issued st (snd run)
      match fuel with
      | O => []
      | S fuel' => tickets_query (config env) cuenta c0
                   :: replicate fuel' (tickets_query (config env) cuenta c)
      end.
Proof.
  intros Hans Hres Hplain Hh Hmore Hc.
  induction fuel as [|fuel IH]; intros tickets h0 c0 st Hmore0; cbv zeta.
  - cbn [paginar]. rewrite Hmore0. unfold issued. simpl. now rewrite app_nil_r.
  - rewrite (paginar_step fuel cuenta tickets h0 c0 env st data strs h c Hmore0
               (Hans _) Hres Hplain Hh Hc).
    destruct (IH (tickets ++ omap ticket_of_text strs) h c
                (sent st [tickets_query (config env) cuenta c0]) Hmore) as [Hv Hi].
    split; [exact Hv|].
    unfold issued in *. rewrite Hi. cbn [sent calls]. rewrite <- app_assoc.
    destruct fuel; reflexivity.
Qed.



(** X17.  The tickets endpoint of a server that is not configured: the
    answer is the one of an account without trades, an empty list with
    [total] 0, no error; no request is issued. *)
Theorem obtener_tickets_unconfigured (fuel : nat) (cuenta : string) (env : Env) (st : State) :
  unconfigured (config env) ->
  let run := obtener_tickets fuel cuenta env st in
  fst run = Returned (Some (JObj [ ("cuenta", JStr cuenta); ("total", JInt 0);
                                   ("tickets", JArr []) ])) /\
  issued st (snd run) [].
Proof.
  intros Hcfg run. subst run.
  apply (unconfigured_test (config env)) in Hcfg.
  unfold obtener_tickets, obtener_tickets_cuenta, issued. run.
  rewrite Hcfg. simpl. now rewrite app_nil_r.
Qed.

(** Witness of X17: no configuration at all. *)
Lemma obtener_tickets_unconfigured_witness :
  unconfigured (config empty_config_env) /\
  fst (obtener_tickets 0 "FTMO_01" empty_config_env initial_state) =
    Returned (Some (JObj [ ("cuenta", JStr "FTMO_01"); ("total", JInt 0);
                           ("tickets", JArr []) ])) /\
  issued initial_state (snd (obtener_tickets 0 "FTMO_01" empty_config_env initial_state)) [].
Proof.
  assert (Hcfg : unconfigured (config empty_config_env)) by (left; reflexivity).
  split; [exact Hcfg|].
  exact (obtener_tickets_unconfigured 0 "FTMO_01" empty_config_env initial_state Hcfg).
Defined.

(** *** Batch Orchestrator: every trade is reported once *)

(** The loop body files the trade in exactly one bucket, under its ticket
    and the status of the bucket. *)
Lemma registrar_uno_files (trade : TradeData) (b b' : Buckets) (env : Env) (st st' : State) :
  registrar_uno trade b env st = (Returned b', st') ->
  exists entry,
    ((filed b b' [entry] [] [] /\ entry_status entry = Some "success") \/
     (filed b b' [] [entry] [] /\ entry_status entry = Some "skipped") \/
     (filed b b' [] [] [entry] /\ entry_status entry = Some "error")) /\
    entry_ticket entry = Some (ticket trade).
Proof.
  unfold registrar_uno, try_except_HTTPException, bind, lift, ret, raise.
  cases; try discriminate; intros [= <- _]; eexists;
    (split;
     [ first [ left; split; [split; simpl; rewrite ?app_nil_r; reflexivity | reflexivity]
             | right; left; split; [split; simpl; rewrite ?app_nil_r; reflexivity | reflexivity]
             | right; right; split; [split; simpl; rewrite ?app_nil_r; reflexivity | reflexivity] ]
     | reflexivity ]).
Qed.

Lemma registrar_todos_files (trades : list TradeData) :
  forall (b b' : Buckets) (env : Env) (st st' : State),
    registrar_todos trades b env st = (Returned b', st') ->
    exists nuevos saltados fallados,
      filed b b' nuevos saltados fallados /\
      partitions (batch_tickets trades) nuevos saltados fallados.
Proof.
  induction trades as [|trade resto IH]; intros b b' env st st'; simpl.
  - intros [= <- _]. exists [], [], [].
    split; [split; now rewrite app_nil_r|].
    split; simpl; constructor.
  - unfold bind.
    destruct (registrar_uno trade b env st) as [[b1|e] s] eqn:Huno; [|discriminate].
    intros Hresto.
    apply IH in Hresto as (n & sk & f & [Hn Hs Hf] & [Hall Hsn Hss Hsf Hok Hskip Herr]).
    apply registrar_uno_files in Huno as (entry & Hcase & Ht).
    unfold batch_tickets, reported, all_status in *. cbn [map].
    destruct Hcase as [[[Hn1 Hs1 Hf1] Hst] | [[[Hn1 Hs1 Hf1] Hst] | [[Hn1 Hs1 Hf1] Hst]]];
      rewrite ?app_nil_r in *.
    + exists (entry :: n), sk, f. split.
      * split; [rewrite Hn, Hn1, <- app_assoc; reflexivity | congruence | congruence].
      * split; unfold reported, all_status; cbn [map]; rewrite ?Ht; try assumption.
        -- simpl. apply perm_skip, Hall.
        -- now apply sublist_skip.
        -- now apply sublist_cons.
        -- now apply sublist_cons.
        -- now constructor.
    + exists n, (entry :: sk), f. split.
      * split; [congruence | rewrite Hs, Hs1, <- app_assoc; reflexivity | congruence].
      * split; unfold reported, all_status; cbn [map]; rewrite ?Ht; try assumption.
        -- rewrite <- Hall. symmetry. apply Permutation_middle.
        -- now apply sublist_cons.
        -- now apply sublist_skip.
        -- now apply sublist_cons.
        -- now constructor.
    + exists n, sk, (entry :: f). split.
      * split; [congruence | congruence | rewrite Hf, Hf1, <- app_assoc; reflexivity].
      * split; unfold reported, all_status; cbn [map]; rewrite ?Ht; try assumption.
        -- rewrite <- Hall. rewrite app_assoc. symmetry.
           rewrite <- Permutation_middle. now rewrite app_assoc.
        -- now apply sublist_cons.
        -- now apply sublist_cons.
        -- now apply sublist_skip.
        -- now constructor.
Qed.



(** *** Date Normalizer: reading back a written date *)

(** A number below a bound given by a numeral is one of the numbers below
    it. *)
Ltac below n bound :=
  let k := fresh "k" in
  let Hk := fresh "Hk" in
  assert (Hk : exists k : nat, n = Z.of_nat k /\ (k < bound)%nat)
    by (exists (Z.to_nat n); lia);
  destruct Hk as (k & -> & Hk).

Lemma re_m_written (n : Z) (r : list ascii) :
  1 <= n <= 12 -> Py.re_m (Py.digit_char (n / 10) :: Py.digit_char n :: r) = Some (n, r).
Proof.
  intros H. below n 13%nat.
  do 13 (destruct k as [|k]; [first [reflexivity | lia]|]). lia.
Qed.

Lemma re_d_written (n : Z) (r : list ascii) :
  1 <= n <= 31 -> Py.re_d (Py.digit_char (n / 10) :: Py.digit_char n :: r) = Some (n, r).
Proof.
  intros H. below n 32%nat.
  do 32 (destruct k as [|k]; [first [reflexivity | lia]|]). lia.
Qed.

Lemma re_H_written (n : Z) (r : list ascii) :
  0 <= n <= 23 -> Py.re_H (Py.digit_char (n / 10) :: Py.digit_char n :: r) = Some (n, r).
Proof.
  intros H. below n 24%nat.
  do 24 (destruct k as [|k]; [first [reflexivity | lia]|]). lia.
Qed.

Lemma re_M_written (n : Z) (r : list ascii) :
  0 <= n <= 59 -> Py.re_M (Py.digit_char (n / 10) :: Py.digit_char n :: r) = Some (n, r).
Proof.
  intros H. below n 60%nat.
  do 60 (destruct k as [|k]; [first [reflexivity | lia]|]). lia.
Qed.

Lemma re_S_written (n : Z) (r : list ascii) :
  0 <= n <= 59 -> Py.re_S (Py.digit_char (n / 10) :: Py.digit_char n :: r) = Some (n, r).
Proof.
  intros H. below n 60%nat.
  do 60 (destruct k as [|k]; [first [reflexivity | lia]|]). lia.
Qed.

Lemma re_Y_written (n : Z) (r : list ascii) :
  0 <= n <= 9999 ->
  Py.re_Y (Py.digit_char (n / 100 / 10) :: Py.digit_char (n / 100) ::
           Py.digit_char (n / 10) :: Py.digit_char n :: r) = Some (n, r).
Proof.
  intros H. unfold Py.re_Y. rewrite !isdecimal_digit_char. cbn [andb].
  rewrite !digit_val_digit_char. do 2 f_equal.
  Z.to_euclidean_division_equations. lia.
Qed.

(** One step of the matching: a directive, a literal that agrees, a literal
    that does not, white space, the end. *)
Lemma match_layout_directive (dir : ascii) (re : Py.matcher) (fmt : list ascii) (ws : bool)
    (inp inp' : list ascii) (v : Z) (f f' : Py.found) :
  Py.directive dir = Some re -> re inp = Some (v, inp') -> Py.set_field dir v f = Some f' ->
  Py.match_layout ("%"%char :: dir :: fmt) ws inp f = Py.match_layout fmt false inp' f'.
Proof. intros Hd Hre Hs. cbn [Py.match_layout]. simpl Py.is_char. now rewrite Hd, Hre, Hs. Qed.

Lemma match_layout_literal (c a : ascii) (fmt : list ascii) (ws : bool) (inp : list ascii)
    (f : Py.found) :
  Py.is_char 37 c = false -> Py.isspace_char c = false ->
  Py.match_layout (c :: fmt) ws (a :: inp) f =
    if Py.ord (Py.lower a) =? Py.ord (Py.lower c) then Py.match_layout fmt false inp f
    else None.
Proof. intros Hp Hs. cbn [Py.match_layout]. now rewrite Hp, Hs. Qed.

Lemma match_layout_space (c a : ascii) (fmt : list ascii) (inp : list ascii) (f : Py.found) :
  Py.is_char 37 c = false -> Py.isspace_char c = true -> Py.isspace_char a = true ->
  Py.match_layout (c :: fmt) false (a :: inp) f = Py.match_layout fmt true (Py.lstrip inp) f.
Proof. intros Hp Hs Ha. cbn [Py.match_layout]. now rewrite Hp, Hs, Ha. Qed.

Lemma lstrip_digit_char (k : Z) (r : list ascii) :
  Py.lstrip (Py.digit_char k :: r) = Py.digit_char k :: r.
Proof.
  cbn [Py.lstrip].
  assert (H : Py.isspace_char (Py.digit_char k) = false); [|now rewrite H].
  unfold Py.isspace_char, Py.in_range. rewrite ord_digit_char.
  pose proof (Z.mod_pos_bound k 10 ltac:(lia)) as Hm.
  repeat match goal with
         | |- context [?a <=? ?b] => destruct (Z.leb_spec a b); try lia
         | |- context [?a =? ?b] => destruct (Z.eqb_spec a b); try lia
         end; reflexivity.
Qed.

(** The fields the layout [%Y sep %m sep %d mid %H:%M:%S] finds in a date
    written with the same separators. *)
Lemma match_layout_written (sep mid : ascii) (dt : Py.datetime) :
  (sep = "."%char \/ sep = "-"%char) -> (mid = "T"%char \/ mid = " "%char) ->
  Py.match_layout
    ("%"%char :: "Y"%char :: sep :: "%"%char :: "m"%char :: sep :: "%"%char :: "d"%char ::
     mid :: Py.chars "%H:%M:%S") false (Py.chars (written sep mid dt)) Py.found0 =
    Some (Py.Found (Py.year dt) (Py.month dt) (Py.day dt)
                   (Py.hour dt) (Py.minute dt) (Py.second dt)).
Proof.
  intros Hsep Hmid.
  destruct (datetime_ranges dt) as (Hy & Hm & Hd & Hh & Hn & Hs & _).
  unfold written, Py.chars. rewrite list_ascii_of_string_of_list_ascii.
  unfold Py.d4, Py.d2. cbn [app list_ascii_of_string].
  erewrite match_layout_directive;
    [|reflexivity | apply re_Y_written; lia | reflexivity].
  assert (Hlit : forall fmt ws inp f,
             Py.match_layout (sep :: fmt) ws (sep :: inp) f = Py.match_layout fmt false inp f).
  { intros. destruct Hsep as [->| ->]; reflexivity. }
  rewrite Hlit.
  erewrite match_layout_directive;
    [|reflexivity | apply re_m_written; lia | reflexivity].
  rewrite Hlit.
  erewrite match_layout_directive;
    [|reflexivity | apply re_d_written; lia | reflexivity].
  assert (Hmidlit : forall fmt k inp f,
             Py.match_layout (mid :: "%"%char :: fmt) false (mid :: Py.digit_char k :: inp) f =
             Py.match_layout ("%"%char :: fmt) false (Py.digit_char k :: inp) f \/
             Py.match_layout (mid :: "%"%char :: fmt) false (mid :: Py.digit_char k :: inp) f =
             Py.match_layout ("%"%char :: fmt) true (Py.digit_char k :: inp) f).
  { intros. destruct Hmid as [->| ->].
    - left. reflexivity.
    - right. rewrite match_layout_space by reflexivity. now rewrite lstrip_digit_char. }
  destruct (Hmidlit ("H"%char :: ":"%char :: "%"%char :: "M"%char :: ":"%char :: "%"%char ::
                     "S"%char :: [])
              (Py.hour dt / 10)
              (Py.digit_char (Py.hour dt) :: ":"%char :: Py.digit_char (Py.minute dt / 10) ::
               Py.digit_char (Py.minute dt) :: ":"%char :: Py.digit_char (Py.second dt / 10) ::
               Py.digit_char (Py.second dt) :: [])
              (Py.Found (Py.year dt) (Py.month dt) (Py.day dt) 0 0 0)) as [E|E].
  all: cbn [Py.f_Y Py.f_m Py.f_d Py.f_H Py.f_M Py.f_S Py.found0].
  all: rewrite E.
  all: erewrite match_layout_directive;
         [|reflexivity | apply re_H_written; lia | reflexivity].
  all: rewrite match_layout_literal by reflexivity; simpl (Py.ord _ =? Py.ord _).
  all: erewrite match_layout_directive;
         [|reflexivity | apply re_M_written; lia | reflexivity].
  all: rewrite match_layout_literal by reflexivity; simpl (Py.ord _ =? Py.ord _).
  all: erewrite match_layout_directive;
         [|reflexivity | apply re_S_written; lia | reflexivity].
  all: reflexivity.
Qed.

Lemma chars_written (sep mid : ascii) (dt : Py.datetime) :
  Py.chars (written sep mid dt) =
    Py.digit_char (Py.year dt / 100 / 10) :: Py.digit_char (Py.year dt / 100) ::
    Py.digit_char (Py.year dt / 10) :: Py.digit_char (Py.year dt) :: sep ::
    Py.digit_char (Py.month dt / 10) :: Py.digit_char (Py.month dt) :: sep ::
    Py.digit_char (Py.day dt / 10) :: Py.digit_char (Py.day dt) :: mid ::
    Py.digit_char (Py.hour dt / 10) :: Py.digit_char (Py.hour dt) :: ":"%char ::
    Py.digit_char (Py.minute dt / 10) :: Py.digit_char (Py.minute dt) :: ":"%char ::
    Py.digit_char (Py.second dt / 10) :: Py.digit_char (Py.second dt) :: [].
Proof.
  unfold written, Py.chars. rewrite list_ascii_of_string_of_list_ascii. reflexivity.
Qed.

(** A layout with the same separators reads the written date. *)
Lemma strptime_written (sep mid : ascii) (dt : Py.datetime) :
  (sep = "."%char \/ sep = "-"%char) -> (mid = "T"%char \/ mid = " "%char) ->
  Py.strptime (written sep mid dt)
    (String "%" (String "Y" (String sep (String "%" (String "m" (String sep
       (String "%" (String "d" (String mid "%H:%M:%S"))))))))) =
    Py.mk_datetime (Py.year dt) (Py.month dt) (Py.day dt)
                   (Py.hour dt) (Py.minute dt) (Py.second dt) 0.
Proof.
  intros Hsep Hmid. unfold Py.strptime.
  pose proof (match_layout_written sep mid dt Hsep Hmid) as H.
  change (Py.chars (String "%" (String "Y" (String sep (String "%" (String "m" (String sep
            (String "%" (String "d" (String mid "%H:%M:%S"))))))))))
    with ("%"%char :: "Y"%char :: sep :: "%"%char :: "m"%char :: sep :: "%"%char ::
          "d"%char :: mid :: Py.chars "%H:%M:%S").
  now rewrite H.
Qed.

(** A layout with the other separator in the date does not. *)
Lemma strptime_other_sep (sep sep' mid : ascii) (rest : string) (dt : Py.datetime) :
  (sep = "."%char /\ sep' = "-"%char) \/ (sep = "-"%char /\ sep' = "."%char) ->
  Py.strptime (written sep mid dt) (String "%" (String "Y" (String sep' rest))) = None.
Proof.
  intros Hsep. unfold Py.strptime. rewrite chars_written.
  destruct (datetime_ranges dt) as (Hy & _).
  change (Py.chars (String "%" (String "Y" (String sep' rest))))
    with ("%"%char :: "Y"%char :: sep' :: Py.chars rest).
  erewrite match_layout_directive;
    [|reflexivity | apply re_Y_written; lia | reflexivity].
  destruct Hsep as [[-> ->]|[-> ->]]; rewrite match_layout_literal by reflexivity; reflexivity.
Qed.

(** A layout with [T] does not read a date written with a space. *)
Lemma strptime_other_mid (sep : ascii) (rest : string) (dt : Py.datetime) :
  (sep = "."%char \/ sep = "-"%char) ->
  Py.strptime (written sep " " dt)
    (String "%" (String "Y" (String sep (String "%" (String "m" (String sep
       (String "%" (String "d" (String "T" rest))))))))) = None.
Proof.
  intros Hsep. unfold Py.strptime. rewrite chars_written.
  destruct (datetime_ranges dt) as (Hy & Hm & Hd & _).
  change (Py.chars (String "%" (String "Y" (String sep (String "%" (String "m" (String sep
            (String "%" (String "d" (String "T" rest))))))))))
    with ("%"%char :: "Y"%char :: sep :: "%"%char :: "m"%char :: sep :: "%"%char ::
          "d"%char :: "T"%char :: Py.chars rest).
  assert (Hlit : forall fmt ws inp f,
             Py.match_layout (sep :: fmt) ws (sep :: inp) f = Py.match_layout fmt false inp f).
  { intros. destruct Hsep as [->| ->]; reflexivity. }
  erewrite match_layout_directive;
    [|reflexivity | apply re_Y_written; lia | reflexivity].
  rewrite Hlit.
  erewrite match_layout_directive;
    [|reflexivity | apply re_m_written; lia | reflexivity].
  rewrite Hlit.
  erewrite match_layout_directive;
    [|reflexivity | apply re_d_written; lia | reflexivity].
  rewrite match_layout_literal by reflexivity. reflexivity.
Qed.

(** The [datetime] of the fields of a [datetime], without the
    microseconds, exists and is printed as the ISO 8601 layout writes it. *)
Lemma mk_datetime_written (dt : Py.datetime) :
  exists dt',
    Py.mk_datetime (Py.year dt) (Py.month dt) (Py.day dt)
                   (Py.hour dt) (Py.minute dt) (Py.second dt) 0 = Some dt' /\
    Py.isoformat dt' = written "-" "T" dt.
Proof.
  unfold Py.mk_datetime.
  destruct (Sumbool.sumbool_of_bool _) as [ok|bad].
  - eexists. split; [reflexivity|].
    unfold Py.isoformat, written.
    cbn [Py.year Py.month Py.day Py.hour Py.minute Py.second Py.microsecond].
    change (0 =? 0) with true. cbv iota. now rewrite app_nil_r.
  - exfalso. pose proof (Py.datetime_ok dt) as Hok.
    unfold Py.fields_ok in *.
    repeat (apply andb_true_iff in Hok; destruct Hok as [Hok ?]).
    repeat match goal with H : _ = true |- _ => rewrite H in bad end.
    discriminate bad.
Qed.

(** X19.  Reading back a written date.  For every calendar instant, the
    date written with zero-padded fields, a dot or a hyphen between the
    fields of the date, and a [T] or a space before the time (the four
    layouts of the normaliser) is normalised to the same instant in the
    ISO 8601 layout: the fields are kept, the clock is not read, nothing is
    logged and the state is not touched.  In particular the normaliser is
    the identity on its own output for an instant without microseconds. *)
Theorem formatear_fecha_notion_reads_back (sep mid : ascii) (dt : Py.datetime)
    (env : Env) (st : State) :
  (sep = "."%char \/ sep = "-"%char) -> (mid = "T"%char \/ mid = " "%char) ->
  formatear_fecha_notion (written sep mid dt) env st =
    (Returned (written "-" "T" dt), st).
Proof.
  intros Hsep Hmid.
  destruct (mk_datetime_written dt) as (dt' & Hmk & Hiso).
  assert (Hne : not_ (written sep mid dt) = false) by (unfold written; reflexivity).
  assert (Hfound : probar_formatos (written sep mid dt) formatos_posibles = Some dt').
  { unfold formatos_posibles. cbn [probar_formatos].
    destruct Hsep as [->| ->], Hmid as [->| ->].
    - rewrite (strptime_written "." "T" dt) by auto. now rewrite Hmk.
    - rewrite (strptime_other_mid "." "%H:%M:%S" dt) by auto.
      rewrite (strptime_other_sep "." "-" " " "%m-%dT%H:%M:%S" dt) by auto.
      rewrite (strptime_written "." " " dt) by auto. now rewrite Hmk.
    - rewrite (strptime_other_sep "-" "." "T" "%m.%dT%H:%M:%S" dt) by auto.
      rewrite (strptime_written "-" "T" dt) by auto. now rewrite Hmk.
    - rewrite (strptime_other_sep "-" "." " " "%m.%dT%H:%M:%S" dt) by auto.
      rewrite (strptime_other_mid "-" "%H:%M:%S" dt) by auto.
      rewrite (strptime_other_sep "-" "." " " "%m.%d %H:%M:%S" dt) by auto.
      rewrite (strptime_written "-" " " dt) by auto. now rewrite Hmk. }
  unfold formatear_fecha_notion. rewrite Hne, Hfound. unfold ret. now rewrite Hiso.
Qed.

(** Witness of X19: a date as the terminal writes it. *)
Lemma formatear_fecha_notion_reads_back_witness :
  written "." " " epoch = "1970.01.01 00:00:00" /\
  written "-" "T" epoch = "1970-01-01T00:00:00" /\
  formatear_fecha_notion "1970.01.01 00:00:00" empty_store_env initial_state =
    (Returned "1970-01-01T00:00:00", initial_state).
Proof.
  split; [reflexivity|]. split; [reflexivity|].
  exact (formatear_fecha_notion_reads_back "." " " epoch empty_store_env initial_state
           (or_introl eq_refl) (or_intror eq_refl)).
Defined.

(** *** The status endpoints *)

(** What a computation did stays done by what follows it. *)
Lemma bind_tail {A B} (m : M A) (k : A -> M B) (env : Env) (st : State) :
  (forall a, steady (k a)) -> later env (snd (m env st)) (snd (bind m k env st)).
Proof.
  intros Hk. unfold bind. destruct (m env st) as [[a|e] s]; simpl.
  - apply Hk.
  - apply later_refl.
Qed.

(** The Duplicate Checker of a configured server issues its query. *)
Lemma verificar_ticket_existe_queries (ticket : Z) (cuenta : string) (env : Env) (st : State) :
  ~ unconfigured (config env) ->
  issued st (snd (verificar_ticket_existe ticket cuenta env st))
    [ticket_query (config env) ticket].
Proof.
  intros Hcfg. pose proof (unconfigured_test (config env)) as Ht.
  unfold verificar_ticket_existe, issued. run.
  destruct (not_ _ || not_ _); simpl; [exfalso; apply Hcfg; now apply Ht|].
  destruct (notion env _) as [e|sc content]; simpl; [reflexivity|].
  destruct (sc =? 200); simpl; [|reflexivity].
  destruct content as [data|]; simpl; [|reflexivity].
  destruct (Py.get data _ _) as [e|results]; simpl; [reflexivity|].
  destruct (Py.len results); reflexivity.
Qed.

(** The trade endpoint of a configured server reaches the store: its first
    request is the query of the Duplicate Checker. *)
Lemma registrar_trade_reaches (trade : TradeData) (env : Env) (st : State) :
  ~ unconfigured (config env) ->
  exists rest,
    issued st (snd (registrar_trade trade env st))
      (ticket_query (config env) (ticket trade) :: rest).
Proof.
  intros Hcfg. pose proof (unconfigured_test (config env)) as Ht.
  assert (Hu : not_ (NOTION_API_KEY (config env)) || not_ (NOTION_DATABASE_ID (config env))
               = false).
  { destruct (not_ _ || not_ _); [exfalso; apply Hcfg; now apply Ht | reflexivity]. }
  assert (Henviar : forall s, exists rest,
             issued s (snd (enviar_a_notion trade true env s))
               (ticket_query (config env) (ticket trade) :: rest)).
  { intros s. unfold enviar_a_notion.
    rewrite (bind_returned the_config _ env s s (config env) eq_refl). rewrite Hu.
    match goal with
    | |- context [bind ?m ?k env s] =>
        pose proof (bind_tail m k env s) as Htail
    end.
    destruct Htail as [(reqs & Hc & _) _ _ _ _].
    { intros existe. steady_auto. }
    pose proof (verificar_ticket_existe_queries (ticket trade) (identificador_cuenta trade)
                  env s Hcfg) as Hq.
    unfold issued in *. cbv iota in Hc. rewrite Hq in Hc.
    exists reqs. rewrite Hc. now rewrite <- app_assoc. }
  unfold registrar_trade.
  erewrite (bind_returned (logger _ _ _) _ env st _ tt) by reflexivity.
  match goal with
  | |- context [bind ?m ?k env ?s] =>
      pose proof (bind_tail m k env s) as Htail; destruct (Henviar s) as (rest & Hrest)
  end.
  destruct Htail as [(reqs & Hc & _) _ _ _ _].
  { intros resultado_notion. steady_auto. }
  unfold issued in *. rewrite Hrest in Hc. simpl calls in Hc.
  exists (rest ++ reqs). rewrite Hc. now rewrite <- app_assoc.
Qed.

(** X20.  The status endpoint tells the truth about the trade endpoint.
    [GET /] returns without touching the state, and its flag
    [notion_configured] is false exactly when the credential or the
    identifier of the primary collection is missing, and true exactly when
    [POST /trade] reaches the store, with the query of the Duplicate
    Checker as its first request; [drawdown_db_configured] is true exactly
    when the identifier of the drawdown collection is set. *)
Theorem root_reports_configuration (env : Env) (st : State) (trade : TradeData) :
  exists flag dd : bool,
    root env st =
      (Returned (JObj [ ("status", JStr "online"); ("service", JStr "MT4 Trade Logger");
                        ("version", JStr "2.0.0"); ("notion_configured", JBool flag);
                        ("drawdown_db_configured", JBool dd) ]), st) /\
    (flag = false <-> unconfigured (config env)) /\
    (flag = true <->
     exists rest,
       issued st (snd (registrar_trade trade env st))
         (ticket_query (config env) (ticket trade) :: rest)) /\
    (dd = true <-> NOTION_DRAWDOWN_DB_ID (config env) <> "").
Proof.
  pose proof (unconfigured_test (config env)) as Ht.
  eexists _, _. split; [reflexivity|].
  assert (Hflag : both_set (NOTION_API_KEY (config env)) (NOTION_DATABASE_ID (config env)) = false
                  <-> unconfigured (config env)).
  { rewrite Ht. unfold both_set.
    destruct (not_ (NOTION_API_KEY (config env))), (not_ (NOTION_DATABASE_ID (config env)));
      simpl; intuition congruence. }
  split; [exact Hflag|]. split.
  - split.
    + intros Hset. apply registrar_trade_reaches. intros Hun. apply Hflag in Hun. congruence.
    + intros (rest & Hrest).
      apply not_false_iff_true. intros Hb.
      apply Hflag, Ht in Hb.
      unfold registrar_trade, enviar_a_notion, issued in Hrest. revert Hrest. run.
      rewrite Hb. simpl. intros Hrest.
      rewrite <- (app_nil_r (calls st)) in Hrest at 1.
      apply app_inv_head in Hrest. discriminate Hrest.
  - unfold not_. destruct (String.eqb_spec (NOTION_DRAWDOWN_DB_ID (config env)) "") as [->|Hne];
      simpl; split; congruence.
Qed.

(** X21.  The liveness endpoint reads the clock once and returns that
    instant as an ISO 8601 string; it issues no request and logs nothing. *)
Theorem health_check_timestamp (env : Env) (st : State) :
  exists iso,
    fst (health_check env st) =
      Returned (JObj [ ("status", JStr "healthy"); ("timestamp", JStr iso) ]) /\
    iso = Py.isoformat (now env (clock_reads st)) /\
    is_iso8601 iso = true /\
    clock_reads (snd (health_check env st)) = S (clock_reads st) /\
    issued st (snd (health_check env st)) [] /\
    logs (snd (health_check env st)) = logs st.
Proof.
  eexists. split; [reflexivity|]. split; [reflexivity|].
  split; [apply isoformat_is_iso8601|].
  split; [reflexivity|]. split; [|reflexivity].
  unfold issued. simpl. now rewrite app_nil_r.
Qed.
